(** * Structural-health monitoring: anomaly detection and alert dispatch

    A shallow embedding of the Python services of the repository
    ([services/sensor_service.py], [services/alert_service.py],
    [services/ml_service.py], with [models.py] and [config.py]) and the
    properties of the pipeline stated in the specification.

    Conventions of the embedding.
    - A Python [float] is represented by the shortest decimal that reads
      back to it, which is also what [repr] prints; comparisons are the
      comparisons of these decimals as rationals.
    - A [datetime] is the number of microseconds since 1970-01-01T00:00:00
      (naive UTC, as [datetime.utcnow] gives it).
    - The relational store, the mail and SMS gateways and scikit-learn are
      collaborators: what they answer during one call of a service is
      read from a [World], the clock included, which does not move
      during the call.
    - A function of a service is a computation over the state [Sys], which
      may return or raise; a dictionary it returns is a value of an
      inductive type with one constructor for each shape of the
      dictionary.
    - An object that a function changes ([self], a reading, a model row)
      is passed in and handed back, or lives in the session.
    - The truth value of an object is what [bool] gives: [None] is false;
      an [IsolationForest] is an ensemble and has a length, the number of
      its fitted trees, which do not exist before [fit]; a
      [OneClassSVM] and a [StandardScaler] have neither [__bool__] nor
      [__len__] and are true. *)

From Stdlib Require Import ZArith List String Ascii Bool Lia Permutation.
From Stdlib Require Import DecimalString Sorted.
Import ListNotations.
Local Open Scope string_scope.
Local Open Scope Z_scope.

(* ------------------------------------------------------------------ *)
(** ** Python values *)

Module PyStr.

Definition is_lower (c : ascii) : bool :=
  let n := nat_of_ascii c in (97 <=? n)%nat && (n <=? 122)%nat.

Definition is_upper (c : ascii) : bool :=
  let n := nat_of_ascii c in (65 <=? n)%nat && (n <=? 90)%nat.

Definition upper_char (c : ascii) : ascii :=
  if is_lower c then ascii_of_nat (nat_of_ascii c - 32) else c.

Definition lower_char (c : ascii) : ascii :=
  if is_upper c then ascii_of_nat (nat_of_ascii c + 32) else c.

(** [str.upper()] on ASCII text. *)
Fixpoint upper (s : string) : string :=
  match s with
  | EmptyString => EmptyString
  | String c r => String (upper_char c) (upper r)
  end.

(** [str.title()] on ASCII text: a letter that follows a letter is
    lowered, any other letter is raised. *)
Fixpoint title_after (cased : bool) (s : string) : string :=
  match s with
  | EmptyString => EmptyString
  | String c r =>
      if is_lower c || is_upper c
      then String (if cased then lower_char c else upper_char c)
                  (title_after true r)
      else String c (title_after false r)
  end.

Definition title (s : string) : string := title_after false s.

Fixpoint zeros (n : nat) : string :=
  match n with
  | O => EmptyString
  | S k => String "0" (zeros k)
  end.

(** [str(n)] for an integer [n]. *)
Definition of_Z (n : Z) : string :=
  match n with
  | Zpos p => NilEmpty.string_of_uint (Pos.to_uint p)
  | Z0 => "0"
  | Zneg p => String "-" (NilEmpty.string_of_uint (Pos.to_uint p))
  end.

End PyStr.

Module PyFloat.

(** The decimal [mant * 10 ^ expo]. *)
Record t : Type := mk { mant : Z; expo : Z }.

Definition zero : t := mk 0 0.

(** [a >= b]. *)
Definition ge (a b : t) : bool :=
  let m := Z.min (expo a) (expo b) in
  mant b * 10 ^ (expo b - m) <=? mant a * 10 ^ (expo a - m).

Fixpoint strip (fuel : nat) (m e : Z) : Z * Z :=
  match fuel with
  | O => (m, e)
  | S k =>
      if m =? 0 then (0, 0)
      else if m mod 10 =? 0 then strip k (m / 10) (e + 1)
      else (m, e)
  end.

(** Trailing zeros of the mantissa moved into the exponent. *)
Definition normal (x : t) : Z * Z :=
  strip (S (Z.to_nat (Z.log2 (Z.abs (mant x))))) (mant x) (expo x).

(** [repr(x)], which is also [str(x)] and what an f-string field
    [{x}] prints: the digits with a point when the decimal point
    falls in [-4 < decpt <= 16], the exponent form otherwise. *)
Definition repr (x : t) : string :=
  let '(m, e) := normal x in
  if m =? 0 then "0.0"
  else
    let sign := if m <? 0 then "-" else "" in
    let ds := PyStr.of_Z (Z.abs m) in
    let nd := Z.of_nat (String.length ds) in
    let decpt := nd + e in
    if (decpt <=? -4) || (16 <? decpt) then
      let x10 := decpt - 1 in
      let frac := substring 1 (String.length ds - 1) ds in
      let digits2 := PyStr.of_Z (Z.abs x10) in
      sign ++ substring 0 1 ds
           ++ (if nd =? 1 then "" else "." ++ frac)
           ++ "e" ++ (if x10 <? 0 then "-" else "+")
           ++ (if Z.abs x10 <? 10 then "0" ++ digits2 else digits2)
    else if decpt <=? 0 then
      sign ++ "0." ++ PyStr.zeros (Z.to_nat (- decpt)) ++ ds
    else if nd <=? decpt then
      sign ++ ds ++ PyStr.zeros (Z.to_nat (decpt - nd)) ++ ".0"
    else
      sign ++ substring 0 (Z.to_nat decpt) ds ++ "."
           ++ substring (Z.to_nat decpt) (Z.to_nat (nd - decpt)) ds.

(** [float(n)] for an integer [n]. *)
Definition of_int (n : Z) : t := mk n 0.

End PyFloat.

(* ------------------------------------------------------------------ *)
(** ** models.py *)

Module SensorReading.
Record t : Type := mk {
  id : nat;
  timestamp : Z;
  vibration : PyFloat.t;
  strain : PyFloat.t;
  temperature : PyFloat.t;
  is_anomaly : bool;
  anomaly_score : PyFloat.t;
  alert_level : string;
  alert_sent : bool
}.

Definition set_alert_sent (b : bool) (r : t) : t :=
  mk (id r) (timestamp r) (vibration r) (strain r) (temperature r)
     (is_anomaly r) (anomaly_score r) (alert_level r) b.
End SensorReading.

(* ------------------------------------------------------------------ *)
(** ** config.py *)

Module Metric.
(** The keys of [Config.ALERT_THRESHOLDS], which are attribute names of
    a reading. *)
Inductive t : Type := vibration | strain | temperature.

Definition name (m : t) : string :=
  match m with
  | vibration => "vibration"
  | strain => "strain"
  | temperature => "temperature"
  end.
End Metric.

Module Config.
Record Limits : Type := limits { warning : PyFloat.t; critical : PyFloat.t }.

Definition ALERT_THRESHOLDS : list (Metric.t * Limits) :=
  [ (Metric.vibration,   limits (PyFloat.mk 20 (-1)) (PyFloat.mk 25 (-1)));
    (Metric.strain,      limits (PyFloat.mk 5 (-1)) (PyFloat.mk 7 (-1)));
    (Metric.temperature, limits (PyFloat.mk 350 (-1)) (PyFloat.mk 400 (-1))) ].

(** [timedelta(hours=24)], in microseconds. *)
Definition ML_MODEL_RETRAIN_INTERVAL : Z := 24 * 3600 * 1000000.
Definition ML_TRAINING_DATA_SIZE : nat := 1000.
End Config.

(* ------------------------------------------------------------------ *)
(** ** services/sensor_service.py: the threshold evaluator *)

Module SensorService.

(** [getattr(reading, sensor_type)]. *)
Definition getattr (reading : SensorReading.t) (sensor_type : Metric.t) : PyFloat.t :=
  match sensor_type with
  | Metric.vibration => SensorReading.vibration reading
  | Metric.strain => SensorReading.strain reading
  | Metric.temperature => SensorReading.temperature reading
  end.

(** One turn of the loop of [check_thresholds] over
    [thresholds.items()]; the pair is [(alert_level, messages)]. *)
Definition check_one (reading : SensorReading.t)
    (acc : string * list string) (item : Metric.t * Config.Limits)
  : string * list string :=
  let '(alert_level, messages) := acc in
  let '(sensor_type, limits) := item in
  let value := getattr reading sensor_type in
  if PyFloat.ge value (Config.critical limits) then
    ("critical",
     (messages ++ [(PyStr.title (Metric.name sensor_type) ++ " critical: "
                     ++ PyFloat.repr value ++ " >= "
                     ++ PyFloat.repr (Config.critical limits))%string])%list)
  else if PyFloat.ge value (Config.warning limits)
          && negb (alert_level =? "critical")%string then
    ("warning",
     (messages ++ [(PyStr.title (Metric.name sensor_type) ++ " warning: "
                     ++ PyFloat.repr value ++ " >= "
                     ++ PyFloat.repr (Config.warning limits))%string])%list)
  else (alert_level, messages).

Definition check_thresholds_in (thresholds : list (Metric.t * Config.Limits))
    (reading : SensorReading.t) : string * list string :=
  fold_left (check_one reading) thresholds ("normal", []).

Definition check_thresholds (reading : SensorReading.t) : string * list string :=
  check_thresholds_in Config.ALERT_THRESHOLDS reading.

(** Some metric of the reading is at or above its critical floor. *)
Definition breaches_critical (reading : SensorReading.t) : bool :=
  existsb (fun item => PyFloat.ge (getattr reading (fst item))
                                  (Config.critical (snd item)))
          Config.ALERT_THRESHOLDS.

End SensorService.

(* ------------------------------------------------------------------ *)
(** ** datetime *)

Module datetime.

Definition second_ : Z := 1000000.
Definition hours (n : Z) : Z := n * 3600 * second_.
Definition days (n : Z) : Z := n * 86400 * second_.

Definition epoch_seconds (t : Z) : Z := t / second_.
Definition epoch_days (t : Z) : Z := epoch_seconds t / 86400.

Definition hour (t : Z) : Z := (epoch_seconds t mod 86400) / 3600.
Definition minute (t : Z) : Z := (epoch_seconds t mod 3600) / 60.
Definition second (t : Z) : Z := epoch_seconds t mod 60.

(** [weekday()]: Monday is 0; 1970-01-01 was a Thursday. *)
Definition weekday (t : Z) : Z := (epoch_days t + 3) mod 7.

(** Year, month and day of the proleptic Gregorian calendar. *)
Definition civil (t : Z) : Z * Z * Z :=
  let z := epoch_days t + 719468 in
  let era := z / 146097 in
  let doe := z - era * 146097 in
  let yoe := (doe - doe / 1460 + doe / 36524 - doe / 146096) / 365 in
  let y := yoe + era * 400 in
  let doy := doe - (365 * yoe + yoe / 4 - yoe / 100) in
  let mp := (5 * doy + 2) / 153 in
  let d := doy - (153 * mp + 2) / 5 + 1 in
  let m := if mp <? 10 then mp + 3 else mp - 9 in
  (if m <=? 2 then y + 1 else y, m, d).

Definition pad (width : nat) (n : Z) : string :=
  let ds := PyStr.of_Z n in
  PyStr.zeros (width - String.length ds) ++ ds.

(** [strftime('%H:%M')]. *)
Definition strftime_HM (t : Z) : string :=
  pad 2 (hour t) ++ ":" ++ pad 2 (minute t).

(** [strftime('%Y%m%d_%H%M%S')]. *)
Definition strftime_stamp (t : Z) : string :=
  let '(y, m, d) := civil t in
  pad 4 y ++ pad 2 m ++ pad 2 d ++ "_"
    ++ pad 2 (hour t) ++ pad 2 (minute t) ++ pad 2 (second t).

End datetime.

(* ------------------------------------------------------------------ *)
(** ** models.py, continued: the other two tables *)

Module MLModel.
Record t : Type := mk {
  id : nat;
  model_name : string;
  model_type : string;
  training_data_size : nat;
  accuracy_score : option PyFloat.t;
  created_at : Z;
  is_active : bool;
  model_params : string
}.

Definition set_is_active (b : bool) (m : t) : t :=
  mk (id m) (model_name m) (model_type m) (training_data_size m)
     (accuracy_score m) (created_at m) b (model_params m).
End MLModel.

Module AlertLog.
Record t : Type := mk {
  id : nat;
  reading_id : nat;
  alert_type : string;
  alert_level : string;
  recipient : string;
  message : string;
  sent_at : Z;
  success : bool;
  error_message : option string
}.
End AlertLog.

(* ------------------------------------------------------------------ *)
(** ** scikit-learn objects held by the ML service *)

(** A row of the feature matrix. *)
Definition Features : Type := list PyFloat.t.

Inductive Estimator : Type :=
| IsolationForest (contamination : PyFloat.t) (random_state n_estimators : Z)
| OneClassSVM (nu : PyFloat.t) (kernel gamma : string).

(** [StandardScaler()]; [fitted_on] is the matrix [fit_transform] saw. *)
Record Scaler : Type := StandardScaler { scaler_fitted_on : option (list Features) }.

(** An estimator object; [fitted_on] is the matrix [fit] saw. *)
Record Model : Type := mkModel {
  estimator : Estimator;
  fitted_on : option (list Features)
}.

(** The attributes of an [MLService] instance. *)
Record MLServiceObj : Type := mkMLService {
  model : option Model;
  scaler : option Scaler;
  model_type : string
}.

(* ------------------------------------------------------------------ *)
(** ** The relational store and the session *)

Record Tables : Type := mkTables {
  sensor_readings : list SensorReading.t;
  ml_models : list MLModel.t;
  alert_logs : list AlertLog.t
}.

(** A call handed to a gateway. *)
Inductive GatewayCall : Type :=
| mail_send (subject sender recipient body : string)
| twilio_create (body : string) (from_ : option string) (to : string).

(** The state the services run in.  [session] is the unit of work of
    [db.session], with the changes not yet committed; [stored] is what
    is committed, which is what another session reads; [journal] keeps
    every committed state, the newest first.  [ml] is the [MLService]
    instance the call is made on; [wire] lists the gateway calls made,
    the oldest first. *)
Record Sys : Type := mkSys {
  session : Tables;
  stored : Tables;
  journal : list Tables;
  ml : MLServiceObj;
  wire : list GatewayCall
}.

(** Places where the code talks to the store. *)
Inductive Site : Type :=
| select_readings
| insert_model
| select_model
| update_model
| count_alerts
| insert_alert (alert_type recipient : string)
| update_reading.

Inductive outcome (A : Type) : Type :=
| Return (a : A)
| Raise (e : string).
Arguments Return {A} a.
Arguments Raise {A} e.

(** What the collaborators answer during one call of a service.  An
    answer [Some e] of a fault oracle is an exception whose [str] is [e]. *)
Record World : Type := mkWorld {
  utcnow : Z;
  store_fault : Site -> option string;
  MAIL_USERNAME : option string;
  TWILIO_PHONE_NUMBER : option string;
  (** [mail.send(msg)] *)
  mail_fault : GatewayCall -> option string;
  (** [twilio_client.messages.create(...)]: the message SID or an error *)
  twilio_answer : GatewayCall -> outcome string;
  (** the report text of [send_email_alert], which prints a float to
      three places *)
  email_body : SensorReading.t -> string -> list string -> string;
  (** [StandardScaler.fit_transform], [fit], [transform], [predict],
      [decision_function] *)
  sk_fit_transform : list Features -> outcome (list Features);
  sk_fit : Estimator -> list Features -> option string;
  sk_transform : Scaler -> list Features -> outcome (list Features);
  sk_predict : Model -> list Features -> outcome (list Z);
  sk_decision_function : Model -> list Features -> outcome (list PyFloat.t)
}.

(* ------------------------------------------------------------------ *)
(** ** Computations: state and exceptions *)

Definition M (A : Type) : Type := Sys -> Sys * outcome A.

Definition ret {A} (a : A) : M A := fun s => (s, Return a).

Definition raise {A} (e : string) : M A := fun s => (s, Raise e).

Definition bind {A B} (m : M A) (k : A -> M B) : M B :=
  fun s =>
    match m s with
    | (s', Return a) => k a s'
    | (s', Raise e) => (s', Raise e)
    end.

(** [try: m except Exception as e: handler(str(e))] *)
Definition try_except {A} (m : M A) (handler : string -> M A) : M A :=
  fun s =>
    match m s with
    | (s', Return a) => (s', Return a)
    | (s', Raise e) => handler e s'
    end.

Declare Scope py_scope.
Delimit Scope py_scope with py.
Notation "x <- m ;; k" := (bind m (fun x => k))
  (at level 100, m at next level, right associativity) : py_scope.
Notation "m ;; k" := (bind m (fun _ => k))
  (at level 100, right associativity) : py_scope.
Local Open Scope py_scope.

Definition lift {A} (o : outcome A) : M A := fun s => (s, o).

Definition get : M Sys := fun s => (s, Return s).

Definition modify (f : Sys -> Sys) : M unit := fun s => (f s, Return tt).

(** [for x in xs: acc = body x acc] *)
Fixpoint for_each {A B} (xs : list A) (body : A -> B -> M B) (acc : B) : M B :=
  match xs with
  | [] => ret acc
  | x :: rest => acc' <- body x acc ;; for_each rest body acc'
  end.

Module db.

Definition with_session (f : Tables -> Tables) (s : Sys) : Sys :=
  mkSys (f (session s)) (stored s) (journal s) (ml s) (wire s).

(** [db.session.commit()] *)
Definition commit (w : World) (site : Site) : M unit :=
  fun s =>
    match store_fault w site with
    | Some e => (s, Raise e)
    | None =>
        (mkSys (session s) (session s) (session s :: journal s) (ml s) (wire s),
         Return tt)
    end.

(** [db.session.rollback()] *)
Definition rollback : M unit :=
  modify (fun s => mkSys (stored s) (stored s) (journal s) (ml s) (wire s)).

(** A [SELECT] over one table of the session: [query.filter(...)]. *)
Definition select {R} (w : World) (site : Site) (table : Tables -> list R)
    (where_ : R -> bool) : M (list R) :=
  fun s =>
    match store_fault w site with
    | Some e => (s, Raise e)
    | None => (s, Return (filter where_ (table (session s))))
    end.

(** [order_by(key.desc())]: rows with equal keys keep their order. *)
Fixpoint insert_desc {R} (key : R -> Z) (x : R) (l : list R) : list R :=
  match l with
  | [] => [x]
  | y :: r => if key y <=? key x then x :: l else y :: insert_desc key x r
  end.

Definition order_by_desc {R} (key : R -> Z) (l : list R) : list R :=
  fold_right (insert_desc key) [] l.

(** The primary key given to a new row. *)
Definition next_id {R} (id : R -> nat) (table : list R) : nat :=
  S (fold_right Nat.max O (map id table)).

End db.

(* ------------------------------------------------------------------ *)
(** ** services/alert_service.py *)

(** The dictionary a [send_*_alert] returns: [{"success": True,
    "message": ..., "sid": ...}] or [{"error": ...}]. *)
Inductive SendResult : Type :=
| sent (message : string) (sid : option string)
| send_error (error : string).

(** An entry of [results]: [{"type": ..., "recipient": ..., "result": ...}]. *)
Record Attempt : Type := attempt {
  attempt_type : string;
  attempt_recipient : string;
  attempt_result : SendResult
}.

(** The dictionary [check_and_send_alerts] returns: [{"message": ...}]
    or [{"alerts_sent": results}]. *)
Inductive DispatchResult : Type :=
| message_ (text : string)
| alerts_sent (results : list Attempt).

(** The attributes of an [AlertService] instance: whether
    [self.twilio_client] is set. *)
Record AlertServiceObj : Type := mkAlertService { twilio_client : bool }.

Module AlertService.

(** [not x] for an optional string: [None] and the empty string. *)
Definition falsy (x : option string) : bool :=
  match x with
  | None => true
  | Some v => (v =? "")%string
  end.

Definition call_gateway (c : GatewayCall) : M unit :=
  modify (fun s => mkSys (session s) (stored s) (journal s) (ml s)
                         (wire s ++ [c])%list).

Definition add_alert_log (w : World) (reading_id : nat)
    (alert_type alert_level recipient message : string)
    (success : bool) (error_message : option string) : M unit :=
  modify (db.with_session (fun t =>
    mkTables (sensor_readings t) (ml_models t)
      (alert_logs t ++
         [AlertLog.mk (db.next_id AlertLog.id (alert_logs t)) reading_id
            alert_type alert_level recipient message (utcnow w)
            success error_message])%list)).

Definition _log_alert (w : World) (reading_id : nat)
    (alert_type alert_level recipient message : string)
    (success : bool) (error_message : option string) : M unit :=
  try_except
    (add_alert_log w reading_id alert_type alert_level recipient message
                   success error_message ;;
     db.commit w (insert_alert alert_type recipient))
    (fun e => db.rollback).

Definition send_email_alert (w : World) (reading : SensorReading.t)
    (alert_level : string) (messages : list string) (recipient : string)
  : M SendResult :=
  try_except
    (if falsy (MAIL_USERNAME w) then ret (send_error "Email not configured")
     else
       let subject := "SHM Alert - " ++ PyStr.upper alert_level in
       let body := email_body w reading alert_level messages in
       let msg := mail_send subject
                    (match MAIL_USERNAME w with Some u => u | None => "" end)
                    recipient body in
       call_gateway msg ;;
       match mail_fault w msg with
       | Some e => raise e
       | None =>
           _log_alert w (SensorReading.id reading) "email" alert_level
                      recipient body true None ;;
           ret (sent "Email sent successfully" None)
       end)
    (fun e =>
       let error_msg := "Error sending email alert: " ++ e in
       _log_alert w (SensorReading.id reading) "email" alert_level
                  recipient "" false (Some error_msg) ;;
       ret (send_error error_msg)).

(** The degree sign of the SMS text, in UTF-8. *)
Definition degree : string :=
  String (ascii_of_nat 194) (String (ascii_of_nat 176) EmptyString).

Definition sms_body (reading : SensorReading.t) (alert_level : string)
    (messages : list string) : string :=
  "SHM " ++ PyStr.upper alert_level ++ " ALERT at "
    ++ datetime.strftime_HM (SensorReading.timestamp reading) ++ ": "
    ++ "V:" ++ PyFloat.repr (SensorReading.vibration reading)
    ++ " S:" ++ PyFloat.repr (SensorReading.strain reading)
    ++ " T:" ++ PyFloat.repr (SensorReading.temperature reading)
    ++ degree ++ "C"
    ++ match messages with
       | [] => ""
       | first :: _ => " - " ++ first
       end.

Definition send_sms_alert (w : World) (self : AlertServiceObj)
    (reading : SensorReading.t) (alert_level : string)
    (messages : list string) (recipient : string) : M SendResult :=
  try_except
    (if negb (twilio_client self) then ret (send_error "Twilio not configured")
     else
       let body := sms_body reading alert_level messages in
       let msg := twilio_create body (TWILIO_PHONE_NUMBER w) recipient in
       call_gateway msg ;;
       sid <- lift (twilio_answer w msg) ;;
       _log_alert w (SensorReading.id reading) "sms" alert_level
                  recipient body true None ;;
       ret (sent "SMS sent successfully" (Some sid)))
    (fun e =>
       let error_msg := "Error sending SMS alert: " ++ e in
       _log_alert w (SensorReading.id reading) "sms" alert_level
                  recipient "" false (Some error_msg) ;;
       ret (send_error error_msg)).

(** The rows the fatigue check counts. *)
Definition recent (w : World) (alert_level : string) (a : AlertLog.t) : bool :=
  let one_hour_ago := utcnow w - datetime.hours 1 in
  (AlertLog.alert_level a =? alert_level)%string
  && (one_hour_ago <=? AlertLog.sent_at a)
  && Bool.eqb (AlertLog.success a) true.

Definition _check_alert_fatigue (w : World) (alert_level : string) : M bool :=
  try_except
    (rows <- db.select w count_alerts alert_logs (recent w alert_level) ;;
     let recent_alerts := List.length rows in
     ret (5 <=? recent_alerts)%nat)
    (fun e => ret false).

(** The reading is an object of the session: a change of it is a
    change of its row. *)
Definition put_reading (reading : SensorReading.t) : M unit :=
  modify (db.with_session (fun t =>
    mkTables
      (map (fun r => if (SensorReading.id r =? SensorReading.id reading)%nat
                     then reading else r) (sensor_readings t))
      (ml_models t) (alert_logs t))).

Definition email_recipients : list string := ["admin@example.com"].
Definition sms_recipients : list string := ["+1234567890"].

(** Returns the dictionary and the reading as the call leaves it. *)
Definition check_and_send_alerts (w : World) (self : AlertServiceObj)
    (reading : SensorReading.t) (alert_level : string)
    (messages : list string) : M (SensorReading.t * DispatchResult) :=
  if (alert_level =? "normal")%string then
    ret (reading, message_ "No alerts needed")
  else if SensorReading.alert_sent reading then
    ret (reading, message_ "Alert already sent for this reading")
  else
    fatigue <- _check_alert_fatigue w alert_level ;;
    if (fatigue : bool) then
      ret (reading, message_ "Alert fatigue protection activated")
    else
      results <- for_each email_recipients
        (fun recipient results =>
           result <- send_email_alert w reading alert_level messages recipient ;;
           ret (results ++ [attempt "email" recipient result])%list) [] ;;
      results <-
        (if (alert_level =? "critical")%string then
           for_each sms_recipients
             (fun recipient results =>
                result <- send_sms_alert w self reading alert_level messages
                                         recipient ;;
                ret (results ++ [attempt "sms" recipient result])%list) results
         else ret results) ;;
      let reading := SensorReading.set_alert_sent true reading in
      put_reading reading ;;
      db.commit w update_reading ;;
      ret (reading, alerts_sent results).

End AlertService.

(* ------------------------------------------------------------------ *)
(** ** services/ml_service.py *)

(** The dictionary a training call or [retrain_if_needed] returns:
    [{"error": ...}], [{"message": ...}] or the training report. *)
Inductive TrainResult : Type :=
| error_ (text : string)
| info_ (text : string)
| trained (model_type : string) (training_samples anomalies_detected model_id : nat).

(** ["error" in result] *)
Definition has_error (r : TrainResult) : bool :=
  match r with
  | error_ _ => true
  | _ => false
  end.

Module MLService.

(** [MLService()] *)
Definition __init__ : MLServiceObj := mkMLService None None "IsolationForest".

Definition features_of (reading : SensorReading.t) : Features :=
  [ SensorReading.vibration reading;
    SensorReading.strain reading;
    SensorReading.temperature reading;
    PyFloat.of_int (datetime.hour (SensorReading.timestamp reading));
    PyFloat.of_int (datetime.weekday (SensorReading.timestamp reading)) ].

Definition prepare_training_data (readings : list SensorReading.t)
  : list Features * list nat :=
  (map features_of readings, map SensorReading.id readings).

Definition set_scaler (x : option Scaler) : M unit :=
  modify (fun s => mkSys (session s) (stored s) (journal s)
                         (mkMLService (model (ml s)) x (model_type (ml s)))
                         (wire s)).

Definition set_model (x : option Model) : M unit :=
  modify (fun s => mkSys (session s) (stored s) (journal s)
                         (mkMLService x (scaler (ml s)) (model_type (ml s)))
                         (wire s)).

(** The query both training functions start with. *)
Definition training_readings (w : World) : M (list SensorReading.t) :=
  let cutoff_date := utcnow w - datetime.days 7 in
  rows <- db.select w select_readings sensor_readings
            (fun r => cutoff_date <=? SensorReading.timestamp r) ;;
  ret (firstn Config.ML_TRAINING_DATA_SIZE
              (db.order_by_desc SensorReading.timestamp rows)).

(** The double quote of the JSON text. *)
Definition dq : string := String (ascii_of_nat 34) EmptyString.

Definition json_key (k : string) : string := dq ++ k ++ dq ++ ": ".

(** [db.session.add(model_record)]; the row gets the defaults of the
    columns ([created_at], [is_active]). *)
Definition add_model (w : World) (model_name model_type : string)
    (training_data_size : nat) (model_params : string) : M MLModel.t :=
  s <- get ;;
  let model_record :=
    MLModel.mk (db.next_id MLModel.id (ml_models (session s)))
               model_name model_type training_data_size None
               (utcnow w) true model_params in
  modify (db.with_session (fun t =>
    mkTables (sensor_readings t) (ml_models t ++ [model_record])%list
             (alert_logs t))) ;;
  ret model_record.

(** The part of a training function after the data check, for the
    estimator [est]. *)
Definition fit_and_record (w : World) (readings : list SensorReading.t)
    (est : Estimator) (model_name model_type model_params : string)
  : M TrainResult :=
  let '(features, reading_ids) := prepare_training_data readings in
  set_scaler (Some (StandardScaler None)) ;;
  features_scaled <- lift (sk_fit_transform w features) ;;
  set_scaler (Some (StandardScaler (Some features))) ;;
  set_model (Some (mkModel est None)) ;;
  match sk_fit w est features_scaled with
  | Some e => raise e
  | None =>
      let fitted := mkModel est (Some features_scaled) in
      set_model (Some fitted) ;;
      predictions <- lift (sk_predict w fitted features_scaled) ;;
      anomaly_scores <- lift (sk_decision_function w fitted features_scaled) ;;
      model_record <- add_model w model_name model_type
                                (List.length readings) model_params ;;
      db.commit w insert_model ;;
      ret (trained model_type (List.length readings)
             (List.length (filter (fun p => p =? -1) predictions))
             (MLModel.id model_record))
  end.

Definition train_isolation_forest (w : World) (contamination : PyFloat.t)
  : M TrainResult :=
  try_except
    (readings <- training_readings w ;;
     if (List.length readings <? 50)%nat then
       ret (error_ "Insufficient training data")
     else
       fit_and_record w readings
         (IsolationForest contamination 42 100)
         ("isolation_forest_" ++ datetime.strftime_stamp (utcnow w))
         "IsolationForest"
         ("{" ++ json_key "contamination" ++ PyFloat.repr contamination ++ ", "
              ++ json_key "n_estimators" ++ "100, "
              ++ json_key "random_state" ++ "42}"))
    (fun e => db.rollback ;; ret (error_ e)).

Definition train_one_class_svm (w : World) (nu : PyFloat.t) : M TrainResult :=
  try_except
    (readings <- training_readings w ;;
     if (List.length readings <? 50)%nat then
       ret (error_ "Insufficient training data")
     else
       fit_and_record w readings
         (OneClassSVM nu "rbf" "scale")
         ("one_class_svm_" ++ datetime.strftime_stamp (utcnow w))
         "OneClassSVM"
         ("{" ++ json_key "nu" ++ PyFloat.repr nu ++ ", "
              ++ json_key "kernel" ++ dq ++ "rbf" ++ dq ++ ", "
              ++ json_key "gamma" ++ dq ++ "scale" ++ dq ++ "}"))
    (fun e => db.rollback ;; ret (error_ e)).

(** The default of [contamination] and of [nu]. *)
Definition default_rate : PyFloat.t := PyFloat.mk 1 (-1).

(** [xs[0]] *)
Definition first_of {A} (xs : list A) : M A :=
  match xs with
  | x :: _ => ret x
  | [] => raise "index 0 is out of bounds"
  end.

(** [obj.attr] where [obj] may be [None]. *)
Definition deref {A} (x : option A) : M A :=
  match x with
  | Some a => ret a
  | None => raise "'NoneType' object has no attribute"
  end.

(** [len(self.estimators_)], which [BaseEnsemble.__len__] returns: the
    attribute is set by [fit], with one tree for each of
    [n_estimators]. *)
Definition estimators_length (n_estimators : Z) (fitted : option (list Features))
  : outcome Z :=
  match fitted with
  | Some _ => Return n_estimators
  | None => Raise "'IsolationForest' object has no attribute 'estimators_'"
  end.

(** [bool(self.model)] *)
Definition truth_of_model (x : option Model) : outcome bool :=
  match x with
  | None => Return false
  | Some m =>
      match estimator m with
      | IsolationForest _ _ n_estimators =>
          match estimators_length n_estimators (fitted_on m) with
          | Return n => Return (negb (n =? 0))
          | Raise e => Raise e
          end
      | OneClassSVM _ _ _ => Return true
      end
  end.

(** [bool(self.scaler)] *)
Definition truth_of_scaler (x : option Scaler) : bool :=
  match x with
  | None => false
  | Some _ => true
  end.

Definition predict_anomaly (w : World) (reading : SensorReading.t)
  : M (bool * PyFloat.t) :=
  s <- get ;;
  model_is_true <- lift (truth_of_model (model (ml s))) ;;
  gave_up <-
    (if negb model_is_true || negb (truth_of_scaler (scaler (ml s)))
     then result <- train_isolation_forest w default_rate ;;
          ret (has_error result)
     else ret false) ;;
  if (gave_up : bool) then ret (false, PyFloat.zero)
  else
    try_except
      (let features := [features_of reading] in
       s <- get ;;
       the_scaler <- deref (scaler (ml s)) ;;
       features_scaled <- lift (sk_transform w the_scaler features) ;;
       the_model <- deref (model (ml s)) ;;
       predictions <- lift (sk_predict w the_model features_scaled) ;;
       prediction <- first_of predictions ;;
       scores <- lift (sk_decision_function w the_model features_scaled) ;;
       score <- first_of scores ;;
       let is_anomaly := prediction =? -1 in
       ret (is_anomaly, score))
      (fun e => ret (false, PyFloat.zero)).

(** [MLModel.query.filter_by(model_type=..., is_active=True)
      .order_by(MLModel.created_at.desc()).first()] *)
Definition latest_active (w : World) (kind : string) : M (option MLModel.t) :=
  rows <- db.select w select_model ml_models
            (fun m => (MLModel.model_type m =? kind)%string
                      && Bool.eqb (MLModel.is_active m) true) ;;
  ret (hd_error (db.order_by_desc MLModel.created_at rows)).

(** [latest_model.is_active = False]: the model row is an object of
    the session. *)
Definition deactivate (latest_model : MLModel.t) : M unit :=
  modify (db.with_session (fun t =>
    mkTables (sensor_readings t)
      (map (fun m => if (MLModel.id m =? MLModel.id latest_model)%nat
                     then MLModel.set_is_active false m else m) (ml_models t))
      (alert_logs t))).

Definition retrain_if_needed (w : World) : M TrainResult :=
  try_except
    (s <- get ;;
     latest_model <- latest_active w (model_type (ml s)) ;;
     match latest_model with
     | None => train_isolation_forest w default_rate
     | Some latest_model =>
         let age := utcnow w - MLModel.created_at latest_model in
         if Config.ML_MODEL_RETRAIN_INTERVAL <? age then
           deactivate latest_model ;;
           db.commit w update_model ;;
           train_isolation_forest w default_rate
         else ret (info_ "Model is up to date")
     end)
    (fun e => ret (error_ e)).

End MLService.

(* ------------------------------------------------------------------ *)
(** ** Vocabulary of the properties *)

(** A reading with the three measurements given in tenths. *)
Definition measured (vibration strain temperature : Z) : SensorReading.t :=
  SensorReading.mk 1 0 (PyFloat.mk vibration (-1)) (PyFloat.mk strain (-1))
                   (PyFloat.mk temperature (-1)) false PyFloat.zero "normal"
                   false.

(** The reading of scenario A of the specification. *)
Definition scenario_A (id : nat) (timestamp : Z) (is_anomaly : bool)
    (anomaly_score : PyFloat.t) (alert_level : string) (alert_sent : bool)
  : SensorReading.t :=
  SensorReading.mk id timestamp
    (PyFloat.mk 26 (-1)) (PyFloat.mk 3 (-1)) (PyFloat.of_int 25)
    is_anomaly anomaly_score alert_level alert_sent.

(** The session holds nothing that is not committed. *)
Definition synced (s : Sys) : Prop := session s = stored s.

(** An alert record of the given severity that was delivered within the
    hour that ends at [utcnow]. *)
Definition delivered_in_last_hour (w : World) (alert_level : string)
    (a : AlertLog.t) : bool :=
  (AlertLog.alert_level a =? alert_level)%string
  && AlertLog.success a
  && (utcnow w - 3600 * 1000000 <=? AlertLog.sent_at a)
  && (AlertLog.sent_at a <=? utcnow w).

(** From [s] to [s'] gateway calls are only added, and a session with
    nothing pending stays so and keeps its committed alert records. *)
Definition grows (s s' : Sys) : Prop :=
  (exists calls, wire s' = (wire s ++ calls)%list)
  /\ (synced s ->
      synced s' /\ incl (alert_logs (stored s)) (alert_logs (stored s'))).

(** The row [_log_alert] adds in state [s]. *)
Definition log_row (w : World) (reading : SensorReading.t)
    (alert_level : string) (s : Sys) (alert_type recipient message : string)
    (success : bool) (error_message : option string) : AlertLog.t :=
  AlertLog.mk (db.next_id AlertLog.id (alert_logs (session s)))
              (SensorReading.id reading) alert_type alert_level recipient
              message (utcnow w) success error_message.

(** The message [send_email_alert] hands to the mail gateway. *)
Definition email_message (w : World) (reading : SensorReading.t)
    (alert_level : string) (messages : list string) (recipient : string)
  : GatewayCall :=
  mail_send ("SHM Alert - " ++ PyStr.upper alert_level)
            (match MAIL_USERNAME w with Some u => u | None => "" end)
            recipient (email_body w reading alert_level messages).

(** A failed attempt on record: the row of the audit trail that
    [send_*_alert] writes when the gateway raised [e]. *)
Definition failure_on_record (reading : SensorReading.t)
    (alert_level : string) (s' : Sys) (alert_type recipient error : string)
  : Prop :=
  exists row,
    In row (alert_logs (stored s'))
    /\ AlertLog.reading_id row = SensorReading.id reading
    /\ AlertLog.alert_type row = alert_type
    /\ AlertLog.alert_level row = alert_level
    /\ AlertLog.recipient row = recipient
    /\ AlertLog.success row = false
    /\ AlertLog.error_message row = Some error.

(** The message [send_sms_alert] hands to Twilio. *)
Definition sms_message (w : World) (reading : SensorReading.t)
    (alert_level : string) (messages : list string) (recipient : string)
  : GatewayCall :=
  twilio_create (AlertService.sms_body reading alert_level messages)
                (TWILIO_PHONE_NUMBER w) recipient.

Definition already_sent : DispatchResult :=
  message_ "Alert already sent for this reading".

Definition suppressed : DispatchResult :=
  message_ "Alert fatigue protection activated".

(** Channel and recipient of every entry of [results]. *)
Definition addressed (results : list Attempt) : list (string * string) :=
  map (fun a => (attempt_type a, attempt_recipient a)) results.

(** The session of [s] once the reading is marked. *)
Definition mark_row (reading : SensorReading.t) (s : Sys) : Tables :=
  mkTables
    (map (fun r => if (SensorReading.id r =? SensorReading.id reading)%nat
                   then SensorReading.set_alert_sent true reading else r)
         (sensor_readings (session s)))
    (ml_models (session s)) (alert_logs (session s)).

(** What the end of [check_and_send_alerts] makes of the state [s]
    the two loops leave: the mark is committed, or the commit raises
    and the mark stays pending in the session. *)
Definition finish (w : World) (reading : SensorReading.t)
    (results : list Attempt) (s : Sys)
  : Sys * outcome (SensorReading.t * DispatchResult) :=
  match store_fault w update_reading with
  | None =>
      (mkSys (mark_row reading s) (mark_row reading s)
             (mark_row reading s :: journal s) (ml s) (wire s),
       Return (SensorReading.set_alert_sent true reading, alerts_sent results))
  | Some e =>
      (mkSys (mark_row reading s) (stored s) (journal s) (ml s) (wire s),
       Raise e)
  end.

(** A reading qualifies for training at [utcnow] when it is at most
    seven days old. *)
Definition qualifies (w : World) (r : SensorReading.t) : bool :=
  utcnow w - 7 * 86400 * 1000000 <=? SensorReading.timestamp r.

(** The pair [predict_anomaly] returns when every step of the scoring
    answered, in the state [s] the scoring starts from. *)
Definition scored (w : World) (reading : SensorReading.t) (s : Sys)
    (is_anomaly : bool) (score : PyFloat.t) : Prop :=
  exists the_scaler the_model features_scaled prediction predictions scores,
    scaler (ml s) = Some the_scaler
    /\ model (ml s) = Some the_model
    /\ sk_transform w the_scaler [MLService.features_of reading]
       = Return features_scaled
    /\ sk_predict w the_model features_scaled = Return (prediction :: predictions)
    /\ sk_decision_function w the_model features_scaled = Return (score :: scores)
    /\ is_anomaly = (prediction =? -1).

(** The [try] block of [predict_anomaly]. *)
Definition scoring (w : World) (reading : SensorReading.t)
  : M (bool * PyFloat.t) :=
  try_except
    (let features := [MLService.features_of reading] in
     s <- get ;;
     the_scaler <- MLService.deref (scaler (ml s)) ;;
     features_scaled <- lift (sk_transform w the_scaler features) ;;
     the_model <- MLService.deref (model (ml s)) ;;
     predictions <- lift (sk_predict w the_model features_scaled) ;;
     prediction <- MLService.first_of predictions ;;
     scores <- lift (sk_decision_function w the_model features_scaled) ;;
     score <- MLService.first_of scores ;;
     let is_anomaly := prediction =? -1 in
     ret (is_anomaly, score))
    (fun e => ret (false, PyFloat.zero)).

(** The table of models with [row] added. *)
Definition with_model (row : MLModel.t) (t : Tables) : Tables :=
  mkTables (sensor_readings t) (ml_models t ++ [row])%list (alert_logs t).

(** A training run that reports [result] from state [s] and ends in
    [s']: a report means one new row, active, committed; an error means
    nothing committed. *)
Definition training_outcome (w : World) (kind : string) (s s' : Sys)
    (result : TrainResult) : Prop :=
  match result with
  | trained model_type training_samples _ model_id =>
      exists row,
        MLModel.id row = model_id
        /\ MLModel.model_type row = kind
        /\ MLModel.is_active row = true
        /\ MLModel.created_at row = utcnow w
        /\ MLModel.training_data_size row = training_samples
        /\ model_type = kind
        /\ stored s' = with_model row (session s)
        /\ session s' = stored s'
        /\ journal s' = stored s' :: journal s
  | error_ _ =>
      stored s' = stored s /\ journal s' = journal s
      /\ (session s' = session s \/ session s' = stored s)
  | info_ _ => False
  end.

(** The kind the service asks for is set once, by [__init__]. *)
Definition same_kind (s s' : Sys) : Prop :=
  model_type (ml s') = model_type (ml s).

(** The common shape of the two training functions. *)
Definition training (w : World) (est : Estimator)
    (name kind params : string) : M TrainResult :=
  try_except
    (readings <- MLService.training_readings w ;;
     if (List.length readings <? 50)%nat then
       ret (error_ "Insufficient training data")
     else MLService.fit_and_record w readings est name kind params)
    (fun e => db.rollback ;; ret (error_ e)).

Definition is_active_of (kind : string) (m : MLModel.t) : bool :=
  (MLModel.model_type m =? kind)%string && MLModel.is_active m.

Definition active_snapshots (kind : string) (t : Tables) : list MLModel.t :=
  filter (is_active_of kind) (ml_models t).

(** At most one snapshot of each kind is active. *)
Definition single_active (t : Tables) : Prop :=
  forall kind, (List.length (active_snapshots kind t) <= 1)%nat.

Definition has_active (kind : string) (t : Tables) : bool :=
  existsb (is_active_of kind) (ml_models t).

(** The operations of the classifier store. *)
Inductive Op : Type :=
| op_train_isolation_forest (contamination : PyFloat.t)
| op_train_one_class_svm (nu : PyFloat.t)
| op_retrain_if_needed.

Definition run_op (w : World) (op : Op) : M TrainResult :=
  match op with
  | op_train_isolation_forest contamination =>
      MLService.train_isolation_forest w contamination
  | op_train_one_class_svm nu => MLService.train_one_class_svm w nu
  | op_retrain_if_needed => MLService.retrain_if_needed w
  end.

(** A sequence of operations, each in the world it meets. *)
Fixpoint run_ops (ops : list (World * Op)) (s : Sys) : Sys :=
  match ops with
  | [] => s
  | (w, op) :: rest => run_ops rest (fst (run_op w op s))
  end.

(** The age test of [retrain_if_needed]. *)
Definition due (w : World) (m : MLModel.t) : bool :=
  Config.ML_MODEL_RETRAIN_INTERVAL <? utcnow w - MLModel.created_at m.

(** The tables once [latest_model.is_active = False] is done. *)
Definition retired (latest_model : MLModel.t) (t : Tables) : Tables :=
  mkTables (sensor_readings t)
    (map (fun m => if (MLModel.id m =? MLModel.id latest_model)%nat
                   then MLModel.set_is_active false m else m) (ml_models t))
    (alert_logs t).

(** What that assignment makes of the row [m]. *)
Definition retire (latest_model m : MLModel.t) : MLModel.t :=
  if (MLModel.id m =? MLModel.id latest_model)%nat
  then MLModel.set_is_active false m else m.

(** The states committed between [s] and [s'], the newest first. *)
Definition committed_during (s s' : Sys) : list Tables :=
  firstn (List.length (journal s') - List.length (journal s)) (journal s').

(** The atomic swap as the specification words it: when the active
    snapshot is due, no state committed by [retrain_if_needed], the last
    one included, lacks an active snapshot of the kind. *)
Definition swap_is_atomic (w : World) (s : Sys) : Prop :=
  forall latest_model,
    MLService.latest_active w (model_type (ml s)) s
    = (s, Return (Some latest_model)) ->
    due w latest_model = true ->
    Forall (fun t => has_active (model_type (ml s)) t = true)
           (stored (fst (MLService.retrain_if_needed w s))
              :: committed_during s (fst (MLService.retrain_if_needed w s))).

(** What the classifier store keeps between calls of an [MLService]. *)
Definition store_invariant (s : Sys) : Prop :=
  model_type (ml s) = "IsolationForest"
  /\ single_active (session s)
  /\ single_active (stored s).

(* ------------------------------------------------------------------ *)
(** ** Sample worlds and states *)

Module Sample.

(** A world in which every collaborator answers. *)
Definition calm (now : Z) : World :=
  mkWorld now (fun _ => None) (Some "shm@example.com") (Some "+15550100")
          (fun _ => None) (fun _ => Return "SM01")
          (fun _ _ _ => "report")
          (fun x => Return x) (fun _ _ => None) (fun _ x => Return x)
          (fun _ x => Return (map (fun _ => 1) x))
          (fun _ x => Return (map (fun _ => PyFloat.mk 1 (-1)) x)).

(** As [calm], with the store raising at the sites [down] marks. *)
Definition store_down (now : Z) (down : Site -> bool) : World :=
  mkWorld now (fun site => if down site then Some "database is locked" else None)
          (Some "shm@example.com") (Some "+15550100")
          (fun _ => None) (fun _ => Return "SM01")
          (fun _ _ _ => "report")
          (fun x => Return x) (fun _ _ => None) (fun _ x => Return x)
          (fun _ x => Return (map (fun _ => 1) x))
          (fun _ x => Return (map (fun _ => PyFloat.mk 1 (-1)) x)).

(** As [calm], with both gateways refusing every message. *)
Definition gateways_down (now : Z) : World :=
  mkWorld now (fun _ => None) (Some "shm@example.com") (Some "+15550100")
          (fun _ => Some "Connection refused")
          (fun _ => Raise "Unable to create record")
          (fun _ _ _ => "report")
          (fun x => Return x) (fun _ _ => None) (fun _ x => Return x)
          (fun _ x => Return (map (fun _ => 1) x))
          (fun _ x => Return (map (fun _ => PyFloat.mk 1 (-1)) x)).

Definition quiet (t : Tables) : Sys := mkSys t t [] MLService.__init__ [].

(** Noon of 2023-11-14. *)
Definition noon : Z := 1699963200 * 1000000.

Definition reading_at (id : nat) (timestamp : Z) : SensorReading.t :=
  scenario_A id timestamp false PyFloat.zero "critical" false.

(** An alert record of a delivered e-mail. *)
Definition delivered (id : nat) (alert_level : string) (sent_at : Z) : AlertLog.t :=
  AlertLog.mk id 1 "email" alert_level "admin@example.com" "report" sent_at
              true None.

(** Five warnings delivered in the ten minutes before [noon]. *)
Definition five_warnings : Tables :=
  mkTables [reading_at 1 noon] []
    (map (fun k => delivered k "warning"
                     (noon - Z.of_nat k * 120 * 1000000))
         (seq 1 5)).

Definition on_duty : AlertServiceObj := mkAlertService true.

End Sample.

Module Scene.

(** Fifty readings, one a minute, the last at [Sample.noon]. *)
Definition fifty_readings : Tables :=
  mkTables
    (map (fun k => Sample.reading_at (S k)
                     (Sample.noon - Z.of_nat (49 - k) * 60 * 1000000))
         (seq 0 50))
    [] [].

(** A snapshot trained two days before [Sample.noon]. *)
Definition old_snapshot : MLModel.t :=
  MLModel.mk 1 "isolation_forest_20231112_120000" "IsolationForest" 1000 None
             (Sample.noon - datetime.days 2) true "{}".

(** The old snapshot active, and no reading of the last week. *)
Definition stale : Tables := mkTables [] [old_snapshot] [].

(** Collaborators that answer, except [fit], which refuses the matrix. *)
Definition fit_refused : World :=
  mkWorld Sample.noon (fun _ => None) None None (fun _ => None)
          (fun _ => Return "SM01") (fun _ _ _ => "report")
          (fun x => Return x) (fun _ _ => Some "Input contains NaN")
          (fun _ x => Return x)
          (fun _ x => Return (map (fun _ => 1) x))
          (fun _ x => Return (map (fun _ => PyFloat.zero) x)).

End Scene.

(* ------------------------------------------------------------------ *)
(** ** Vocabulary of the further properties *)

(** Some metric of the reading is at or above its warning floor. *)
Definition reaches_warning (reading : SensorReading.t) : bool :=
  existsb (fun item => PyFloat.ge (SensorService.getattr reading (fst item))
                                  (Config.warning (snd item)))
          Config.ALERT_THRESHOLDS.

(** The level the floors alone give a reading. *)
Definition verdict (reading : SensorReading.t) : string :=
  if SensorService.breaches_critical reading then "critical"
  else if reaches_warning reading then "warning"
  else "normal".

(** The metric of a row of the table is at or above its critical floor. *)
Definition critical_at (reading : SensorReading.t)
    (item : Metric.t * Config.Limits) : bool :=
  PyFloat.ge (SensorService.getattr reading (fst item))
             (Config.critical (snd item)).

(** The message of a critical breach of a row of the table. *)
Definition critical_message (reading : SensorReading.t)
    (item : Metric.t * Config.Limits) : string :=
  PyStr.title (Metric.name (fst item)) ++ " critical: "
    ++ PyFloat.repr (SensorService.getattr reading (fst item)) ++ " >= "
    ++ PyFloat.repr (Config.critical (snd item)).

(** The tables with the alert record [row] added. *)
Definition with_alert (row : AlertLog.t) (t : Tables) : Tables :=
  mkTables (sensor_readings t) (ml_models t) (alert_logs t ++ [row])%list.

(** The state once the session [t] is committed and the gateways were
    handed [calls]. *)
Definition committed (t : Tables) (calls : list GatewayCall) (s : Sys) : Sys :=
  mkSys t t (t :: journal s) (ml s) (wire s ++ calls)%list.

(** The state once the session is rolled back, the gateways having been
    handed [calls]. *)
Definition rolled_back (calls : list GatewayCall) (s : Sys) : Sys :=
  mkSys (stored s) (stored s) (journal s) (ml s) (wire s ++ calls)%list.

(** [s1] is what an attempt on a channel makes of [s]: the gateway was
    handed [calls], and the record of the attempt was committed, or the
    commit failed and the session was rolled back. *)
Definition attempted (calls : list GatewayCall) (s s1 : Sys) : Prop :=
  (exists row, s1 = committed (with_alert row (session s)) calls s)
  \/ s1 = rolled_back calls s.

(** The readings of [s1], pending and committed, are readings [s] held,
    pending or committed. *)
Definition keeps_readings (s s1 : Sys) : Prop :=
  (sensor_readings (session s1) = sensor_readings (session s)
   \/ sensor_readings (session s1) = sensor_readings (stored s))
  /\ (sensor_readings (stored s1) = sensor_readings (session s)
      \/ sensor_readings (stored s1) = sensor_readings (stored s)).

(** The alert records the fatigue gate of level [alert_level] counts. *)
Definition counted (w : World) (alert_level : string) (t : Tables) : nat :=
  List.length (filter (AlertService.recent w alert_level) (alert_logs t)).

(* ------------------------------------------------------------------ *)
(** ** The rest of the services: reading and reporting *)

(** Places where the functions below talk to the store. *)
Inductive Place : Type :=
| insert_reading
| latest_readings
| readings_in_range
| readings_of_the_day
| history_of_alerts
| statistics_of_alerts (query : nat)
| class_query.

(** A number of a JSON answer: a Python [int] or a [float]. *)
Inductive Number : Type :=
| int_ (n : Z)
| float_ (x : PyFloat.t).

(** What the surroundings answer to the functions below.  The rounded
    means and rates are float arithmetic and are read from here. *)
Record Env : Type := mkEnv {
  fault_at : Place -> option string;
  (** [round(sum(xs) / len(xs), digits)] *)
  rounded_mean : nat -> list PyFloat.t -> PyFloat.t;
  (** [round(a / b * 100, 1)] *)
  rounded_rate : nat -> nat -> PyFloat.t;
  TWILIO_ACCOUNT_SID : option string;
  TWILIO_AUTH_TOKEN : option string;
  (** [Client(sid, token)] raises *)
  twilio_client_fault : option string
}.

Module store.

(** [db.session.commit()], the store raising with [fault]. *)
Definition commit (fault : option string) : M unit :=
  fun s =>
    match fault with
    | Some e => (s, Raise e)
    | None =>
        (mkSys (session s) (session s) (session s :: journal s) (ml s) (wire s),
         Return tt)
    end.

(** [query.filter(...)], the store raising with [fault]. *)
Definition select {R} (fault : option string) (table : Tables -> list R)
    (where_ : R -> bool) : M (list R) :=
  fun s =>
    match fault with
    | Some e => (s, Raise e)
    | None => (s, Return (filter where_ (table (session s))))
    end.

End store.

Module iso.

(** The microsecond of the second. *)
Definition microsecond (t : Z) : Z := t mod datetime.second_.

(** [datetime.isoformat()] *)
Definition isoformat (t : Z) : string :=
  let '(y, m, d) := datetime.civil t in
  datetime.pad 4 y ++ "-" ++ datetime.pad 2 m ++ "-" ++ datetime.pad 2 d
    ++ "T" ++ datetime.pad 2 (datetime.hour t)
    ++ ":" ++ datetime.pad 2 (datetime.minute t)
    ++ ":" ++ datetime.pad 2 (datetime.second t)
    ++ (if microsecond t =? 0 then ""
        else "." ++ datetime.pad 6 (microsecond t)).

End iso.

(** The dictionary [MLModel.to_dict] returns. *)
Module MLModelDict.
Record t : Type := mk {
  id : nat;
  model_name : string;
  model_type : string;
  training_data_size : nat;
  accuracy_score : option PyFloat.t;
  created_at : string;
  is_active : bool
}.
End MLModelDict.

(** The dictionary [AlertLog.to_dict] returns. *)
Module AlertLogDict.
Record t : Type := mk {
  id : nat;
  reading_id : nat;
  alert_type : string;
  alert_level : string;
  recipient : string;
  message : string;
  sent_at : string;
  success : bool;
  error_message : option string
}.
End AlertLogDict.

Module to_dict.

Definition of_model (m : MLModel.t) : MLModelDict.t :=
  MLModelDict.mk (MLModel.id m) (MLModel.model_name m) (MLModel.model_type m)
                 (MLModel.training_data_size m) (MLModel.accuracy_score m)
                 (iso.isoformat (MLModel.created_at m)) (MLModel.is_active m).

Definition of_alert (a : AlertLog.t) : AlertLogDict.t :=
  AlertLogDict.mk (AlertLog.id a) (AlertLog.reading_id a)
                  (AlertLog.alert_type a) (AlertLog.alert_level a)
                  (AlertLog.recipient a) (AlertLog.message a)
                  (iso.isoformat (AlertLog.sent_at a)) (AlertLog.success a)
                  (AlertLog.error_message a).

End to_dict.

(** The dictionary [generate_sensor_data] returns and [save_reading]
    takes. *)
Record SensorData : Type := mkSensorData {
  data_timestamp : Z;
  data_vibration : PyFloat.t;
  data_strain : PyFloat.t;
  data_temperature : PyFloat.t
}.

(** The dictionary [SensorService.get_statistics] returns. *)
Record SensorStats : Type := mkSensorStats {
  total_readings : nat;
  anomalies : nat;
  alerts : nat;
  avg_temperature : Number;
  avg_vibration : Number;
  avg_strain : Number
}.

(** The dictionary [AlertService.get_alert_statistics] returns. *)
Record AlertStats : Type := mkAlertStats {
  total_alerts : nat;
  successful_alerts : nat;
  failed_alerts : Z;
  email_alerts : nat;
  sms_alerts : nat;
  critical_alerts : nat;
  warning_alerts : nat;
  success_rate : Number
}.

(** services/sensor_service.py, the functions on the store. *)
Module SensorStore.

Definition add_reading (reading : SensorReading.t) : M unit :=
  modify (db.with_session (fun t =>
    mkTables (sensor_readings t ++ [reading])%list (ml_models t)
             (alert_logs t))).

(** The new row has the defaults of the columns. *)
Definition save_reading (env : Env) (sensor_data : SensorData)
  : M SensorReading.t :=
  try_except
    (s <- get ;;
     let reading :=
       SensorReading.mk
         (db.next_id SensorReading.id (sensor_readings (session s)))
         (data_timestamp sensor_data) (data_vibration sensor_data)
         (data_strain sensor_data) (data_temperature sensor_data)
         false PyFloat.zero "normal" false in
     add_reading reading ;;
     store.commit (fault_at env insert_reading) ;;
     ret reading)
    (fun e => db.rollback ;; raise e).

Definition get_readings (env : Env) (limit : nat) : M (list SensorReading.t) :=
  try_except
    (rows <- store.select (fault_at env latest_readings) sensor_readings
               (fun _ => true) ;;
     ret (firstn limit (db.order_by_desc SensorReading.timestamp rows)))
    (fun e => ret []).

Definition get_readings_by_date_range (env : Env) (start_date end_date : Z)
  : M (list SensorReading.t) :=
  try_except
    (rows <- store.select (fault_at env readings_in_range) sensor_readings
               (fun r => (start_date <=? SensorReading.timestamp r)
                         && (SensorReading.timestamp r <=? end_date)) ;;
     ret (db.order_by_desc SensorReading.timestamp rows))
    (fun e => ret []).

Definition no_statistics : SensorStats :=
  mkSensorStats 0 0 0 (int_ 0) (int_ 0) (int_ 0).

Definition get_statistics (w : World) (env : Env) : M SensorStats :=
  try_except
    (let yesterday := utcnow w - datetime.days 1 in
     readings <- store.select (fault_at env readings_of_the_day)
                   sensor_readings
                   (fun r => yesterday <=? SensorReading.timestamp r) ;;
     match readings with
     | [] => ret no_statistics
     | _ :: _ =>
         let total_readings := List.length readings in
         let anomalies :=
           List.length (filter SensorReading.is_anomaly readings) in
         let alerts :=
           List.length
             (filter (fun r => negb (SensorReading.alert_level r =? "normal")%string)
                     readings) in
         ret (mkSensorStats total_readings anomalies alerts
                (float_ (rounded_mean env 1
                           (map SensorReading.temperature readings)))
                (float_ (rounded_mean env 2
                           (map SensorReading.vibration readings)))
                (float_ (rounded_mean env 3
                           (map SensorReading.strain readings))))
     end)
    (fun e => ret no_statistics).

End SensorStore.

(** models.py: the class methods of [SensorReading].  They have no
    [try], a failure of the store is raised. *)
Module SensorReadingQuery.

Definition get_latest (env : Env) (limit : nat) : M (list SensorReading.t) :=
  rows <- store.select (fault_at env class_query) sensor_readings
            (fun _ => true) ;;
  ret (firstn limit (db.order_by_desc SensorReading.timestamp rows)).

Definition get_by_date_range (env : Env) (start_date end_date : Z)
  : M (list SensorReading.t) :=
  rows <- store.select (fault_at env class_query) sensor_readings
            (fun r => (start_date <=? SensorReading.timestamp r)
                      && (SensorReading.timestamp r <=? end_date)) ;;
  ret (db.order_by_desc SensorReading.timestamp rows).

Definition get_anomalies (env : Env) (limit : nat) : M (list SensorReading.t) :=
  rows <- store.select (fault_at env class_query) sensor_readings
            (fun r => Bool.eqb (SensorReading.is_anomaly r) true) ;;
  ret (firstn limit (db.order_by_desc SensorReading.timestamp rows)).

Definition get_alerts (env : Env) (alert_level : string) (limit : nat)
  : M (list SensorReading.t) :=
  rows <- store.select (fault_at env class_query) sensor_readings
            (fun r => (SensorReading.alert_level r =? alert_level)%string) ;;
  ret (firstn limit (db.order_by_desc SensorReading.timestamp rows)).

End SensorReadingQuery.

(** services/alert_service.py, the construction and the reports. *)
Module AlertReports.

Definition _init_twilio (env : Env) : bool :=
  if negb (AlertService.falsy (TWILIO_ACCOUNT_SID env))
     && negb (AlertService.falsy (TWILIO_AUTH_TOKEN env))
  then match twilio_client_fault env with
       | Some e => false
       | None => true
       end
  else false.

(** [AlertService()] *)
Definition __init__ (env : Env) : AlertServiceObj :=
  mkAlertService (_init_twilio env).

Definition get_alert_history (env : Env) (limit : nat)
  : M (list AlertLogDict.t) :=
  try_except
    (rows <- store.select (fault_at env history_of_alerts) alert_logs
               (fun _ => true) ;;
     let alerts := firstn limit (db.order_by_desc AlertLog.sent_at rows) in
     ret (map to_dict.of_alert alerts))
    (fun e => ret []).

(** [AlertLog.query.filter(AlertLog.sent_at >= yesterday, ...).count()] *)
Definition count_since (env : Env) (query : nat) (yesterday : Z)
    (where_ : AlertLog.t -> bool) : M nat :=
  rows <- store.select (fault_at env (statistics_of_alerts query)) alert_logs
            (fun a => (yesterday <=? AlertLog.sent_at a) && where_ a) ;;
  ret (List.length rows).

Definition no_statistics : AlertStats :=
  mkAlertStats 0 0 0 0 0 0 0 (int_ 0).

Definition get_alert_statistics (w : World) (env : Env) : M AlertStats :=
  try_except
    (let yesterday := utcnow w - datetime.days 1 in
     total_alerts <- count_since env 0 yesterday (fun _ => true) ;;
     successful_alerts <-
       count_since env 1 yesterday
                   (fun a => Bool.eqb (AlertLog.success a) true) ;;
     email_alerts <-
       count_since env 2 yesterday
                   (fun a => (AlertLog.alert_type a =? "email")%string) ;;
     sms_alerts <-
       count_since env 3 yesterday
                   (fun a => (AlertLog.alert_type a =? "sms")%string) ;;
     critical_alerts <-
       count_since env 4 yesterday
                   (fun a => (AlertLog.alert_level a =? "critical")%string) ;;
     warning_alerts <-
       count_since env 5 yesterday
                   (fun a => (AlertLog.alert_level a =? "warning")%string) ;;
     ret (mkAlertStats total_alerts successful_alerts
            (Z.of_nat total_alerts - Z.of_nat successful_alerts)
            email_alerts sms_alerts critical_alerts warning_alerts
            (if (0 <? total_alerts)%nat
             then float_ (rounded_rate env successful_alerts total_alerts)
             else int_ 0)))
    (fun e => ret no_statistics).

End AlertReports.

(** The dictionary [MLService.get_model_info] returns. *)
Inductive ModelInfo : Type :=
| no_info (error : string)
| model_info_of (d : MLModelDict.t).

(** What a route answers: the JSON body, or a status with an error. *)
Inductive HttpAnswer (A : Type) : Type :=
| http_ok (json : A)
| http_error (status : nat) (error : string).
Arguments http_ok {A} json.
Arguments http_error {A} status error.

(** services/ml_service.py and routes/api.py: the model information. *)
Module MLInfo.

Definition get_model_info (w : World) : M ModelInfo :=
  s <- get ;;
  model_is_true <- lift (MLService.truth_of_model (model (ml s))) ;;
  if negb model_is_true then ret (no_info "No model loaded")
  else
    try_except
      (latest_model <- MLService.latest_active w (model_type (ml s)) ;;
       match latest_model with
       | Some latest_model => ret (model_info_of (to_dict.of_model latest_model))
       | None => ret (no_info "No model metadata found")
       end)
      (fun e => ret (no_info e)).

(** [ml_service = MLService()] *)
Definition new_service : M unit :=
  modify (fun s => mkSys (session s) (stored s) (journal s)
                         MLService.__init__ (wire s)).

(** The route [/api/ml/info]. *)
Definition model_info (w : World) : M (HttpAnswer ModelInfo) :=
  try_except
    (new_service ;;
     info <- get_model_info w ;;
     ret (http_ok info))
    (fun e => ret (http_error 500 "Failed to get model info")).

End MLInfo.

(** [ml_service = MLService()] followed by [predict_anomaly], as the
    route [/sensor-data] scores a reading. *)
Definition score_with_new_service (w : World) (reading : SensorReading.t)
  : M (bool * PyFloat.t) :=
  MLInfo.new_service ;; MLService.predict_anomaly w reading.

(** The state with a service just constructed. *)
Definition renewed (s : Sys) : Sys :=
  mkSys (session s) (stored s) (journal s) MLService.__init__ (wire s).

(** A call of the Twilio gateway. *)
Definition is_sms (c : GatewayCall) : bool :=
  match c with
  | twilio_create _ _ _ => true
  | mail_send _ _ _ _ => false
  end.

(* ================================================================== *)
(** * Properties *)

(* ------------------------------------------------------------------ *)
(** ** Printing a float *)

(** With fuel above the binary length of the mantissa, [strip] runs
    until no trailing zero is left. *)
Lemma strip_stripped (fuel : nat) : forall m e,
  Z.abs m < 2 ^ Z.of_nat fuel ->
  fst (PyFloat.strip fuel m e) = 0 \/ fst (PyFloat.strip fuel m e) mod 10 <> 0.
Proof.
  induction fuel as [|fuel IH]; intros m e Hm.
  - left. cbn in *. lia.
  - cbn [PyFloat.strip]. destruct (m =? 0) eqn:Hzero; [now left|].
    destruct (m mod 10 =? 0) eqn:Hten.
    + apply IH. apply Z.eqb_eq in Hten.
      rewrite Nat2Z.inj_succ, Z.pow_succ_r in Hm by lia.
      pose proof (Z.div_exact m 10 ltac:(lia)) as [_ Hexact].
      specialize (Hexact Hten). lia.
    + right. cbn [fst]. now apply Z.eqb_neq.
Qed.

(** The digits [repr] prints end in no zero. *)
Lemma normal_stripped (x : PyFloat.t) :
  fst (PyFloat.normal x) = 0 \/ fst (PyFloat.normal x) mod 10 <> 0.
Proof.
  unfold PyFloat.normal. apply strip_stripped.
  destruct (Z.eq_dec (PyFloat.mant x) 0) as [-> | Hnz]; [cbn; lia|].
  rewrite Nat2Z.inj_succ, Z2Nat.id by apply Z.log2_nonneg.
  apply Z.log2_spec. lia.
Qed.

Example repr_forms :
  map PyFloat.repr
      [ PyFloat.mk 26 (-1); PyFloat.of_int 25; PyFloat.mk 350 (-1);
        PyFloat.mk 1 (-4); PyFloat.mk 15 (-6); PyFloat.mk 1 16;
        PyFloat.mk 1 22; PyFloat.mk (-12345) (-2); PyFloat.zero ]
  = [ "2.6"; "25.0"; "35.0"; "0.0001"; "1.5e-05"; "1e+16"; "1e+22";
      "-123.45"; "0.0" ].
Proof. reflexivity. Qed.

(* ------------------------------------------------------------------ *)
(** ** The threshold evaluator *)

Section Thresholds.

Variable reading : SensorReading.t.

Lemma check_one_critical_stays messages item :
  fst (SensorService.check_one reading ("critical", messages) item) = "critical".
Proof.
  unfold SensorService.check_one.
  destruct item as [sensor_type limits].
  destruct (PyFloat.ge _ (Config.critical limits)); [reflexivity|].
  rewrite andb_false_r. reflexivity.
Qed.

Lemma check_one_breach acc item :
  PyFloat.ge (SensorService.getattr reading (fst item))
             (Config.critical (snd item)) = true ->
  fst (SensorService.check_one reading acc item) = "critical".
Proof.
  unfold SensorService.check_one.
  destruct acc as [alert_level messages], item as [sensor_type limits].
  cbn [fst snd]. intros ->. reflexivity.
Qed.

Lemma fold_critical_stays thresholds : forall acc,
  fst acc = "critical" ->
  fst (fold_left (SensorService.check_one reading) thresholds acc) = "critical".
Proof.
  induction thresholds as [|item rest IH]; intros acc Hacc; [exact Hacc|].
  cbn [fold_left]. apply IH.
  destruct acc as [alert_level messages]. cbn [fst] in Hacc. subst alert_level.
  apply check_one_critical_stays.
Qed.

Lemma fold_breach thresholds : forall acc item,
  In item thresholds ->
  PyFloat.ge (SensorService.getattr reading (fst item))
             (Config.critical (snd item)) = true ->
  fst (fold_left (SensorService.check_one reading) thresholds acc) = "critical".
Proof.
  induction thresholds as [|head rest IH]; intros acc item Hin Hge.
  - destruct Hin.
  - cbn [fold_left]. destruct Hin as [-> | Hin].
    + apply fold_critical_stays. now apply check_one_breach.
    + now apply IH with (item := item).
Qed.

End Thresholds.

(** Scenario B of the specification: nothing is breached. *)
Example scenario_B_evaluation :
  SensorService.check_thresholds (measured 10 3 250) = ("normal", []).
Proof. reflexivity. Qed.

(** A warning met before a critical breach keeps its message, a warning
    met after it is not reported. *)
Example warning_then_critical_then_warning :
  SensorService.check_thresholds (measured 22 8 360)
  = ("critical", ["Vibration warning: 2.2 >= 2.0";
                  "Strain critical: 0.8 >= 0.7"]).
Proof. reflexivity. Qed.

(** The floors are met from their own value on. *)
Example temperature_at_the_warning_floor :
  SensorService.check_thresholds (measured 19 4 350)
  = ("warning", ["Temperature warning: 35.0 >= 35.0"]).
Proof. reflexivity. Qed.

(** C5. A reading with some metric at or above its critical floor is
    rated ["critical"], whatever the other metrics are, and in whatever
    order the rows of the threshold table are gone through. *)
Theorem critical_breach_dominates (reading : SensorReading.t) :
  SensorService.breaches_critical reading = true ->
  fst (SensorService.check_thresholds reading) = "critical"
  /\ forall thresholds,
       Permutation Config.ALERT_THRESHOLDS thresholds ->
       fst (SensorService.check_thresholds_in thresholds reading) = "critical".
Proof.
  intros Hbreach.
  apply existsb_exists in Hbreach. destruct Hbreach as [item [Hin Hge]].
  split.
  - exact (fold_breach reading _ _ item Hin Hge).
  - intros thresholds Hperm.
    apply (fold_breach reading thresholds _ item); [|exact Hge].
    now apply (Permutation_in item Hperm).
Qed.

Lemma critical_breach_dominates_witness :
  SensorService.breaches_critical
    (scenario_A 1 0 false PyFloat.zero "normal" false) = true
  /\ fst (SensorService.check_thresholds
            (scenario_A 1 0 false PyFloat.zero "normal" false)) = "critical".
Proof.
  split; [reflexivity|].
  exact (proj1 (critical_breach_dominates
                  (scenario_A 1 0 false PyFloat.zero "normal" false) eq_refl)).
Defined.

(** C9. Scenario A: vibration 2.6, strain 0.3 and temperature 25 against
    the default table give ["critical"] and the one message of the
    vibration breach. *)
Theorem scenario_A_evaluation
    id timestamp is_anomaly anomaly_score alert_level alert_sent :
  Config.ALERT_THRESHOLDS =
    [ (Metric.vibration, Config.limits (PyFloat.mk 20 (-1)) (PyFloat.mk 25 (-1)));
      (Metric.strain, Config.limits (PyFloat.mk 5 (-1)) (PyFloat.mk 7 (-1)));
      (Metric.temperature, Config.limits (PyFloat.mk 350 (-1)) (PyFloat.mk 400 (-1))) ]
  /\ SensorService.check_thresholds
       (scenario_A id timestamp is_anomaly anomaly_score alert_level alert_sent)
     = ("critical", ["Vibration critical: 2.6 >= 2.5"]).
Proof.
  split; reflexivity.
Qed.

(* ------------------------------------------------------------------ *)
(** ** Running computations *)

Lemma bind_Return {A B} (m : M A) (k : A -> M B) s s1 a :
  m s = (s1, Return a) -> bind m k s = k a s1.
Proof. unfold bind. now intros ->. Qed.

Lemma try_except_Return {A} (m : M A) h s s1 a :
  m s = (s1, Return a) -> try_except m h s = (s1, Return a).
Proof. unfold try_except. now intros ->. Qed.

Lemma bind_ret_r {A} (m : M A) s : bind m ret s = m s.
Proof. unfold bind, ret. now destruct (m s) as [s1 [a|e]]. Qed.

Lemma for_each_one {A B} (x : A) (body : A -> B -> M B) acc s :
  for_each [x] body acc s = body x acc s.
Proof. cbn [for_each]. apply (bind_ret_r (body x acc)). Qed.

(** Unfolds the plumbing of a computation applied to a state. *)
Ltac run :=
  cbv beta delta [bind ret raise try_except lift get modify
                  db.commit db.rollback db.select db.with_session] iota.

(* ------------------------------------------------------------------ *)
(** ** The fatigue gate *)

Section FatigueGate.

Variable w : World.
Variable alert_level : string.

Lemma fatigue_count s :
  store_fault w count_alerts = None ->
  AlertService._check_alert_fatigue w alert_level s
  = (s, Return (5 <=? List.length
                  (filter (AlertService.recent w alert_level)
                          (alert_logs (session s))))%nat).
Proof.
  intros Hok. unfold AlertService._check_alert_fatigue. run.
  now rewrite Hok.
Qed.

Lemma fatigue_fault s e :
  store_fault w count_alerts = Some e ->
  AlertService._check_alert_fatigue w alert_level s = (s, Return false).
Proof.
  intros Hfault. unfold AlertService._check_alert_fatigue. run.
  now rewrite Hfault.
Qed.

(** The gate never raises and never writes. *)
Lemma fatigue_total s :
  exists b, AlertService._check_alert_fatigue w alert_level s = (s, Return b).
Proof.
  destruct (store_fault w count_alerts) as [e|] eqn:Hsite.
  - exists false. now apply fatigue_fault with (e := e).
  - eexists. now apply fatigue_count.
Qed.

End FatigueGate.

Lemma filter_length_le {A} (p q : A -> bool) (l : list A) :
  (forall x, p x = true -> q x = true) ->
  (List.length (filter p l) <= List.length (filter q l))%nat.
Proof.
  intros Hpq. induction l as [|x l IH]; cbn [filter]; [lia|].
  destruct (p x) eqn:Hp.
  - rewrite (Hpq x Hp). cbn [List.length]. lia.
  - destruct (q x); cbn [List.length]; lia.
Qed.

Lemma delivered_in_last_hour_recent w alert_level a :
  delivered_in_last_hour w alert_level a = true ->
  AlertService.recent w alert_level a = true.
Proof.
  unfold delivered_in_last_hour, AlertService.recent, datetime.hours,
    datetime.second_.
  intros H.
  apply andb_prop in H. destruct H as [H _].
  apply andb_prop in H. destruct H as [H Hwin].
  apply andb_prop in H. destruct H as [Hlevel Hok].
  rewrite Hlevel, Hok. cbn [andb Bool.eqb].
  rewrite andb_true_r.
  replace (1 * 3600 * 1000000) with (3600 * 1000000) by reflexivity.
  exact Hwin.
Qed.

(* ------------------------------------------------------------------ *)
(** ** One delivery attempt *)

Lemma grows_refl s : grows s s.
Proof.
  split; [exists []; now rewrite app_nil_r|].
  intros Hs. split; [exact Hs|apply incl_refl].
Qed.

Lemma grows_trans s1 s2 s3 : grows s1 s2 -> grows s2 s3 -> grows s1 s3.
Proof.
  intros [[c12 Hw12] H12] [[c23 Hw23] H23]. split.
  - exists (c12 ++ c23)%list. now rewrite Hw23, Hw12, app_assoc.
  - intros Hs. destruct (H12 Hs) as [Hs2 Hi12].
    destruct (H23 Hs2) as [Hs3 Hi23].
    split; [exact Hs3|]. now apply incl_tran with (m := alert_logs (stored s2)).
Qed.

Section Attempt.

Variable w : World.
Variable reading : SensorReading.t.
Variable alert_level : string.
Variable messages : list string.

Lemma log_alert_run alert_type recipient message success error_message s :
  exists s',
    AlertService._log_alert w (SensorReading.id reading) alert_type
      alert_level recipient message success error_message s
    = (s', Return tt)
    /\ synced s' /\ wire s' = wire s
    /\ (synced s -> incl (alert_logs (stored s)) (alert_logs (stored s')))
    /\ (store_fault w (insert_alert alert_type recipient) = None ->
        In (log_row w reading alert_level s alert_type recipient message
                    success error_message)
           (alert_logs (stored s'))).
Proof.
  unfold AlertService._log_alert, AlertService.add_alert_log. run.
  destruct (store_fault w (insert_alert alert_type recipient)) as [e|] eqn:Hsite.
  - eexists. split; [reflexivity|]. unfold synced. cbn.
    split; [reflexivity|]. split; [reflexivity|]. split.
    + intros _. apply incl_refl.
    + discriminate.
  - eexists. split; [reflexivity|]. unfold synced. cbn.
    split; [reflexivity|]. split; [reflexivity|]. split.
    + intros Hs. rewrite <- Hs. apply incl_appl, incl_refl.
    + intros _. apply in_or_app. right. now left.
Qed.

Lemma send_email_alert_run recipient s :
  exists s' result,
    AlertService.send_email_alert w reading alert_level messages recipient s
    = (s', Return result)
    /\ grows s s'
    /\ (AlertService.falsy (MAIL_USERNAME w) = true -> s' = s)
    /\ (AlertService.falsy (MAIL_USERNAME w) = false ->
        In (email_message w reading alert_level messages recipient) (wire s')
        /\ forall e,
             mail_fault w (email_message w reading alert_level messages
                                         recipient) = Some e ->
             store_fault w (insert_alert "email" recipient) = None ->
             synced s'
             /\ failure_on_record reading alert_level s' "email" recipient
                  ("Error sending email alert: " ++ e)).
Proof.
  unfold AlertService.send_email_alert.
  destruct (AlertService.falsy (MAIL_USERNAME w)) eqn:Hconf.
  - exists s, (send_error "Email not configured").
    split; [reflexivity|]. split; [apply grows_refl|].
    split; [reflexivity|discriminate].
  - cbv zeta. fold (email_message w reading alert_level messages recipient).
    set (called := mkSys (session s) (stored s) (journal s) (ml s)
                         (wire s ++ [email_message w reading alert_level
                                                   messages recipient])%list).
    destruct (mail_fault w (email_message w reading alert_level messages
                                          recipient)) as [e|] eqn:Hmail.
    + destruct (log_alert_run "email" recipient ""
                  false (Some ("Error sending email alert: " ++ e)) called)
        as [s' [Hrun [Hsync [Hwire [Hkeep Hrow]]]]].
      exists s', (send_error ("Error sending email alert: " ++ e)).
      split.
      { unfold AlertService.call_gateway. run. fold called.
        now rewrite Hrun. }
      split.
      { split.
        { exists [email_message w reading alert_level messages recipient].
          now rewrite Hwire. }
        intros Hs. split; [exact Hsync|]. now apply Hkeep. }
      split; [discriminate|].
      intros _. split.
      { rewrite Hwire. apply in_or_app. right. now left. }
      intros e' He' Hsite. injection He' as <-.
      split; [exact Hsync|].
      eexists. split; [exact (Hrow Hsite)|]. now cbn.
    + destruct (log_alert_run "email" recipient
                  (email_body w reading alert_level messages)
                  true None called)
        as [s' [Hrun [Hsync [Hwire [Hkeep Hrow]]]]].
      exists s', (sent "Email sent successfully" None).
      split.
      { unfold AlertService.call_gateway. run. fold called.
        now rewrite Hrun. }
      split.
      { split.
        { exists [email_message w reading alert_level messages recipient].
          now rewrite Hwire. }
        intros Hs. split; [exact Hsync|]. now apply Hkeep. }
      split; [discriminate|].
      intros _. split.
      { rewrite Hwire. apply in_or_app. right. now left. }
      intros e' He'. discriminate He'.
Qed.

Lemma send_sms_alert_run self recipient s :
  exists s' result,
    AlertService.send_sms_alert w self reading alert_level messages recipient s
    = (s', Return result)
    /\ grows s s'
    /\ (twilio_client self = true ->
        In (sms_message w reading alert_level messages recipient) (wire s')
        /\ forall e,
             twilio_answer w (sms_message w reading alert_level messages
                                          recipient) = Raise e ->
             store_fault w (insert_alert "sms" recipient) = None ->
             synced s'
             /\ failure_on_record reading alert_level s' "sms" recipient
                  ("Error sending SMS alert: " ++ e)).
Proof.
  unfold AlertService.send_sms_alert.
  destruct (twilio_client self) eqn:Hclient; cbn [negb].
  - cbv zeta. fold (sms_message w reading alert_level messages recipient).
    set (called := mkSys (session s) (stored s) (journal s) (ml s)
                         (wire s ++ [sms_message w reading alert_level
                                                 messages recipient])%list).
    destruct (twilio_answer w (sms_message w reading alert_level messages
                                           recipient)) as [sid|e] eqn:Hsms.
    + destruct (log_alert_run "sms" recipient
                  (AlertService.sms_body reading alert_level messages)
                  true None called)
        as [s' [Hrun [Hsync [Hwire [Hkeep Hrow]]]]].
      exists s', (sent "SMS sent successfully" (Some sid)).
      split.
      { unfold AlertService.call_gateway. run. fold called.
        now rewrite Hrun. }
      split.
      { split.
        { exists [sms_message w reading alert_level messages recipient].
          now rewrite Hwire. }
        intros Hs. split; [exact Hsync|]. now apply Hkeep. }
      intros _. split.
      { rewrite Hwire. apply in_or_app. right. now left. }
      intros e' He'. discriminate He'.
    + destruct (log_alert_run "sms" recipient ""
                  false (Some ("Error sending SMS alert: " ++ e)) called)
        as [s' [Hrun [Hsync [Hwire [Hkeep Hrow]]]]].
      exists s', (send_error ("Error sending SMS alert: " ++ e)).
      split.
      { unfold AlertService.call_gateway. run. fold called.
        now rewrite Hrun. }
      split.
      { split.
        { exists [sms_message w reading alert_level messages recipient].
          now rewrite Hwire. }
        intros Hs. split; [exact Hsync|]. now apply Hkeep. }
      intros _. split.
      { rewrite Hwire. apply in_or_app. right. now left. }
      intros e' He' Hsite. injection He' as <-.
      split; [exact Hsync|].
      eexists. split; [exact (Hrow Hsite)|]. now cbn.
  - exists s, (send_error "Twilio not configured").
    split; [reflexivity|]. split; [apply grows_refl|discriminate].
Qed.

Lemma failure_kept s s' alert_type recipient error :
  synced s -> failure_on_record reading alert_level s alert_type recipient error ->
  grows s s' ->
  synced s' /\ failure_on_record reading alert_level s' alert_type recipient error.
Proof.
  intros Hs [row [Hin Hrow]] [_ Hgrow].
  destruct (Hgrow Hs) as [Hs' Hincl].
  split; [exact Hs'|]. exists row. split; [now apply Hincl|exact Hrow].
Qed.

End Attempt.

(* ------------------------------------------------------------------ *)
(** ** The dispatcher *)

Section Dispatch.

Variable w : World.
Variable self : AlertServiceObj.
Variable reading : SensorReading.t.
Variable alert_level : string.
Variable messages : list string.

Lemma finish_run results s :
  (AlertService.put_reading (SensorReading.set_alert_sent true reading) ;;
   db.commit w update_reading ;;
   ret (SensorReading.set_alert_sent true reading, alerts_sent results)) s
  = finish w reading results s.
Proof.
  unfold AlertService.put_reading, finish, mark_row. run.
  now destruct (store_fault w update_reading).
Qed.

Lemma finish_keeps_record results s s' o alert_type recipient error :
  finish w reading results s = (s', o) ->
  synced s ->
  failure_on_record reading alert_level s alert_type recipient error ->
  failure_on_record reading alert_level s' alert_type recipient error.
Proof.
  unfold finish. intros Hfin Hs [row [Hin Hrow]].
  exists row. split; [|exact Hrow].
  destruct (store_fault w update_reading); injection Hfin as <- _; cbn.
  - exact Hin.
  - now rewrite Hs.
Qed.

Lemma dispatch_already_sent s :
  SensorReading.alert_sent reading = true ->
  AlertService.check_and_send_alerts w self reading alert_level messages s
  = (s, Return (reading,
                if (alert_level =? "normal")%string
                then message_ "No alerts needed" else already_sent)).
Proof.
  intros Hsent. unfold AlertService.check_and_send_alerts.
  rewrite Hsent. now destruct (alert_level =? "normal")%string.
Qed.

Lemma dispatch_suppressed s :
  alert_level <> "normal" ->
  SensorReading.alert_sent reading = false ->
  AlertService._check_alert_fatigue w alert_level s = (s, Return true) ->
  AlertService.check_and_send_alerts w self reading alert_level messages s
  = (s, Return (reading, suppressed)).
Proof.
  intros Hlevel Hsent Hgate. unfold AlertService.check_and_send_alerts.
  apply String.eqb_neq in Hlevel. rewrite Hlevel, Hsent.
  now rewrite (bind_Return _ _ _ _ _ Hgate).
Qed.

Lemma dispatch_past_gate s :
  alert_level <> "normal" ->
  SensorReading.alert_sent reading = false ->
  AlertService._check_alert_fatigue w alert_level s = (s, Return false) ->
  exists s2 results,
    AlertService.check_and_send_alerts w self reading alert_level messages s
    = finish w reading results s2
    /\ grows s s2
    /\ addressed results
       = ("email", "admin@example.com")
           :: (if (alert_level =? "critical")%string
               then [("sms", "+1234567890")] else [])
    /\ (AlertService.falsy (MAIL_USERNAME w) = false ->
        In (email_message w reading alert_level messages "admin@example.com")
           (wire s2)
        /\ forall e,
             mail_fault w (email_message w reading alert_level messages
                                         "admin@example.com") = Some e ->
             store_fault w (insert_alert "email" "admin@example.com") = None ->
             synced s2
             /\ failure_on_record reading alert_level s2 "email"
                  "admin@example.com" ("Error sending email alert: " ++ e))
    /\ (alert_level = "critical" -> twilio_client self = true ->
        In (sms_message w reading alert_level messages "+1234567890") (wire s2)
        /\ forall e,
             twilio_answer w (sms_message w reading alert_level messages
                                          "+1234567890") = Raise e ->
             store_fault w (insert_alert "sms" "+1234567890") = None ->
             synced s2
             /\ failure_on_record reading alert_level s2 "sms"
                  "+1234567890" ("Error sending SMS alert: " ++ e)).
Proof.
  intros Hlevel Hsent Hgate. unfold AlertService.check_and_send_alerts.
  apply String.eqb_neq in Hlevel. rewrite Hlevel, Hsent.
  rewrite (bind_Return _ _ _ _ _ Hgate). cbv iota.
  unfold AlertService.email_recipients, AlertService.sms_recipients.
  destruct (send_email_alert_run w reading alert_level messages
              "admin@example.com" s)
    as [s1 [r1 [Hrun1 [Hgrow1 [_ Hmail]]]]].
  rewrite (bind_Return _ _ s s1
             [attempt "email" "admin@example.com" r1]).
  2:{ rewrite for_each_one. now rewrite (bind_Return _ _ _ _ _ Hrun1). }
  destruct (alert_level =? "critical")%string eqn:Hcrit.
  - destruct (send_sms_alert_run w reading alert_level messages self
                "+1234567890" s1)
      as [s2 [r2 [Hrun2 [Hgrow2 Hsms]]]].
    exists s2, [attempt "email" "admin@example.com" r1;
                attempt "sms" "+1234567890" r2].
    split.
    { rewrite (bind_Return _ _ s1 s2
                 [attempt "email" "admin@example.com" r1;
                  attempt "sms" "+1234567890" r2]); [apply finish_run|].
      rewrite for_each_one. now rewrite (bind_Return _ _ _ _ _ Hrun2). }
    split; [now apply grows_trans with (s2 := s1)|].
    split; [reflexivity|].
    split.
    + intros Hconf. destruct (Hmail Hconf) as [Hcall Hfail]. split.
      * destruct Hgrow2 as [[calls Hw] _]. rewrite Hw.
        apply in_or_app. now left.
      * intros e He Hsite. destruct (Hfail e He Hsite) as [Hs1 Hrec].
        now apply failure_kept with (s := s1).
    + intros _ Hclient. exact (Hsms Hclient).
  - exists s1, [attempt "email" "admin@example.com" r1].
    split.
    { rewrite (bind_Return _ _ s1 s1
                 [attempt "email" "admin@example.com" r1]);
        [apply finish_run|reflexivity]. }
    split; [exact Hgrow1|].
    split; [reflexivity|].
    split; [exact Hmail|].
    intros ->. discriminate Hcrit.
Qed.

End Dispatch.

(* ------------------------------------------------------------------ *)
(** ** The channels and the dispatcher, step by step *)

Section Channels.

Variable w : World.
Variable reading : SensorReading.t.
Variable alert_level : string.
Variable messages : list string.

Lemma log_alert_exact alert_type recipient message success error_message s :
  AlertService._log_alert w (SensorReading.id reading) alert_type alert_level
    recipient message success error_message s
  = (match store_fault w (insert_alert alert_type recipient) with
     | None =>
         committed
           (with_alert (log_row w reading alert_level s alert_type recipient
                                message success error_message) (session s))
           [] s
     | Some _ => rolled_back [] s
     end, Return tt).
Proof.
  unfold AlertService._log_alert, AlertService.add_alert_log, committed,
    rolled_back, with_alert, log_row. run.
  destruct (store_fault w (insert_alert alert_type recipient));
    cbn [session stored journal ml wire]; now rewrite app_nil_r.
Qed.

Lemma send_email_alert_unconfigured recipient s :
  AlertService.falsy (MAIL_USERNAME w) = true ->
  AlertService.send_email_alert w reading alert_level messages recipient s
  = (s, Return (send_error "Email not configured")).
Proof.
  intros Hconf. unfold AlertService.send_email_alert. now rewrite Hconf.
Qed.

Lemma send_email_alert_delivered recipient s :
  AlertService.falsy (MAIL_USERNAME w) = false ->
  mail_fault w (email_message w reading alert_level messages recipient) = None ->
  AlertService.send_email_alert w reading alert_level messages recipient s
  = (match store_fault w (insert_alert "email" recipient) with
     | None =>
         committed
           (with_alert
              (log_row w reading alert_level s "email" recipient
                       (email_body w reading alert_level messages) true None)
              (session s))
           [email_message w reading alert_level messages recipient] s
     | Some _ =>
         rolled_back [email_message w reading alert_level messages recipient] s
     end, Return (sent "Email sent successfully" None)).
Proof.
  intros Hconf Hmail. unfold AlertService.send_email_alert.
  rewrite Hconf. cbv zeta.
  fold (email_message w reading alert_level messages recipient).
  unfold AlertService.call_gateway, try_except, bind at 1, modify.
  rewrite Hmail. unfold bind at 1. rewrite log_alert_exact.
  unfold committed, rolled_back, with_alert, log_row, ret.
  cbn [session stored journal ml wire].
  destruct (store_fault w (insert_alert "email" recipient));
    cbn [session stored journal ml wire]; now rewrite app_nil_r.
Qed.

Lemma send_email_alert_wire recipient s :
  wire (fst (AlertService.send_email_alert w reading alert_level messages
                                           recipient s))
  = (wire s ++ if AlertService.falsy (MAIL_USERNAME w) then []
               else [email_message w reading alert_level messages recipient])%list.
Proof.
  destruct (AlertService.falsy (MAIL_USERNAME w)) eqn:Hconf.
  - rewrite send_email_alert_unconfigured by exact Hconf.
    cbn [fst]. now rewrite app_nil_r.
  - unfold AlertService.send_email_alert.
    rewrite Hconf. cbv zeta.
    fold (email_message w reading alert_level messages recipient).
    unfold AlertService.call_gateway, try_except, bind at 1, modify.
    destruct (mail_fault w _) as [e|].
    + unfold raise, bind at 1. rewrite log_alert_exact.
      destruct (store_fault w (insert_alert "email" recipient));
        cbn; now rewrite app_nil_r.
    + unfold bind at 1. rewrite log_alert_exact.
      destruct (store_fault w (insert_alert "email" recipient));
        cbn; now rewrite app_nil_r.
Qed.

Lemma send_sms_alert_unconfigured self recipient s :
  twilio_client self = false ->
  AlertService.send_sms_alert w self reading alert_level messages recipient s
  = (s, Return (send_error "Twilio not configured")).
Proof.
  intros Hclient. unfold AlertService.send_sms_alert. now rewrite Hclient.
Qed.

Lemma send_sms_alert_delivered self recipient sid s :
  twilio_client self = true ->
  twilio_answer w (sms_message w reading alert_level messages recipient)
  = Return sid ->
  AlertService.send_sms_alert w self reading alert_level messages recipient s
  = (match store_fault w (insert_alert "sms" recipient) with
     | None =>
         committed
           (with_alert
              (log_row w reading alert_level s "sms" recipient
                       (AlertService.sms_body reading alert_level messages)
                       true None)
              (session s))
           [sms_message w reading alert_level messages recipient] s
     | Some _ =>
         rolled_back [sms_message w reading alert_level messages recipient] s
     end, Return (sent "SMS sent successfully" (Some sid))).
Proof.
  intros Hclient Hsms. unfold AlertService.send_sms_alert.
  rewrite Hclient. cbn [negb]. cbv zeta.
  fold (sms_message w reading alert_level messages recipient).
  unfold AlertService.call_gateway, try_except, bind at 1, modify.
  unfold bind at 1, lift. rewrite Hsms. unfold bind at 1.
  rewrite log_alert_exact.
  unfold committed, rolled_back, with_alert, log_row, ret.
  cbn [session stored journal ml wire].
  destruct (store_fault w (insert_alert "sms" recipient));
    cbn [session stored journal ml wire]; now rewrite app_nil_r.
Qed.

Lemma attempted_wire calls s s1 :
  attempted calls s s1 -> wire s1 = (wire s ++ calls)%list.
Proof. now intros [[row ->] | ->]. Qed.

Lemma attempted_keeps_readings calls s s1 :
  attempted calls s s1 -> keeps_readings s s1.
Proof.
  intros [[row ->] | ->]; unfold keeps_readings, committed, rolled_back,
    with_alert; cbn [session stored sensor_readings]; split; auto.
Qed.

Lemma keeps_readings_refl s : keeps_readings s s.
Proof. unfold keeps_readings. auto. Qed.

Lemma keeps_readings_trans s s1 s2 :
  keeps_readings s s1 -> keeps_readings s1 s2 -> keeps_readings s s2.
Proof.
  unfold keeps_readings.
  intros [Hsession Hstored] [[-> | ->] [-> | ->]]; auto.
Qed.

(** An attempt by e-mail returns; with the mail configured the gateway
    was handed the message, and the record of the attempt was committed
    or the session rolled back. *)
Lemma send_email_alert_attempted recipient s :
  exists s1 result,
    AlertService.send_email_alert w reading alert_level messages recipient s
    = (s1, Return result)
    /\ if AlertService.falsy (MAIL_USERNAME w) then s1 = s
       else attempted [email_message w reading alert_level messages recipient]
                      s s1.
Proof.
  destruct (AlertService.falsy (MAIL_USERNAME w)) eqn:Hconf.
  - rewrite send_email_alert_unconfigured by exact Hconf. now eexists _, _.
  - unfold AlertService.send_email_alert.
    rewrite Hconf. cbv zeta.
    fold (email_message w reading alert_level messages recipient).
    unfold AlertService.call_gateway, try_except, bind at 1, modify.
    destruct (mail_fault w _) as [e|].
    + unfold raise, bind at 1. rewrite log_alert_exact.
      eexists _, _. split; [reflexivity|].
      destruct (store_fault w (insert_alert "email" recipient));
        [right|left; eexists];
        unfold committed, rolled_back; cbn [session stored journal ml wire];
        now rewrite app_nil_r.
    + unfold bind at 1. rewrite log_alert_exact.
      eexists _, _. split; [reflexivity|].
      destruct (store_fault w (insert_alert "email" recipient));
        [right|left; eexists];
        unfold committed, rolled_back; cbn [session stored journal ml wire];
        now rewrite app_nil_r.
Qed.

(** An attempt by SMS returns; with a Twilio client the gateway was
    handed the message, and the record of the attempt was committed or
    the session rolled back. *)
Lemma send_sms_alert_attempted self recipient s :
  exists s1 result,
    AlertService.send_sms_alert w self reading alert_level messages recipient s
    = (s1, Return result)
    /\ if twilio_client self
       then attempted [sms_message w reading alert_level messages recipient]
                      s s1
       else s1 = s.
Proof.
  destruct (twilio_client self) eqn:Hclient.
  - unfold AlertService.send_sms_alert.
    rewrite Hclient. cbn [negb]. cbv zeta.
    fold (sms_message w reading alert_level messages recipient).
    unfold AlertService.call_gateway, try_except, bind at 1, modify.
    unfold bind at 1, lift.
    destruct (twilio_answer w _) as [sid|e].
    + unfold bind at 1. rewrite log_alert_exact.
      eexists _, _. split; [reflexivity|].
      destruct (store_fault w (insert_alert "sms" recipient));
        [right|left; eexists];
        unfold committed, rolled_back; cbn [session stored journal ml wire];
        now rewrite app_nil_r.
    + unfold bind at 1. rewrite log_alert_exact.
      eexists _, _. split; [reflexivity|].
      destruct (store_fault w (insert_alert "sms" recipient));
        [right|left; eexists];
        unfold committed, rolled_back; cbn [session stored journal ml wire];
        now rewrite app_nil_r.
  - rewrite send_sms_alert_unconfigured by exact Hclient. now eexists _, _.
Qed.

End Channels.

Section DispatchSteps.

Variable w : World.
Variable self : AlertServiceObj.
Variable reading : SensorReading.t.
Variable alert_level : string.
Variable messages : list string.

(** [check_and_send_alerts] past the gate, step by step. *)
Lemma dispatch_steps s :
  alert_level <> "normal" ->
  SensorReading.alert_sent reading = false ->
  AlertService._check_alert_fatigue w alert_level s = (s, Return false) ->
  AlertService.check_and_send_alerts w self reading alert_level messages s
  = match AlertService.send_email_alert w reading alert_level messages
            "admin@example.com" s with
    | (s1, Return r1) =>
        if (alert_level =? "critical")%string then
          match AlertService.send_sms_alert w self reading alert_level
                  messages "+1234567890" s1 with
          | (s2, Return r2) =>
              finish w reading [attempt "email" "admin@example.com" r1;
                                attempt "sms" "+1234567890" r2] s2
          | (s2, Raise e) => (s2, Raise e)
          end
        else finish w reading [attempt "email" "admin@example.com" r1] s1
    | (s1, Raise e) => (s1, Raise e)
    end.
Proof.
  intros Hlevel Hsent Hgate. unfold AlertService.check_and_send_alerts.
  apply String.eqb_neq in Hlevel. rewrite Hlevel, Hsent.
  rewrite (bind_Return _ _ _ _ _ Hgate). cbv iota.
  unfold AlertService.email_recipients, AlertService.sms_recipients.
  unfold bind at 1. rewrite for_each_one. unfold bind at 1.
  destruct (AlertService.send_email_alert w reading alert_level messages
              "admin@example.com" s) as [s1 [r1|e]]; [|reflexivity].
  unfold ret at 1. cbn [app].
  destruct (alert_level =? "critical")%string.
  - unfold bind at 1. rewrite for_each_one. unfold bind at 1.
    destruct (AlertService.send_sms_alert w self reading alert_level messages
                "+1234567890" s1) as [s2 [r2|e]]; [|reflexivity].
    unfold ret at 1. cbn [app]. apply finish_run.
  - unfold bind at 1, ret at 1. apply finish_run.
Qed.

Lemma finish_wire results s :
  wire (fst (finish w reading results s)) = wire s.
Proof. unfold finish. now destruct (store_fault w update_reading). Qed.

(** What a dispatch past the gate leaves, the commit of the mark
    answering: the gateway calls are those before, then the e-mail when
    the mail is configured, then the SMS at the level critical when a
    Twilio client is held; nothing is pending; and the readings stored
    are readings the session or the store held before, the row of the
    reading replaced by the reading marked sent. *)
Lemma dispatch_calls_and_rows s :
  alert_level <> "normal" ->
  SensorReading.alert_sent reading = false ->
  AlertService._check_alert_fatigue w alert_level s = (s, Return false) ->
  store_fault w update_reading = None ->
  exists s2,
    fst (AlertService.check_and_send_alerts w self reading alert_level
           messages s)
    = mkSys (mark_row reading s2) (mark_row reading s2)
            (mark_row reading s2 :: journal s2) (ml s2) (wire s2)
    /\ keeps_readings s s2
    /\ wire s2
       = (wire s
            ++ (if AlertService.falsy (MAIL_USERNAME w) then []
                else [email_message w reading alert_level messages
                                    "admin@example.com"])
            ++ (if (alert_level =? "critical")%string && twilio_client self
                then [sms_message w reading alert_level messages "+1234567890"]
                else []))%list.
Proof.
  intros Hlevel Hsent Hgate Hcommit. rewrite dispatch_steps by assumption.
  destruct (send_email_alert_attempted w reading alert_level messages
              "admin@example.com" s) as [s1 [r1 [-> Hs1]]].
  assert (Hkeep1 : keeps_readings s s1).
  { destruct (AlertService.falsy (MAIL_USERNAME w)).
    - subst s1. apply keeps_readings_refl.
    - now apply attempted_keeps_readings in Hs1. }
  assert (Hwire1 : wire s1
                   = (wire s ++ if AlertService.falsy (MAIL_USERNAME w) then []
                                else [email_message w reading alert_level
                                        messages "admin@example.com"])%list).
  { destruct (AlertService.falsy (MAIL_USERNAME w)).
    - subst s1. now rewrite app_nil_r.
    - now apply attempted_wire in Hs1. }
  clear Hs1.
  destruct (alert_level =? "critical")%string.
  - destruct (send_sms_alert_attempted w reading alert_level messages self
                "+1234567890" s1) as [s2 [r2 [-> Hs2]]].
    exists s2. unfold finish. rewrite Hcommit. split; [reflexivity|].
    cbn [andb]. destruct (twilio_client self).
    + split.
      * apply (keeps_readings_trans _ _ _ Hkeep1).
        now apply attempted_keeps_readings in Hs2.
      * apply attempted_wire in Hs2. rewrite Hs2, Hwire1.
        now rewrite <- app_assoc.
    + subst s2. split; [exact Hkeep1|]. rewrite app_nil_r. exact Hwire1.
  - exists s1. unfold finish. rewrite Hcommit. split; [reflexivity|].
    split; [exact Hkeep1|]. cbn [andb]. rewrite app_nil_r. exact Hwire1.
Qed.

End DispatchSteps.

(* ------------------------------------------------------------------ *)
(** ** Sample worlds and states *)

(* ------------------------------------------------------------------ *)
(** ** The claims on alert dispatch *)

(** C3. A reading not yet marked sent, at level warning or critical,
    with five or more delivered alert records of that level in the last
    hour, the count query answering: the dispatch is suppressed.  It
    returns the fatigue message and leaves the whole state as it was, so
    nothing is added to the audit trail, no gateway is called, and the
    reading keeps [alert_sent = false]. *)
Theorem fatigue_suppresses_dispatch w self reading alert_level messages s :
  SensorReading.alert_sent reading = false ->
  alert_level = "warning" \/ alert_level = "critical" ->
  store_fault w count_alerts = None ->
  (5 <= List.length (filter (delivered_in_last_hour w alert_level)
                            (alert_logs (session s))))%nat ->
  AlertService.check_and_send_alerts w self reading alert_level messages s
  = (s, Return (reading, suppressed)).
Proof.
  intros Hsent Hlevel Hstore Hfive.
  apply dispatch_suppressed; [destruct Hlevel; subst; discriminate|exact Hsent|].
  rewrite (fatigue_count w alert_level s Hstore). do 2 f_equal.
  apply Nat.leb_le.
  eapply Nat.le_trans; [exact Hfive|].
  apply filter_length_le. apply delivered_in_last_hour_recent.
Qed.

Lemma fatigue_suppresses_dispatch_witness :
  AlertService.check_and_send_alerts (Sample.calm Sample.noon) Sample.on_duty
    (Sample.reading_at 1 Sample.noon) "warning" ["Vibration warning: 2.1 >= 2.0"]
    (Sample.quiet Sample.five_warnings)
  = (Sample.quiet Sample.five_warnings,
     Return (Sample.reading_at 1 Sample.noon, suppressed)).
Proof.
  apply fatigue_suppresses_dispatch.
  - reflexivity.
  - now left.
  - reflexivity.
  - vm_compute. lia.
Defined.

(** C4. Dispatch on a reading already marked sent, at any level other
    than normal, is a no-op: it returns at once and the state, audit
    trail and gateway calls included, is what it was.  Hence a second
    dispatch, on the reading and the state a first dispatch left after
    its delivery attempts, attempts nothing. *)
Theorem dispatch_idempotent w self reading alert_level messages s :
  alert_level <> "normal" ->
  (SensorReading.alert_sent reading = true ->
   AlertService.check_and_send_alerts w self reading alert_level messages s
   = (s, Return (reading, already_sent)))
  /\ (forall w0 self0 reading0 s0 results,
        AlertService.check_and_send_alerts w0 self0 reading0 alert_level messages s0
        = (s, Return (reading, alerts_sent results)) ->
        AlertService.check_and_send_alerts w self reading alert_level messages s
        = (s, Return (reading, already_sent))).
Proof.
  intros Hlevel.
  assert (Hnoop : SensorReading.alert_sent reading = true ->
                  AlertService.check_and_send_alerts w self reading alert_level
                                                     messages s
                  = (s, Return (reading, already_sent))).
  { intros Hsent. rewrite (dispatch_already_sent w self _ _ _ s Hsent).
    apply String.eqb_neq in Hlevel. now rewrite Hlevel. }
  split; [exact Hnoop|].
  intros w0 self0 reading0 s0 results Hfirst. apply Hnoop.
  destruct (SensorReading.alert_sent reading0) eqn:Hsent0.
  - rewrite (dispatch_already_sent w0 self0 _ _ _ s0 Hsent0) in Hfirst.
    destruct (alert_level =? "normal")%string; discriminate Hfirst.
  - destruct (fatigue_total w0 alert_level s0) as [[|] Hgate].
    + rewrite (dispatch_suppressed w0 self0 _ _ _ s0 Hlevel Hsent0 Hgate) in Hfirst.
      discriminate Hfirst.
    + destruct (dispatch_past_gate w0 self0 _ _ messages s0 Hlevel Hsent0 Hgate)
        as [s2 [results' [Hrun _]]].
      rewrite Hrun in Hfirst. unfold finish in Hfirst.
      destruct (store_fault w0 update_reading); [discriminate Hfirst|].
      injection Hfirst as _ <- _. reflexivity.
Qed.

Lemma dispatch_idempotent_witness :
  exists s1 r1 results,
    AlertService.check_and_send_alerts (Sample.calm Sample.noon) Sample.on_duty
      (Sample.reading_at 1 Sample.noon) "critical"
      ["Vibration critical: 2.6 >= 2.5"]
      (Sample.quiet (mkTables [Sample.reading_at 1 Sample.noon] [] []))
    = (s1, Return (r1, alerts_sent results))
    /\ List.length results = 2%nat
    /\ AlertService.check_and_send_alerts (Sample.gateways_down Sample.noon)
         Sample.on_duty r1 "critical" ["Vibration critical: 2.6 >= 2.5"] s1
       = (s1, Return (r1, already_sent)).
Proof.
  do 3 eexists. split; [vm_compute; reflexivity|]. split; [reflexivity|].
  match goal with
  | |- AlertService.check_and_send_alerts ?w ?self ?r ?l ?m ?s = _ =>
      assert (Hlevel : l <> "normal") by discriminate;
      exact (proj1 (dispatch_idempotent w self r l m s Hlevel) eq_refl)
  end.
Defined.

(** C6. A reading not yet marked sent, at a level other than normal,
    that the fatigue gate lets through: whatever the gateways and the
    audit-trail writes do, every channel is attempted and the dispatch
    returns the reading with [alert_sent = true] (the commit of that
    mark answering).  A message the mail or SMS gateway refused is on
    record as an alert record with [success = false] once its row is
    written.  The attempts are on the wire: after the calls made before
    come the e-mail, when the mail is configured, and the SMS, at the
    level critical when a Twilio client is held, and nothing else.  The
    mark is in the store: nothing is left pending, and the readings
    stored are readings held before, the row of the reading replaced by
    the reading marked sent. *)
Theorem dispatch_marks_sent_whatever_gateways_do
    w self reading alert_level messages s :
  SensorReading.alert_sent reading = false ->
  alert_level <> "normal" ->
  AlertService._check_alert_fatigue w alert_level s = (s, Return false) ->
  store_fault w update_reading = None ->
  exists s' reading' results,
    AlertService.check_and_send_alerts w self reading alert_level messages s
    = (s', Return (reading', alerts_sent results))
    /\ reading' = SensorReading.set_alert_sent true reading
    /\ SensorReading.alert_sent reading' = true
    /\ addressed results
       = ("email", "admin@example.com")
           :: (if (alert_level =? "critical")%string
               then [("sms", "+1234567890")] else [])
    /\ (forall e,
          AlertService.falsy (MAIL_USERNAME w) = false ->
          mail_fault w (email_message w reading alert_level messages
                                      "admin@example.com") = Some e ->
          store_fault w (insert_alert "email" "admin@example.com") = None ->
          failure_on_record reading alert_level s' "email" "admin@example.com"
            ("Error sending email alert: " ++ e))
    /\ (forall e,
          alert_level = "critical" -> twilio_client self = true ->
          twilio_answer w (sms_message w reading alert_level messages
                                       "+1234567890") = Raise e ->
          store_fault w (insert_alert "sms" "+1234567890") = None ->
          failure_on_record reading alert_level s' "sms" "+1234567890"
            ("Error sending SMS alert: " ++ e))
    /\ wire s'
       = (wire s
            ++ (if AlertService.falsy (MAIL_USERNAME w) then []
                else [email_message w reading alert_level messages
                                    "admin@example.com"])
            ++ (if (alert_level =? "critical")%string && twilio_client self
                then [sms_message w reading alert_level messages "+1234567890"]
                else []))%list
    /\ session s' = stored s'
    /\ (exists held_before,
          (held_before = sensor_readings (session s)
           \/ held_before = sensor_readings (stored s))
          /\ sensor_readings (stored s')
             = map (fun r => if (SensorReading.id r
                                 =? SensorReading.id reading)%nat
                             then SensorReading.set_alert_sent true reading
                             else r)
                   held_before)
    /\ (session s = stored s ->
        In reading (sensor_readings (stored s)) ->
        In (SensorReading.set_alert_sent true reading)
           (sensor_readings (stored s'))
        /\ forall r, In r (sensor_readings (stored s')) ->
                     SensorReading.id r = SensorReading.id reading ->
                     SensorReading.alert_sent r = true).
Proof.
  intros Hsent Hlevel Hgate Hcommit.
  destruct (dispatch_past_gate w self reading alert_level messages s
              Hlevel Hsent Hgate)
    as [s2 [results [Hrun [_ [Hto [Hmail Hsms]]]]]].
  destruct (dispatch_calls_and_rows w self reading alert_level messages s
              Hlevel Hsent Hgate Hcommit)
    as [s3 [Hleft [Hkeep Hwire]]].
  destruct (finish w reading results s2) as [s' o] eqn:Hfin.
  assert (Ho : o = Return (SensorReading.set_alert_sent true reading,
                           alerts_sent results)).
  { unfold finish in Hfin. rewrite Hcommit in Hfin. now injection Hfin as _ <-. }
  subst o. rewrite Hrun in Hleft. cbn [fst] in Hleft.
  exists s', (SensorReading.set_alert_sent true reading), results.
  split; [exact Hrun|].
  split; [reflexivity|]. split; [reflexivity|]. split; [exact Hto|].
  split.
  { intros e Hconf He Hsite.
    destruct (proj2 (Hmail Hconf) e He Hsite) as [Hs2 Hrec].
    exact (finish_keeps_record w reading alert_level _ _ _ _ _ _ _ Hfin Hs2 Hrec). }
  split.
  { intros e Hcrit Hclient He Hsite.
    destruct (proj2 (Hsms Hcrit Hclient) e He Hsite) as [Hs2 Hrec].
    exact (finish_keeps_record w reading alert_level _ _ _ _ _ _ _ Hfin Hs2 Hrec). }
  rewrite Hleft. cbn [wire session stored].
  split; [exact Hwire|]. split; [reflexivity|].
  unfold mark_row. cbn [sensor_readings].
  split.
  { exists (sensor_readings (session s3)). split; [exact (proj1 Hkeep)|reflexivity]. }
  intros Hsync Hin.
  assert (Hrows : sensor_readings (session s3) = sensor_readings (stored s)).
  { destruct Hkeep as [[Hrows | Hrows] _]; rewrite Hrows; now rewrite ?Hsync. }
  rewrite Hrows. split.
  - apply in_map_iff. exists reading. split; [|exact Hin].
    now rewrite Nat.eqb_refl.
  - intros r Hr Hid. apply in_map_iff in Hr. destruct Hr as [r0 [Hr0 _]].
    destruct (SensorReading.id r0 =? SensorReading.id reading)%nat eqn:Hsame.
    + now subst r.
    + subst r. apply Nat.eqb_neq in Hsame. contradiction.
Qed.

Lemma dispatch_marks_sent_whatever_gateways_do_witness :
  exists s' reading' results,
    AlertService.check_and_send_alerts (Sample.gateways_down Sample.noon)
      Sample.on_duty (Sample.reading_at 1 Sample.noon) "critical"
      ["Vibration critical: 2.6 >= 2.5"]
      (Sample.quiet (mkTables [Sample.reading_at 1 Sample.noon] [] []))
    = (s', Return (reading', alerts_sent results))
    /\ SensorReading.alert_sent reading' = true
    /\ failure_on_record (Sample.reading_at 1 Sample.noon) "critical" s'
         "email" "admin@example.com"
         "Error sending email alert: Connection refused"
    /\ failure_on_record (Sample.reading_at 1 Sample.noon) "critical" s'
         "sms" "+1234567890"
         "Error sending SMS alert: Unable to create record"
    /\ wire s'
       = [email_message (Sample.gateways_down Sample.noon)
            (Sample.reading_at 1 Sample.noon) "critical"
            ["Vibration critical: 2.6 >= 2.5"] "admin@example.com";
          sms_message (Sample.gateways_down Sample.noon)
            (Sample.reading_at 1 Sample.noon) "critical"
            ["Vibration critical: 2.6 >= 2.5"] "+1234567890"]
    /\ sensor_readings (stored s')
       = [SensorReading.set_alert_sent true (Sample.reading_at 1 Sample.noon)].
Proof.
  assert (Hlevel : "critical" <> "normal") by discriminate.
  destruct (dispatch_marks_sent_whatever_gateways_do
              (Sample.gateways_down Sample.noon) Sample.on_duty
              (Sample.reading_at 1 Sample.noon) "critical"
              ["Vibration critical: 2.6 >= 2.5"]
              (Sample.quiet (mkTables [Sample.reading_at 1 Sample.noon] [] []))
              eq_refl Hlevel eq_refl eq_refl)
    as [s' [reading' [results [Hrun [_ [Hsent [_ [Hmail [Hsms [Hwire
         [_ [[held_before [Hheld Hrows]] _]]]]]]]]]]]].
  exists s', reading', results.
  split; [exact Hrun|]. split; [exact Hsent|]. split.
  { exact (Hmail "Connection refused" eq_refl eq_refl eq_refl). }
  split.
  { exact (Hsms "Unable to create record" eq_refl eq_refl eq_refl eq_refl). }
  split; [exact Hwire|].
  rewrite Hrows. now destruct Hheld as [-> | ->].
Defined.

(** C10. The fatigue gate fails open.  When the count query of the
    audit trail raises, [_check_alert_fatigue] answers [False] for every
    level and writes nothing; a dispatch of a reading not yet marked
    sent then goes on to the channels: it does not answer with a
    message, the mail gateway is called when mail is configured, and
    with the commit of the mark answering it returns the attempts. *)
Theorem fatigue_gate_fails_open w alert_level s e :
  store_fault w count_alerts = Some e ->
  AlertService._check_alert_fatigue w alert_level s = (s, Return false)
  /\ forall self reading messages,
       SensorReading.alert_sent reading = false ->
       alert_level <> "normal" ->
       exists s' o,
         AlertService.check_and_send_alerts w self reading alert_level messages s
         = (s', o)
         /\ (forall reading' text, o <> Return (reading', message_ text))
         /\ (AlertService.falsy (MAIL_USERNAME w) = false ->
             In (email_message w reading alert_level messages "admin@example.com")
                (wire s'))
         /\ (store_fault w update_reading = None ->
             exists results,
               o = Return (SensorReading.set_alert_sent true reading,
                           alerts_sent results)
               /\ results <> []).
Proof.
  intros Hfault.
  pose proof (fatigue_fault w alert_level s e Hfault) as Hgate.
  split; [exact Hgate|].
  intros self reading messages Hsent Hlevel.
  destruct (dispatch_past_gate w self reading alert_level messages s
              Hlevel Hsent Hgate)
    as [s2 [results [Hrun [_ [Hto [Hmail _]]]]]].
  rewrite Hrun. unfold finish.
  destruct (store_fault w update_reading) as [e'|] eqn:Hcommit.
  - eexists _, _. split; [reflexivity|].
    split; [discriminate|]. split; [|discriminate].
    intros Hconf. exact (proj1 (Hmail Hconf)).
  - eexists _, _. split; [reflexivity|].
    split; [discriminate|]. split.
    + intros Hconf. exact (proj1 (Hmail Hconf)).
    + intros _. exists results. split; [reflexivity|].
      intros ->. discriminate Hto.
Qed.

Lemma fatigue_gate_fails_open_witness :
  AlertService._check_alert_fatigue
    (Sample.store_down Sample.noon
       (fun site => match site with count_alerts => true | _ => false end))
    "warning" (Sample.quiet Sample.five_warnings)
  = (Sample.quiet Sample.five_warnings, Return false).
Proof.
  exact (proj1 (fatigue_gate_fails_open
                  (Sample.store_down Sample.noon
                     (fun site => match site with
                                  | count_alerts => true
                                  | _ => false
                                  end))
                  "warning" (Sample.quiet Sample.five_warnings)
                  "database is locked" eq_refl)).
Defined.

(* ------------------------------------------------------------------ *)
(** ** Queries *)

Lemma insert_desc_length {R} (key : R -> Z) (x : R) (l : list R) :
  List.length (db.insert_desc key x l) = S (List.length l).
Proof.
  induction l as [|y r IH]; cbn [db.insert_desc]; [reflexivity|].
  destruct (key y <=? key x); cbn [List.length]; [reflexivity|].
  now rewrite IH.
Qed.

Lemma order_by_desc_length {R} (key : R -> Z) (l : list R) :
  List.length (db.order_by_desc key l) = List.length l.
Proof.
  induction l as [|x l IH]; [reflexivity|].
  cbn [db.order_by_desc fold_right].
  fold (db.order_by_desc key l). now rewrite insert_desc_length, IH.
Qed.

Lemma insert_desc_In {R} (key : R -> Z) (x y : R) (l : list R) :
  In y (db.insert_desc key x l) <-> y = x \/ In y l.
Proof.
  induction l as [|z r IH]; cbn [db.insert_desc].
  - cbn. intuition congruence.
  - destruct (key z <=? key x); cbn [In]; [intuition congruence|].
    rewrite IH. intuition congruence.
Qed.

Lemma order_by_desc_In {R} (key : R -> Z) (y : R) (l : list R) :
  In y (db.order_by_desc key l) <-> In y l.
Proof.
  induction l as [|x l IH]; [reflexivity|].
  cbn [db.order_by_desc fold_right]. fold (db.order_by_desc key l).
  rewrite insert_desc_In, IH. cbn [In]. intuition congruence.
Qed.

(* ------------------------------------------------------------------ *)
(** ** Training *)

Section Training.

Variable w : World.

Lemma training_readings_run s :
  store_fault w select_readings = None ->
  exists readings,
    MLService.training_readings w s = (s, Return readings)
    /\ (List.length readings
        <= List.length (filter (qualifies w) (sensor_readings (session s))))%nat.
Proof.
  intros Hstore. unfold MLService.training_readings. run. rewrite Hstore.
  eexists. split; [reflexivity|].
  rewrite length_firstn, order_by_desc_length.
  apply Nat.le_min_r.
Qed.

Lemma train_isolation_forest_total rate s :
  exists s' result,
    MLService.train_isolation_forest w rate s = (s', Return result).
Proof.
  unfold MLService.train_isolation_forest, try_except.
  match goal with |- context [match ?body s with _ => _ end] =>
    destruct (body s) as [s1 [result|e]] end.
  - now exists s1, result.
  - eexists _, _. run. reflexivity.
Qed.

End Training.

(** C7. Training, of either kind of detector, with fewer than fifty
    readings that qualify (the query of the readings answering) returns
    the insufficient-data error and leaves the whole state as it was: no
    model row is written and the model and scaler held in memory are the
    ones held before. *)
Theorem insufficient_data_leaves_state w rate s :
  store_fault w select_readings = None ->
  (List.length (filter (qualifies w) (sensor_readings (session s))) < 50)%nat ->
  MLService.train_isolation_forest w rate s
  = (s, Return (error_ "Insufficient training data"))
  /\ MLService.train_one_class_svm w rate s
     = (s, Return (error_ "Insufficient training data")).
Proof.
  intros Hstore Hfew.
  destruct (training_readings_run w s Hstore) as [readings [Hrun Hlen]].
  assert (Hshort : (List.length readings <? 50)%nat = true)
    by (apply Nat.ltb_lt; lia).
  split.
  - unfold MLService.train_isolation_forest.
    apply try_except_Return.
    rewrite (bind_Return _ _ _ _ _ Hrun). now rewrite Hshort.
  - unfold MLService.train_one_class_svm.
    apply try_except_Return.
    rewrite (bind_Return _ _ _ _ _ Hrun). now rewrite Hshort.
Qed.

Lemma insufficient_data_leaves_state_witness :
  MLService.train_isolation_forest (Sample.calm Sample.noon)
    MLService.default_rate (Sample.quiet Sample.five_warnings)
  = (Sample.quiet Sample.five_warnings,
     Return (error_ "Insufficient training data"))
  /\ MLService.train_one_class_svm (Sample.calm Sample.noon)
       MLService.default_rate (Sample.quiet Sample.five_warnings)
     = (Sample.quiet Sample.five_warnings,
        Return (error_ "Insufficient training data")).
Proof.
  apply insufficient_data_leaves_state.
  - reflexivity.
  - vm_compute. lia.
Defined.

(* ------------------------------------------------------------------ *)
(** ** Scoring *)

Section Scoring.

Variable w : World.
Variable reading : SensorReading.t.

Lemma scoring_run s :
  exists is_anomaly score,
    scoring w reading s = (s, Return (is_anomaly, score))
    /\ ((is_anomaly, score) = (false, PyFloat.zero)
        \/ scored w reading s is_anomaly score).
Proof.
  unfold scoring, MLService.deref, MLService.first_of. run.
  destruct (scaler (ml s)) as [the_scaler|] eqn:Hscaler;
    [|exists false, PyFloat.zero; split; [reflexivity|now left]].
  destruct (sk_transform w the_scaler [MLService.features_of reading])
    as [features_scaled|e] eqn:Htransform;
    [|exists false, PyFloat.zero; split; [reflexivity|now left]].
  destruct (model (ml s)) as [the_model|] eqn:Hmodel;
    [|exists false, PyFloat.zero; split; [reflexivity|now left]].
  destruct (sk_predict w the_model features_scaled)
    as [[|prediction predictions]|e] eqn:Hpredict;
    try (exists false, PyFloat.zero; split; [reflexivity|now left]).
  destruct (sk_decision_function w the_model features_scaled)
    as [[|score scores]|e] eqn:Hscore;
    try (exists false, PyFloat.zero; split; [reflexivity|now left]).
  exists (prediction =? -1), score. split; [reflexivity|]. right.
  exists the_scaler, the_model, features_scaled, prediction, predictions, scores.
  repeat split; assumption.
Qed.

Lemma predict_anomaly_unfold s :
  MLService.predict_anomaly w reading s
  = match MLService.truth_of_model (model (ml s)) with
    | Return model_is_true =>
        if negb model_is_true
           || negb (MLService.truth_of_scaler (scaler (ml s))) then
          match MLService.train_isolation_forest w MLService.default_rate s with
          | (s1, Return result) =>
              if has_error result then (s1, Return (false, PyFloat.zero))
              else scoring w reading s1
          | (s1, Raise e) => (s1, Raise e)
          end
        else scoring w reading s
    | Raise e => (s, Raise e)
    end.
Proof.
  unfold MLService.predict_anomaly, scoring.
  cbv beta delta [bind get lift] iota.
  destruct (MLService.truth_of_model (model (ml s))) as [model_is_true|e];
    [|reflexivity].
  destruct (negb model_is_true
            || negb (MLService.truth_of_scaler (scaler (ml s))));
    [|reflexivity].
  cbv beta delta [bind ret] iota.
  destruct (MLService.train_isolation_forest w MLService.default_rate s)
    as [s1 [result|e]]; try reflexivity.
  destruct (has_error result); reflexivity.
Qed.

(** Past the truth test of the model, [predict_anomaly] returns a pair:
    [(False, 0.0)] when the training it starts reports an error, and
    otherwise the scored pair or [(False, 0.0)]. *)
Lemma predict_anomaly_past_truth_test s model_is_true :
  MLService.truth_of_model (model (ml s)) = Return model_is_true ->
  exists s' is_anomaly score,
    MLService.predict_anomaly w reading s = (s', Return (is_anomaly, score))
    /\ ((is_anomaly, score) = (false, PyFloat.zero)
        \/ scored w reading s' is_anomaly score)
    /\ (model (ml s) = None \/ scaler (ml s) = None ->
        exists result,
          MLService.train_isolation_forest w MLService.default_rate s
          = (s', Return result)
          /\ (has_error result = true ->
              (is_anomaly, score) = (false, PyFloat.zero))).
Proof.
  intros Htruth. rewrite predict_anomaly_unfold, Htruth.
  destruct (negb model_is_true
            || negb (MLService.truth_of_scaler (scaler (ml s)))) eqn:Hlazy.
  - destruct (train_isolation_forest_total w MLService.default_rate s)
      as [s1 [result Htrain]].
    rewrite Htrain. destruct (has_error result) eqn:Herr.
    + exists s1, false, PyFloat.zero.
      split; [reflexivity|]. split; [now left|].
      intros _. exists result. split; [reflexivity|]. reflexivity.
    + destruct (scoring_run s1) as [b [x [Hrun Hpair]]].
      exists s1, b, x. split; [exact Hrun|]. split; [exact Hpair|].
      intros _. exists result. split; [reflexivity|].
      intros Habsurd. congruence.
  - destruct (scoring_run s) as [b [x [Hrun Hpair]]].
    exists s, b, x. split; [exact Hrun|]. split; [exact Hpair|].
    intros [Hnone | Hnone]; rewrite Hnone in *.
    + cbn in Htruth. injection Htruth as <-. discriminate Hlazy.
    + cbn in Hlazy. rewrite orb_true_r in Hlazy. discriminate Hlazy.
Qed.

(** The truth test of an ensemble that was never fitted raises, and it
    stands before the [try]. *)
Lemma predict_anomaly_unfitted_ensemble s contamination random_state n_estimators :
  model (ml s)
  = Some (mkModel (IsolationForest contamination random_state n_estimators) None) ->
  MLService.predict_anomaly w reading s
  = (s, Raise "'IsolationForest' object has no attribute 'estimators_'").
Proof.
  intros Hmodel. rewrite predict_anomaly_unfold, Hmodel. reflexivity.
Qed.

End Scoring.

(** C8. [predict_anomaly] can raise.  On a service with no model, where
    fifty readings qualify and [fit] refuses the matrix, the first call
    trains, the training reports the error and the call returns
    [(False, 0.0)], as the claim says; the service is left holding the
    estimator that was never fitted.  A second call on the same service
    raises [AttributeError], whatever the reading and whatever the
    collaborators answer: the truth test of the model stands before the
    [try] and asks the ensemble for the number of its trees. *)
Theorem predict_anomaly_raises_after_failed_fit :
  exists s1,
    MLService.predict_anomaly Scene.fit_refused
      (Sample.reading_at 1 Sample.noon) (Sample.quiet Scene.fifty_readings)
    = (s1, Return (false, PyFloat.zero))
    /\ model (ml s1)
       = Some (mkModel (IsolationForest MLService.default_rate 42 100) None)
    /\ forall w reading,
         MLService.predict_anomaly w reading s1
         = (s1, Raise "'IsolationForest' object has no attribute 'estimators_'").
Proof.
  eexists. split; [vm_compute; reflexivity|].
  split; [reflexivity|].
  intros w reading.
  eapply predict_anomaly_unfitted_ensemble. reflexivity.
Qed.

(* ------------------------------------------------------------------ *)
(** ** What a training run commits *)

Section TrainingRun.

Variable w : World.

Lemma fit_and_record_run readings est name kind params s :
  exists s' o,
    MLService.fit_and_record w readings est name kind params s = (s', o)
    /\ same_kind s s'
    /\ match o with
       | Return result => training_outcome w kind s s' result
                          /\ has_error result = false
       | Raise e => stored s' = stored s /\ journal s' = journal s
       end.
Proof.
  unfold MLService.fit_and_record, MLService.prepare_training_data,
    MLService.set_scaler, MLService.set_model, MLService.add_model.
  run.
  destruct (sk_fit_transform w (map MLService.features_of readings))
    as [features_scaled|e];
    [|eexists _, _; split; [reflexivity|split; [reflexivity|now split]]].
  destruct (sk_fit w est features_scaled) as [e|];
    [eexists _, _; split; [reflexivity|split; [reflexivity|now split]]|].
  destruct (sk_predict w _ features_scaled) as [predictions|e];
    [|eexists _, _; split; [reflexivity|split; [reflexivity|now split]]].
  destruct (sk_decision_function w _ features_scaled) as [scores|e];
    [|eexists _, _; split; [reflexivity|split; [reflexivity|now split]]].
  cbn [session stored journal ml wire].
  destruct (store_fault w insert_model) as [e|];
    [eexists _, _; split; [reflexivity|split; [reflexivity|now split]]|].
  eexists _, _. split; [reflexivity|]. split; [reflexivity|].
  split; [|reflexivity].
  eexists. cbn. repeat split; reflexivity.
Qed.

Lemma training_run est name kind params s :
  exists s' result,
    training w est name kind params s = (s', Return result)
    /\ same_kind s s'
    /\ training_outcome w kind s s' result.
Proof.
  unfold training, MLService.training_readings. run.
  destruct (store_fault w select_readings) as [e|].
  { eexists _, _. split; [reflexivity|]. split; [reflexivity|].
    cbn. split; [reflexivity|]. split; [reflexivity|]. now right. }
  match goal with |- context [(List.length ?rows <? 50)%nat] =>
    set (readings := rows) end.
  destruct (List.length readings <? 50)%nat.
  { eexists _, _. split; [reflexivity|]. split; [reflexivity|].
    cbn. split; [reflexivity|]. split; [reflexivity|]. now left. }
  destruct (fit_and_record_run readings est name kind params s)
    as [s1 [[result|e] [Hrun [Hkind Hout]]]]; rewrite Hrun.
  - exists s1, result. split; [reflexivity|]. split; [exact Hkind|].
    exact (proj1 Hout).
  - eexists _, _. split; [reflexivity|]. split; [exact Hkind|].
    cbn. destruct Hout as [Hstored Hjournal].
    split; [exact Hstored|]. split; [exact Hjournal|]. now right.
Qed.

Lemma train_isolation_forest_run contamination s :
  exists s' result,
    MLService.train_isolation_forest w contamination s = (s', Return result)
    /\ same_kind s s'
    /\ training_outcome w "IsolationForest" s s' result.
Proof. apply training_run. Qed.

Lemma train_one_class_svm_run nu s :
  exists s' result,
    MLService.train_one_class_svm w nu s = (s', Return result)
    /\ same_kind s s'
    /\ training_outcome w "OneClassSVM" s s' result.
Proof. apply training_run. Qed.

End TrainingRun.

(* ------------------------------------------------------------------ *)
(** ** The classifier store *)

(** A training run that reports adds its row to the rows of the session
    and touches no other: the snapshots active before stay active. *)
Lemma training_deactivates_nothing w kind s s' result :
  training_outcome w kind s s' result ->
  has_error result = false ->
  List.length (active_snapshots kind (stored s'))
  = S (List.length (active_snapshots kind (session s))).
Proof.
  destruct result as [text|text|model_type samples anomalies model_id];
    cbn [training_outcome has_error]; [discriminate|contradiction|].
  intros [row [_ [Hkind [Hactive [_ [_ [_ [Hstored _]]]]]]]] _.
  rewrite Hstored. unfold active_snapshots, with_model. cbn [ml_models].
  rewrite filter_app, length_app. cbn [filter].
  unfold is_active_of at 2. rewrite Hkind, Hactive, String.eqb_refl.
  cbn [andb List.length]. lia.
Qed.

(** C1, on the code.  From fifty fresh readings and no snapshot, where
    the invariant holds, two calls of [train_isolation_forest] both
    report a model, and the store then holds two snapshots of kind
    IsolationForest with [is_active = True]: the second training did not
    deactivate the first, and the invariant is lost. *)
Theorem two_trainings_leave_two_active :
  single_active (stored (Sample.quiet Scene.fifty_readings))
  /\ snd (MLService.train_isolation_forest (Sample.calm Sample.noon)
            MLService.default_rate (Sample.quiet Scene.fifty_readings))
     = Return (trained "IsolationForest" 50 0 1)
  /\ map (fun m => (MLModel.id m, MLModel.is_active m))
         (active_snapshots "IsolationForest"
            (stored
               (run_ops
                  [ (Sample.calm Sample.noon,
                     op_train_isolation_forest MLService.default_rate);
                    (Sample.calm (Sample.noon + 1000000),
                     op_train_isolation_forest MLService.default_rate) ]
                  (Sample.quiet Scene.fifty_readings))))
     = [(1%nat, true); (2%nat, true)]
  /\ ~ single_active
         (stored
            (run_ops
               [ (Sample.calm Sample.noon,
                  op_train_isolation_forest MLService.default_rate);
                 (Sample.calm (Sample.noon + 1000000),
                  op_train_isolation_forest MLService.default_rate) ]
               (Sample.quiet Scene.fifty_readings))).
Proof.
  split; [intros kind; cbn; lia|].
  split; [vm_compute; reflexivity|].
  split; [vm_compute; reflexivity|].
  intros Hsingle. specialize (Hsingle "IsolationForest").
  vm_compute in Hsingle. lia.
Qed.

(** C2 as stated fails: with the old snapshot due and no reading of the
    last week, [retrain_if_needed] commits the deactivation, the
    training then reports insufficient data, and the store is left with
    no active snapshot. *)
Lemma swap_is_not_atomic :
  ~ swap_is_atomic (Sample.calm Sample.noon) (Sample.quiet Scene.stale).
Proof.
  intros Hatomic.
  specialize (Hatomic Scene.old_snapshot eq_refl eq_refl).
  apply Forall_inv in Hatomic. vm_compute in Hatomic. discriminate Hatomic.
Qed.

(** C2, amended.  When the active snapshot is due, [retrain_if_needed]
    commits its deactivation on its own and then trains.  A training
    that reports adds the new snapshot, active, to the tables with the
    old one deactivated, in a second commit.  A training that fails
    commits nothing more: the old snapshot stays deactivated and no
    snapshot is added. *)
Theorem retrain_swaps_in_two_commits w s latest_model :
  MLService.latest_active w (model_type (ml s)) s
  = (s, Return (Some latest_model)) ->
  due w latest_model = true ->
  store_fault w update_model = None ->
  exists s' result,
    MLService.retrain_if_needed w s = (s', Return result)
    /\ (forall m, In m (ml_models (retired latest_model (session s))) ->
                  MLModel.id m = MLModel.id latest_model ->
                  MLModel.is_active m = false)
    /\ match result with
       | trained _ _ _ model_id =>
           exists row,
             MLModel.id row = model_id
             /\ MLModel.model_type row = "IsolationForest"
             /\ MLModel.is_active row = true
             /\ stored s' = with_model row (retired latest_model (session s))
             /\ journal s'
                = stored s' :: retired latest_model (session s) :: journal s
       | _ =>
           stored s' = retired latest_model (session s)
           /\ journal s' = retired latest_model (session s) :: journal s
       end.
Proof.
  intros Hlatest Hdue Hcommit.
  set (s1 := mkSys (retired latest_model (session s))
                   (retired latest_model (session s))
                   (retired latest_model (session s) :: journal s)
                   (ml s) (wire s)).
  destruct (train_isolation_forest_run w MLService.default_rate s1)
    as [s' [result [Htrain [_ Hout]]]].
  exists s', result. split; [|split].
  - unfold MLService.retrain_if_needed. apply try_except_Return.
    rewrite (bind_Return get _ s s s eq_refl).
    rewrite (bind_Return _ _ _ _ _ Hlatest).
    fold (due w latest_model). rewrite Hdue.
    unfold MLService.deactivate. fold (retired latest_model).
    rewrite (bind_Return _ _ s
               (db.with_session (retired latest_model) s) tt eq_refl).
    rewrite (bind_Return _ _ (db.with_session (retired latest_model) s) s1 tt).
    + exact Htrain.
    + unfold db.commit. now rewrite Hcommit.
  - intros m Hin Hid. unfold retired in Hin. cbn [ml_models] in Hin.
    apply in_map_iff in Hin. destruct Hin as [m0 [Hm0 _]].
    destruct (MLModel.id m0 =? MLModel.id latest_model)%nat eqn:Hsame.
    + now subst m.
    + subst m. apply Nat.eqb_neq in Hsame. contradiction.
  - destruct result as [text|text|kind samples anomalies model_id];
      cbn [training_outcome] in Hout.
    + destruct Hout as [Hstored [Hjournal _]]. now split.
    + contradiction.
    + destruct Hout as [row [Hid [Hkind [Hactive [_ [_ [_ [Hstored [_ Hjournal]]]]]]]]].
      exists row. repeat split; assumption.
Qed.

Lemma retrain_swaps_in_two_commits_witness :
  exists s',
    MLService.retrain_if_needed (Sample.calm Sample.noon)
      (Sample.quiet Scene.stale)
    = (s', Return (error_ "Insufficient training data"))
    /\ stored s' = retired Scene.old_snapshot Scene.stale
    /\ has_active "IsolationForest" (stored s') = false.
Proof.
  destruct (retrain_swaps_in_two_commits (Sample.calm Sample.noon)
              (Sample.quiet Scene.stale) Scene.old_snapshot
              eq_refl eq_refl eq_refl)
    as [s' [result [Hrun [_ Hout]]]].
  assert (Hresult : result = error_ "Insufficient training data").
  { vm_compute in Hrun. now injection Hrun as _ <-. }
  subst result. exists s'. split; [exact Hrun|].
  destruct Hout as [Hstored _]. split; [exact Hstored|].
  rewrite Hstored. reflexivity.
Defined.

(* ------------------------------------------------------------------ *)
(** ** The retraining path keeps the invariant *)

Lemma hd_order_by_desc_None {R} (key : R -> Z) (l : list R) :
  hd_error (db.order_by_desc key l) = None -> l = [].
Proof.
  intros Hhd. apply length_zero_iff_nil.
  rewrite <- (order_by_desc_length key l).
  now destruct (db.order_by_desc key l).
Qed.

Lemma hd_order_by_desc_Some {R} (key : R -> Z) (l : list R) (x : R) :
  hd_error (db.order_by_desc key l) = Some x -> In x l.
Proof.
  intros Hhd. apply (order_by_desc_In key).
  destruct (db.order_by_desc key l) as [|y r]; [discriminate Hhd|].
  injection Hhd as ->. now left.
Qed.

Lemma filter_map_length_le {A} (p : A -> bool) (g : A -> A) (l : list A) :
  (forall x, p (g x) = true -> p x = true) ->
  (List.length (filter p (map g l)) <= List.length (filter p l))%nat.
Proof.
  intros Hg. induction l as [|x l IH]; [reflexivity|].
  cbn [map filter]. destruct (p (g x)) eqn:Hpg.
  - rewrite (Hg x Hpg). cbn [List.length]. lia.
  - destruct (p x); cbn [List.length]; lia.
Qed.

Lemma filter_one_unique {A} (p : A -> bool) (l : list A) (x y : A) :
  (List.length (filter p l) <= 1)%nat ->
  In x (filter p l) -> In y (filter p l) -> x = y.
Proof.
  destruct (filter p l) as [|a [|b r]]; cbn [List.length In]; intros Hlen Hx Hy.
  - contradiction.
  - destruct Hx as [<-|[]], Hy as [<-|[]]. reflexivity.
  - lia.
Qed.

Lemma filter_none {A} (p : A -> bool) (l : list A) :
  (forall x, In x l -> p x = false) -> filter p l = [].
Proof.
  intros Hnone. induction l as [|x l IH]; [reflexivity|].
  cbn [filter]. rewrite (Hnone x (or_introl eq_refl)).
  apply IH. intros y Hy. apply Hnone. now right.
Qed.

Section Retire.

Variable latest_model : MLModel.t.
Variable t : Tables.

Lemma retire_active kind m :
  is_active_of kind (retire latest_model m) = true -> is_active_of kind m = true.
Proof.
  unfold retire, is_active_of.
  destruct (MLModel.id m =? MLModel.id latest_model)%nat; [|trivial].
  cbn. now rewrite andb_false_r.
Qed.

Lemma retired_le kind :
  (List.length (active_snapshots kind (retired latest_model t))
   <= List.length (active_snapshots kind t))%nat.
Proof.
  unfold active_snapshots, retired. cbn [ml_models].
  apply (filter_map_length_le (is_active_of kind) (retire latest_model)).
  apply retire_active.
Qed.

Lemma retired_single : single_active t -> single_active (retired latest_model t).
Proof.
  intros Hsingle kind.
  eapply Nat.le_trans; [apply retired_le|apply Hsingle].
Qed.

(** Deactivating the one active snapshot of a kind leaves none. *)
Lemma retired_none kind :
  single_active t ->
  In latest_model (active_snapshots kind t) ->
  active_snapshots kind (retired latest_model t) = [].
Proof.
  intros Hsingle Hlatest. unfold active_snapshots, retired. cbn [ml_models].
  apply filter_none. intros m' Hin.
  apply in_map_iff in Hin. destruct Hin as [m [<- Hm]].
  fold (retire latest_model m).
  destruct (is_active_of kind (retire latest_model m)) eqn:Hactive; [|reflexivity].
  pose proof (retire_active kind m Hactive) as Hwas.
  assert (Hsame : m = latest_model).
  { apply (filter_one_unique (is_active_of kind) (ml_models t));
      [apply Hsingle| |exact Hlatest].
    apply filter_In. now split. }
  subst m. unfold retire, is_active_of in Hactive.
  rewrite Nat.eqb_refl in Hactive. cbn in Hactive.
  now rewrite andb_false_r in Hactive.
Qed.

End Retire.

Lemma with_model_single row t :
  single_active t ->
  active_snapshots (MLModel.model_type row) t = [] ->
  single_active (with_model row t).
Proof.
  intros Hsingle Hnone kind.
  unfold active_snapshots, with_model. cbn [ml_models].
  rewrite filter_app, length_app. cbn [filter].
  destruct (is_active_of kind row) eqn:Hrow; cbn [List.length].
  - assert (Hkind : MLModel.model_type row = kind).
    { unfold is_active_of in Hrow. apply andb_prop in Hrow.
      now apply String.eqb_eq. }
    subst kind. unfold active_snapshots in Hnone. rewrite Hnone.
    cbn [List.length]. lia.
  - specialize (Hsingle kind). unfold active_snapshots in Hsingle. lia.
Qed.

(** The query of [latest_active] selects the active snapshots of the kind. *)
Lemma latest_active_run w kind s :
  MLService.latest_active w kind s
  = match store_fault w select_model with
    | Some e => (s, Raise e)
    | None =>
        (s, Return (hd_error (db.order_by_desc MLModel.created_at
                                (active_snapshots kind (session s)))))
    end.
Proof.
  unfold MLService.latest_active, active_snapshots. run.
  destruct (store_fault w select_model); [reflexivity|].
  do 4 f_equal. apply filter_ext. intros m. unfold is_active_of.
  now destruct (MLModel.is_active m).
Qed.

(** [retrain_if_needed] deactivates before it trains: from a state with
    at most one active snapshot of each kind it leads to such a state,
    whatever the collaborators answer. *)
Lemma retrain_if_needed_keeps_invariant w s :
  store_invariant s ->
  store_invariant (fst (MLService.retrain_if_needed w s)).
Proof.
  intros [Hkind [Hsess Hstore]].
  unfold MLService.retrain_if_needed, try_except.
  rewrite (bind_Return get _ s s s eq_refl).
  unfold bind at 1. rewrite latest_active_run, Hkind.
  destruct (store_fault w select_model) as [e|]; [now repeat split|].
  destruct (hd_error _) as [latest_model|] eqn:Hhd.
  - apply hd_order_by_desc_Some in Hhd.
    fold (due w latest_model). destruct (due w latest_model).
    2:{ now repeat split. }
    unfold MLService.deactivate. fold (retired latest_model).
    rewrite (bind_Return _ _ s
               (db.with_session (retired latest_model) s) tt eq_refl).
    unfold bind at 1, db.commit.
    destruct (store_fault w update_model) as [e|].
    { cbn. split; [exact Hkind|]. split; [|exact Hstore].
      now apply retired_single. }
    cbn [db.with_session session stored journal ml wire].
    match goal with |- context [MLService.train_isolation_forest w ?r ?s1] =>
      destruct (train_isolation_forest_run w r s1)
        as [s' [result [Hrun [Hsame Hout]]]]; rewrite Hrun end.
    cbn [fst]. unfold same_kind in Hsame. cbn [ml] in Hsame.
    split; [now rewrite Hsame|].
    destruct result as [text|text|kind samples anomalies model_id];
      cbn [training_outcome session stored] in Hout.
    + destruct Hout as [Hstored [_ Hsession]].
      assert (Hs' : single_active (stored s'))
        by (rewrite Hstored; now apply retired_single).
      split; [|exact Hs'].
      destruct Hsession as [-> | ->]; now apply retired_single.
    + contradiction.
    + destruct Hout as [row [_ [Hrow [_ [_ [_ [_ [Hstored [Hsession _]]]]]]]]].
      assert (Hs' : single_active (stored s')).
      { rewrite Hstored. apply with_model_single.
        - now apply retired_single.
        - rewrite Hrow. now apply retired_none. }
      split; [now rewrite Hsession|exact Hs'].
  - apply hd_order_by_desc_None in Hhd.
    destruct (train_isolation_forest_run w MLService.default_rate s)
      as [s' [result [Hrun [Hsame Hout]]]]. rewrite Hrun.
    cbn [fst]. unfold same_kind in Hsame.
    split; [now rewrite Hsame|].
    destruct result as [text|text|kind samples anomalies model_id];
      cbn [training_outcome] in Hout.
    + destruct Hout as [Hstored [_ Hsession]].
      assert (Hs' : single_active (stored s')) by now rewrite Hstored.
      split; [|exact Hs'].
      destruct Hsession as [-> | ->]; assumption.
    + contradiction.
    + destruct Hout as [row [_ [Hrow [_ [_ [_ [_ [Hstored [Hsession _]]]]]]]]].
      assert (Hs' : single_active (stored s')).
      { rewrite Hstored. apply with_model_single; [exact Hsess|].
        now rewrite Hrow. }
      split; [now rewrite Hsession|exact Hs'].
Qed.

(** Hence any number of [retrain_if_needed] calls keeps the invariant;
    it is the direct training calls that lose it. *)
Lemma retraining_alone_keeps_invariant (ops : list (World * Op)) : forall s,
  Forall (fun step => snd step = op_retrain_if_needed) ops ->
  store_invariant s ->
  store_invariant (run_ops ops s).
Proof.
  induction ops as [|[w op] rest IH]; intros s Hops Hinv; [exact Hinv|].
  cbn [run_ops]. apply IH; [now inversion Hops|].
  apply Forall_inv in Hops. cbn [snd] in Hops. subst op.
  now apply retrain_if_needed_keeps_invariant.
Qed.

(* ================================================================== *)
(** * Further properties of the code *)

(* ------------------------------------------------------------------ *)
(** ** The threshold evaluator, continued *)

Section Verdict.

Variable reading : SensorReading.t.

(** The level after a run of the loop, from the level before it and
    from what the rows gone through breach. *)
Lemma fold_level thresholds : forall alert_level messages,
  fst (fold_left (SensorService.check_one reading) thresholds
                 (alert_level, messages))
  = if existsb (critical_at reading) thresholds then "critical"
    else if (alert_level =? "critical")%string then "critical"
    else if existsb (fun item =>
                       PyFloat.ge (SensorService.getattr reading (fst item))
                                  (Config.warning (snd item))) thresholds
         then "warning"
    else alert_level.
Proof.
  induction thresholds as [|[sensor_type limits] rest IH];
    intros alert_level messages.
  - cbn [fold_left existsb fst].
    destruct (alert_level =? "critical")%string eqn:Hlevel; [|reflexivity].
    now apply String.eqb_eq in Hlevel.
  - cbn [fold_left existsb]. unfold critical_at at 1. cbn [fst snd].
    unfold SensorService.check_one at 2.
    destruct (PyFloat.ge (SensorService.getattr reading sensor_type)
                         (Config.critical limits)) eqn:Hcrit.
    + cbn [orb]. now apply fold_critical_stays.
    + cbn [orb].
      destruct (PyFloat.ge (SensorService.getattr reading sensor_type)
                           (Config.warning limits)) eqn:Hwarn;
        cbn [andb orb].
      * destruct (alert_level =? "critical")%string eqn:Hlevel; cbn [negb].
        -- rewrite IH, Hlevel.
           now destruct (existsb (critical_at reading) rest).
        -- rewrite IH. cbn [String.eqb Ascii.eqb Bool.eqb].
           repeat match goal with
                  | |- context [existsb ?p rest] => destruct (existsb p rest)
                  end; reflexivity.
      * now rewrite IH.
Qed.

(** The level is [normal] exactly when no message was collected. *)
Lemma fold_messages thresholds : forall acc,
  (fst acc = "normal" <-> snd acc = []) ->
  (fst (fold_left (SensorService.check_one reading) thresholds acc) = "normal"
   <-> snd (fold_left (SensorService.check_one reading) thresholds acc) = [])
  /\ (List.length (snd (fold_left (SensorService.check_one reading)
                                  thresholds acc))
      <= List.length (snd acc) + List.length thresholds)%nat.
Proof.
  induction thresholds as [|[sensor_type limits] rest IH]; intros acc Hacc.
  - cbn [fold_left List.length]. split; [exact Hacc|lia].
  - cbn [fold_left List.length].
    destruct acc as [alert_level messages]. cbn [fst snd] in Hacc.
    assert (Hstep :
      (fst (SensorService.check_one reading (alert_level, messages)
              (sensor_type, limits)) = "normal"
       <-> snd (SensorService.check_one reading (alert_level, messages)
                  (sensor_type, limits)) = [])
      /\ (List.length (snd (SensorService.check_one reading
                              (alert_level, messages) (sensor_type, limits)))
          <= S (List.length messages))%nat).
    { unfold SensorService.check_one.
      destruct (PyFloat.ge _ (Config.critical limits)).
      - cbn [fst snd]. rewrite length_app. cbn [List.length]. split; [|lia].
        split; [discriminate|].
        intros Hnil. now apply app_eq_nil in Hnil.
      - destruct (PyFloat.ge _ (Config.warning limits)
                  && negb (alert_level =? "critical")%string).
        + cbn [fst snd]. rewrite length_app. cbn [List.length]. split; [|lia].
          split; [discriminate|].
          intros Hnil. now apply app_eq_nil in Hnil.
        + cbn [fst snd]. split; [exact Hacc|lia]. }
    destruct Hstep as [Hinv Hlen].
    destruct (IH _ Hinv) as [Hiff Hbound]. split; [exact Hiff|].
    cbn [snd]. lia.
Qed.

(** Once the level is critical, the rest of the loop adds the messages
    of the critical breaches, and nothing for a warning. *)
Lemma fold_after_critical thresholds : forall messages,
  fold_left (SensorService.check_one reading) thresholds ("critical", messages)
  = ("critical",
     (messages ++ map (critical_message reading)
                      (filter (critical_at reading) thresholds))%list).
Proof.
  induction thresholds as [|[sensor_type limits] rest IH]; intros messages.
  - cbn. now rewrite app_nil_r.
  - cbn [fold_left filter]. unfold critical_at at 1. cbn [fst snd].
    unfold SensorService.check_one at 2.
    destruct (PyFloat.ge (SensorService.getattr reading sensor_type)
                         (Config.critical limits)).
    + rewrite IH. cbn [map]. now rewrite <- app_assoc.
    + rewrite andb_false_r. apply IH.
Qed.

Lemma first_critical item rest :
  critical_at reading item = true ->
  SensorService.check_thresholds_in (item :: rest) reading
  = ("critical",
     map (critical_message reading)
         (filter (critical_at reading) (item :: rest))).
Proof.
  intros Hcrit. unfold SensorService.check_thresholds_in.
  cbn [fold_left filter]. rewrite Hcrit.
  replace (SensorService.check_one reading ("normal", []) item)
    with ("critical", [critical_message reading item]).
  - now rewrite fold_after_critical.
  - unfold SensorService.check_one, critical_message.
    destruct item as [sensor_type limits].
    unfold critical_at in Hcrit. cbn [fst snd] in *. now rewrite Hcrit.
Qed.

End Verdict.

Lemma existsb_Permutation {A} (p : A -> bool) (l l' : list A) :
  Permutation l l' -> existsb p l = existsb p l'.
Proof.
  intros Hperm.
  destruct (existsb p l) eqn:Hl, (existsb p l') eqn:Hl'; try reflexivity.
  - apply existsb_exists in Hl. destruct Hl as [x [Hin Hx]].
    assert (Hex : existsb p l' = true).
    { apply existsb_exists. exists x. split; [|exact Hx].
      now apply (Permutation_in x Hperm). }
    congruence.
  - apply existsb_exists in Hl'. destruct Hl' as [x [Hin Hx]].
    assert (Hex : existsb p l = true).
    { apply existsb_exists. exists x. split; [|exact Hx].
      now apply (Permutation_in x (Permutation_sym Hperm)). }
    congruence.
Qed.

(** X1. The level [check_thresholds] returns is fixed by the floors
    alone: critical when some metric is at or above its critical floor,
    else warning when some metric is at or above its warning floor, else
    normal; and so in whatever order the table is gone through. *)
Theorem check_thresholds_level (reading : SensorReading.t) :
  fst (SensorService.check_thresholds reading) = verdict reading
  /\ forall thresholds,
       Permutation Config.ALERT_THRESHOLDS thresholds ->
       fst (SensorService.check_thresholds_in thresholds reading)
       = verdict reading.
Proof.
  assert (Hall : forall thresholds,
             Permutation Config.ALERT_THRESHOLDS thresholds ->
             fst (SensorService.check_thresholds_in thresholds reading)
             = verdict reading).
  { intros thresholds Hperm.
    unfold SensorService.check_thresholds_in. rewrite fold_level.
    unfold verdict, SensorService.breaches_critical, reaches_warning.
    rewrite (existsb_Permutation _ _ _ Hperm).
    rewrite (existsb_Permutation
               (fun item =>
                  PyFloat.ge (SensorService.getattr reading (fst item))
                             (Config.warning (snd item))) _ _ Hperm).
    reflexivity. }
  split; [|exact Hall].
  apply Hall, Permutation_refl.
Qed.

(** X2. [check_thresholds] returns no message exactly when the level is
    normal, and never more messages than there are metrics. *)
Theorem check_thresholds_messages (reading : SensorReading.t) :
  (fst (SensorService.check_thresholds reading) = "normal"
   <-> snd (SensorService.check_thresholds reading) = [])
  /\ (List.length (snd (SensorService.check_thresholds reading)) <= 3)%nat.
Proof.
  destruct (fold_messages reading Config.ALERT_THRESHOLDS ("normal", []))
    as [Hiff Hlen]; [now split|].
  split; [exact Hiff|exact Hlen].
Qed.

(** X3. When the vibration, the first metric examined, is at or above
    its critical floor, the messages are those of the critical breaches
    and no other: a strain or a temperature that is only at its warning
    floor is not reported. *)
Theorem check_thresholds_drops_warnings_after_critical
    (reading : SensorReading.t) :
  PyFloat.ge (SensorReading.vibration reading) (PyFloat.mk 25 (-1)) = true ->
  SensorService.check_thresholds reading
  = ("critical",
     map (critical_message reading)
         (filter (critical_at reading) Config.ALERT_THRESHOLDS)).
Proof.
  intros Hvib. apply first_critical. exact Hvib.
Qed.

Lemma check_thresholds_drops_warnings_after_critical_witness :
  SensorService.check_thresholds (measured 26 6 360)
  = ("critical", ["Vibration critical: 2.6 >= 2.5"]).
Proof.
  exact (check_thresholds_drops_warnings_after_critical
           (measured 26 6 360) eq_refl).
Defined.

(* ------------------------------------------------------------------ *)
(** ** The audit trail and the channels *)

(** X4. [_log_alert] never raises.  When the commit of the record
    fails, the session is rolled back: nothing is left pending and what
    is committed is what was; otherwise exactly the one record is added
    and committed. *)
Theorem log_alert_never_raises w reading alert_level alert_type recipient
    message success error_message s :
  exists s',
    AlertService._log_alert w (SensorReading.id reading) alert_type alert_level
      recipient message success error_message s = (s', Return tt)
    /\ wire s' = wire s
    /\ session s' = stored s'
    /\ (forall e, store_fault w (insert_alert alert_type recipient) = Some e ->
                  stored s' = stored s /\ journal s' = journal s)
    /\ (store_fault w (insert_alert alert_type recipient) = None ->
        alert_logs (stored s')
        = (alert_logs (session s)
             ++ [log_row w reading alert_level s alert_type recipient message
                         success error_message])%list
        /\ sensor_readings (stored s') = sensor_readings (session s)
        /\ ml_models (stored s') = ml_models (session s)).
Proof.
  rewrite log_alert_exact. eexists. split; [reflexivity|].
  destruct (store_fault w (insert_alert alert_type recipient)) as [e|];
    unfold committed, rolled_back, with_alert;
    cbn [session stored journal ml wire alert_logs sensor_readings ml_models];
    rewrite app_nil_r.
  - split; [reflexivity|]. split; [reflexivity|].
    split; [now intros|discriminate].
  - split; [reflexivity|]. split; [reflexivity|].
    split; [discriminate|]. now intros.
Qed.

(** X5. A delivered e-mail is reported as sent whether or not its
    record could be written: with the record committed the audit trail
    gains that one row, with [success = True] and the text that was
    sent; with the commit failing the trail is what was committed
    before, and the delivery leaves no trace for the fatigue gate. *)
Theorem delivered_email_and_its_record w reading alert_level messages
    recipient s :
  AlertService.falsy (MAIL_USERNAME w) = false ->
  mail_fault w (email_message w reading alert_level messages recipient) = None ->
  exists s',
    AlertService.send_email_alert w reading alert_level messages recipient s
    = (s', Return (sent "Email sent successfully" None))
    /\ wire s'
       = (wire s ++ [email_message w reading alert_level messages recipient])%list
    /\ (store_fault w (insert_alert "email" recipient) = None ->
        exists row,
          alert_logs (stored s') = (alert_logs (session s) ++ [row])%list
          /\ AlertLog.success row = true
          /\ AlertLog.alert_level row = alert_level
          /\ AlertLog.sent_at row = utcnow w
          /\ AlertLog.message row = email_body w reading alert_level messages)
    /\ (forall e, store_fault w (insert_alert "email" recipient) = Some e ->
                  stored s' = stored s /\ session s' = stored s).
Proof.
  intros Hconf Hmail.
  rewrite (send_email_alert_delivered w reading alert_level messages
             recipient s Hconf Hmail).
  eexists. split; [reflexivity|].
  destruct (store_fault w (insert_alert "email" recipient)) as [e|];
    unfold committed, rolled_back, with_alert;
    cbn [session stored journal ml wire alert_logs].
  - split; [reflexivity|]. split; [discriminate|]. now intros.
  - split; [reflexivity|]. split; [|discriminate].
    intros _. eexists. split; [reflexivity|]. now cbn.
Qed.

Lemma delivered_email_and_its_record_witness :
  exists s',
    AlertService.send_email_alert (Sample.calm Sample.noon)
      (Sample.reading_at 1 Sample.noon) "warning" [] "admin@example.com"
      (Sample.quiet Sample.five_warnings)
    = (s', Return (sent "Email sent successfully" None))
    /\ List.length (alert_logs (stored s')) = 6%nat.
Proof.
  destruct (delivered_email_and_its_record (Sample.calm Sample.noon)
              (Sample.reading_at 1 Sample.noon) "warning" []
              "admin@example.com" (Sample.quiet Sample.five_warnings)
              eq_refl eq_refl)
    as [s' [Hrun [_ [Hrow _]]]].
  exists s'. split; [exact Hrun|].
  destruct (Hrow eq_refl) as [row [Hlogs _]].
  rewrite Hlogs, length_app. reflexivity.
Defined.

(* ------------------------------------------------------------------ *)
(** ** The dispatcher, continued *)

(** X6. With neither channel configured a dispatch that passes the gate
    delivers nothing and records nothing, and still marks the reading
    sent: no gateway is called, the audit trail is unchanged, and both
    attempts come back as configuration errors. *)
Theorem unconfigured_dispatch_marks_sent w self reading alert_level messages s :
  SensorReading.alert_sent reading = false ->
  alert_level <> "normal" ->
  AlertService._check_alert_fatigue w alert_level s = (s, Return false) ->
  AlertService.falsy (MAIL_USERNAME w) = true ->
  twilio_client self = false ->
  store_fault w update_reading = None ->
  exists s',
    AlertService.check_and_send_alerts w self reading alert_level messages s
    = (s', Return
             (SensorReading.set_alert_sent true reading,
              alerts_sent
                (attempt "email" "admin@example.com"
                         (send_error "Email not configured")
                 :: if (alert_level =? "critical")%string
                    then [attempt "sms" "+1234567890"
                                  (send_error "Twilio not configured")]
                    else [])))
    /\ wire s' = wire s
    /\ alert_logs (stored s') = alert_logs (session s).
Proof.
  intros Hsent Hlevel Hgate Hmail Hclient Hcommit.
  rewrite (dispatch_steps w self reading alert_level messages s
             Hlevel Hsent Hgate).
  rewrite send_email_alert_unconfigured by exact Hmail.
  destruct (alert_level =? "critical")%string.
  - rewrite send_sms_alert_unconfigured by exact Hclient.
    unfold finish. rewrite Hcommit. eexists. now split.
  - unfold finish. rewrite Hcommit. eexists. now split.
Qed.

Lemma unconfigured_dispatch_marks_sent_witness :
  exists s' results,
    AlertService.check_and_send_alerts
      (mkWorld Sample.noon (fun _ => None) None None (fun _ => None)
               (fun _ => Return "SM01") (fun _ _ _ => "report")
               (fun x => Return x) (fun _ _ => None) (fun _ x => Return x)
               (fun _ x => Return (map (fun _ => 1) x))
               (fun _ x => Return (map (fun _ => PyFloat.zero) x)))
      (mkAlertService false) (Sample.reading_at 1 Sample.noon) "critical"
      ["Vibration critical: 2.6 >= 2.5"]
      (Sample.quiet (mkTables [Sample.reading_at 1 Sample.noon] [] []))
    = (s', Return (SensorReading.set_alert_sent true
                     (Sample.reading_at 1 Sample.noon),
                   alerts_sent results))
    /\ wire s' = [] /\ alert_logs (stored s') = [].
Proof.
  assert (Hlevel : "critical" <> "normal") by discriminate.
  destruct (unconfigured_dispatch_marks_sent
              (mkWorld Sample.noon (fun _ => None) None None (fun _ => None)
                       (fun _ => Return "SM01") (fun _ _ _ => "report")
                       (fun x => Return x) (fun _ _ => None)
                       (fun _ x => Return x)
                       (fun _ x => Return (map (fun _ => 1) x))
                       (fun _ x => Return (map (fun _ => PyFloat.zero) x)))
              (mkAlertService false) (Sample.reading_at 1 Sample.noon)
              "critical" ["Vibration critical: 2.6 >= 2.5"]
              (Sample.quiet (mkTables [Sample.reading_at 1 Sample.noon] [] []))
              eq_refl Hlevel eq_refl eq_refl eq_refl eq_refl)
    as [s' [Hrun [Hwire Hlogs]]].
  eexists s', _. split; [exact Hrun|]. split; assumption.
Defined.

(** X7. Twilio is called for the level critical only: at any other
    level, whatever the dispatch does, the one call it may add to the
    gateway calls is the e-mail to the administrator. *)
Theorem sms_only_when_critical w self reading alert_level messages s :
  alert_level <> "critical" ->
  exists calls,
    wire (fst (AlertService.check_and_send_alerts w self reading alert_level
                                                  messages s))
    = (wire s ++ calls)%list
    /\ (calls = []
        \/ calls = [email_message w reading alert_level messages
                                  "admin@example.com"]).
Proof.
  intros Hcrit.
  destruct (String.eqb_spec alert_level "normal") as [Hnormal|Hlevel].
  { exists []. split; [|now left].
    unfold AlertService.check_and_send_alerts. subst alert_level.
    cbn. now rewrite app_nil_r. }
  destruct (SensorReading.alert_sent reading) eqn:Hsent.
  { exists []. split; [|now left].
    rewrite dispatch_already_sent by exact Hsent.
    cbn [fst]. now rewrite app_nil_r. }
  destruct (fatigue_total w alert_level s) as [[|] Hgate].
  { exists []. split; [|now left].
    rewrite dispatch_suppressed by assumption.
    cbn [fst]. now rewrite app_nil_r. }
  rewrite (dispatch_steps w self reading alert_level messages s
             Hlevel Hsent Hgate).
  apply String.eqb_neq in Hcrit. rewrite Hcrit.
  pose proof (send_email_alert_wire w reading alert_level messages
                "admin@example.com" s) as Hwire.
  destruct (AlertService.send_email_alert w reading alert_level messages
              "admin@example.com" s) as [s1 [r1|e]]; cbn [fst] in Hwire.
  - rewrite finish_wire, Hwire. eexists. split; [reflexivity|].
    destruct (AlertService.falsy (MAIL_USERNAME w)); [now left|now right].
  - cbn [fst]. rewrite Hwire. eexists. split; [reflexivity|].
    destruct (AlertService.falsy (MAIL_USERNAME w)); [now left|now right].
Qed.

Lemma sms_only_when_critical_witness :
  exists calls,
    wire (fst (AlertService.check_and_send_alerts (Sample.calm Sample.noon)
                 Sample.on_duty (Sample.reading_at 1 Sample.noon) "warning"
                 ["Vibration warning: 2.1 >= 2.0"]
                 (Sample.quiet
                    (mkTables [Sample.reading_at 1 Sample.noon] [] []))))
    = calls
    /\ (calls = []
        \/ calls = [email_message (Sample.calm Sample.noon)
                                  (Sample.reading_at 1 Sample.noon) "warning"
                                  ["Vibration warning: 2.1 >= 2.0"]
                                  "admin@example.com"]).
Proof.
  assert (Hlevel : "warning" <> "critical") by discriminate.
  exact (sms_only_when_critical (Sample.calm Sample.noon) Sample.on_duty
           (Sample.reading_at 1 Sample.noon) "warning"
           ["Vibration warning: 2.1 >= 2.0"]
           (Sample.quiet (mkTables [Sample.reading_at 1 Sample.noon] [] []))
           Hlevel).
Defined.

Lemma recent_new_row w reading alert_level s alert_type recipient message :
  AlertService.recent w alert_level
    (log_row w reading alert_level s alert_type recipient message true None)
  = true.
Proof.
  unfold AlertService.recent, log_row. cbn [AlertLog.alert_level
    AlertLog.sent_at AlertLog.success Bool.eqb].
  rewrite String.eqb_refl, andb_true_r. cbn [andb].
  apply Z.leb_le. unfold datetime.hours, datetime.second_. lia.
Qed.

Lemma finish_alert_logs w reading results s :
  session s = stored s ->
  alert_logs (stored (fst (finish w reading results s)))
  = alert_logs (stored s).
Proof.
  intros Hsync. unfold finish, mark_row.
  destruct (store_fault w update_reading); cbn; [reflexivity|].
  now rewrite Hsync.
Qed.

(** X8. What a dispatch adds to the count of the fatigue gate.  With
    the gate passed, the channels configured and every delivery and
    record going through, a dispatch at the level critical commits two
    records that the gate of that level counts (the e-mail and the SMS),
    a dispatch at another level one: critical dispatches reach the cap
    of five records with the third. *)
Theorem dispatch_feeds_the_gate w self reading alert_level messages s sid :
  SensorReading.alert_sent reading = false ->
  alert_level <> "normal" ->
  AlertService._check_alert_fatigue w alert_level s = (s, Return false) ->
  AlertService.falsy (MAIL_USERNAME w) = false ->
  mail_fault w (email_message w reading alert_level messages
                              "admin@example.com") = None ->
  store_fault w (insert_alert "email" "admin@example.com") = None ->
  (alert_level = "critical" ->
   twilio_client self = true
   /\ twilio_answer w (sms_message w reading alert_level messages
                                   "+1234567890") = Return sid
   /\ store_fault w (insert_alert "sms" "+1234567890") = None) ->
  counted w alert_level
    (stored (fst (AlertService.check_and_send_alerts w self reading alert_level
                                                     messages s)))
  = (counted w alert_level (session s)
     + if (alert_level =? "critical")%string then 2 else 1)%nat.
Proof.
  intros Hsent Hlevel Hgate Hconf Hmail Hlog Hsms.
  rewrite (dispatch_steps w self reading alert_level messages s
             Hlevel Hsent Hgate).
  rewrite (send_email_alert_delivered w reading alert_level messages
             "admin@example.com" s Hconf Hmail), Hlog.
  destruct (alert_level =? "critical")%string eqn:Hcrit.
  - apply String.eqb_eq in Hcrit.
    destruct (Hsms Hcrit) as [Hclient [Hanswer Hlog2]].
    rewrite (send_sms_alert_delivered w reading alert_level messages self
               "+1234567890" sid _ Hclient Hanswer), Hlog2.
    unfold counted. rewrite finish_alert_logs by reflexivity.
    unfold committed, with_alert.
    cbn [session stored alert_logs].
    rewrite !filter_app, !length_app. cbn [filter].
    rewrite !recent_new_row. cbn [List.length]. lia.
  - unfold counted. rewrite finish_alert_logs by reflexivity.
    unfold committed, with_alert.
    cbn [session stored alert_logs].
    rewrite !filter_app, !length_app. cbn [filter].
    rewrite !recent_new_row. cbn [List.length]. lia.
Qed.

Lemma dispatch_feeds_the_gate_witness :
  counted (Sample.calm Sample.noon) "critical"
    (stored (fst (AlertService.check_and_send_alerts (Sample.calm Sample.noon)
                    Sample.on_duty (Sample.reading_at 1 Sample.noon) "critical"
                    ["Vibration critical: 2.6 >= 2.5"]
                    (Sample.quiet
                       (mkTables [Sample.reading_at 1 Sample.noon] [] [])))))
  = 2%nat.
Proof.
  assert (Hlevel : "critical" <> "normal") by discriminate.
  exact (dispatch_feeds_the_gate (Sample.calm Sample.noon) Sample.on_duty
           (Sample.reading_at 1 Sample.noon) "critical"
           ["Vibration critical: 2.6 >= 2.5"]
           (Sample.quiet (mkTables [Sample.reading_at 1 Sample.noon] [] []))
           "SM01" eq_refl Hlevel eq_refl eq_refl eq_refl eq_refl
           (fun _ => conj eq_refl (conj eq_refl eq_refl))).
Defined.

(* ------------------------------------------------------------------ *)
(** ** Ordered queries *)

Section OrderBy.

Context {R : Type}.
Variable key : R -> Z.

(** The first row of [order_by(key.desc())] has the greatest key. *)
Lemma order_by_desc_head (l : list R) : forall x,
  hd_error (db.order_by_desc key l) = Some x ->
  Forall (fun y => key y <= key x) l.
Proof.
  induction l as [|a l IH]; intros x Hhd; [constructor|].
  cbn [db.order_by_desc fold_right] in Hhd.
  fold (db.order_by_desc key l) in Hhd.
  destruct (db.order_by_desc key l) as [|h t] eqn:Hsorted.
  - apply (f_equal (@List.length R)) in Hsorted.
    rewrite order_by_desc_length in Hsorted.
    apply length_zero_iff_nil in Hsorted. subst l.
    cbn in Hhd. injection Hhd as <-. constructor; [lia|constructor].
  - specialize (IH h eq_refl). cbn [db.insert_desc] in Hhd.
    destruct (key h <=? key a) eqn:Hle; cbn [hd_error] in Hhd;
      injection Hhd as <-.
    + apply Z.leb_le in Hle. constructor; [lia|].
      eapply Forall_impl; [|exact IH]. cbn. intros y Hy. lia.
    + apply Z.leb_gt in Hle. constructor; [lia|exact IH].
Qed.

Lemma insert_desc_sorted (x : R) (l : list R) :
  StronglySorted (fun a b => key b <= key a) l ->
  StronglySorted (fun a b => key b <= key a) (db.insert_desc key x l).
Proof.
  induction l as [|y r IH]; intros Hsorted; cbn [db.insert_desc].
  - constructor; constructor.
  - inversion Hsorted as [|? ? Hr Hy]; subst.
    destruct (key y <=? key x) eqn:Hle.
    + apply Z.leb_le in Hle. constructor; [exact Hsorted|].
      constructor; [exact Hle|].
      eapply Forall_impl; [|exact Hy]. cbn. intros z Hz. lia.
    + apply Z.leb_gt in Hle. constructor; [now apply IH|].
      apply Forall_forall. intros z Hz.
      apply insert_desc_In in Hz. destruct Hz as [-> | Hz]; [lia|].
      rewrite Forall_forall in Hy. now apply Hy.
Qed.

Lemma order_by_desc_sorted (l : list R) :
  StronglySorted (fun a b => key b <= key a) (db.order_by_desc key l).
Proof.
  induction l as [|x l IH]; [constructor|].
  cbn [db.order_by_desc fold_right]. fold (db.order_by_desc key l).
  now apply insert_desc_sorted.
Qed.

Lemma insert_desc_Permutation (x : R) (l : list R) :
  Permutation (x :: l) (db.insert_desc key x l).
Proof.
  induction l as [|y r IH]; cbn [db.insert_desc]; [reflexivity|].
  destruct (key y <=? key x); [reflexivity|].
  rewrite perm_swap. now constructor.
Qed.

Lemma order_by_desc_Permutation (l : list R) :
  Permutation l (db.order_by_desc key l).
Proof.
  induction l as [|x l IH]; [reflexivity|].
  cbn [db.order_by_desc fold_right]. fold (db.order_by_desc key l).
  rewrite <- insert_desc_Permutation. now constructor.
Qed.

(** Of a list in descending order, what [limit(n)] keeps is at least as
    great as what it leaves. *)
Lemma firstn_sorted_desc (n : nat) (l : list R) :
  StronglySorted (fun a b => key b <= key a) l ->
  forall x y, In x (firstn n l) -> In y (skipn n l) -> key y <= key x.
Proof.
  revert l. induction n as [|n IH]; intros l Hsorted x y Hx Hy.
  - destruct Hx.
  - destruct l as [|a l]; [destruct Hx|].
    inversion Hsorted as [|? ? Hl Ha]; subst.
    cbn [firstn skipn] in Hx, Hy. destruct Hx as [<- | Hx].
    + rewrite Forall_forall in Ha. apply Ha.
      rewrite <- (firstn_skipn n l). apply in_or_app. now right.
    + now apply (IH l Hl).
Qed.

End OrderBy.

(* ------------------------------------------------------------------ *)
(** ** Feature rows *)

(** X9. [prepare_training_data] returns one row for each reading and the
    ids, both in the order of the readings; no reading gives no row.
    The row at the place of a reading is its three measurements followed
    by its hour of the day and its day of the week as floats: with the
    timestamp of the reading [day] whole days, [hour] whole hours and
    less than an hour after the start of 1970-01-01, a Thursday, the
    hour is [hour], from 0 to 23, and the weekday, from 0 for Monday to
    6, is the remainder of [day + 3] by 7. *)
Theorem prepare_training_data_rows (readings : list SensorReading.t) :
  List.length (fst (MLService.prepare_training_data readings))
  = List.length readings
  /\ snd (MLService.prepare_training_data readings)
     = map SensorReading.id readings
  /\ (readings = [] -> MLService.prepare_training_data readings = ([], []))
  /\ forall place reading,
       nth_error readings place = Some reading ->
       exists day hour weekday week past_the_hour,
         nth_error (fst (MLService.prepare_training_data readings)) place
         = Some [ SensorReading.vibration reading;
                  SensorReading.strain reading;
                  SensorReading.temperature reading;
                  PyFloat.of_int hour; PyFloat.of_int weekday ]
         /\ SensorReading.timestamp reading
            = (day * 24 + hour) * 3600 * 1000000 + past_the_hour
         /\ 0 <= past_the_hour < 3600 * 1000000
         /\ 0 <= hour <= 23
         /\ day + 3 = 7 * week + weekday
         /\ 0 <= weekday <= 6.
Proof.
  unfold MLService.prepare_training_data. cbn [fst snd].
  split; [apply length_map|]. split; [reflexivity|].
  split; [now intros ->|].
  intros place reading Hplace.
  set (t := SensorReading.timestamp reading).
  exists (datetime.epoch_days t), (datetime.hour t), (datetime.weekday t),
    ((datetime.epoch_days t + 3) / 7),
    (t - (datetime.epoch_days t * 24 + datetime.hour t) * 3600 * 1000000).
  split.
  { rewrite nth_error_map, Hplace. reflexivity. }
  unfold datetime.hour, datetime.weekday, datetime.epoch_days,
    datetime.epoch_seconds, datetime.second_.
  pose proof (Z.div_mod t 1000000 ltac:(lia)) as Hseconds.
  pose proof (Z.mod_pos_bound t 1000000 ltac:(lia)) as Hmicro.
  pose proof (Z.div_mod (t / 1000000) 86400 ltac:(lia)) as Hdays.
  pose proof (Z.mod_pos_bound (t / 1000000) 86400 ltac:(lia)) as Hday.
  pose proof (Z.div_mod ((t / 1000000) mod 86400) 3600 ltac:(lia)) as Hhours.
  pose proof (Z.mod_pos_bound ((t / 1000000) mod 86400) 3600 ltac:(lia))
    as Hhour.
  pose proof (Z.div_mod (t / 1000000 / 86400 + 3) 7 ltac:(lia)) as Hweeks.
  pose proof (Z.mod_pos_bound (t / 1000000 / 86400 + 3) 7 ltac:(lia)) as Hweek.
  repeat split; lia.
Qed.

(* ------------------------------------------------------------------ *)
(** ** Training, continued *)

Section TrainingSteps.

Variable w : World.

Lemma fit_and_record_samples readings est name kind params s s' result :
  MLService.fit_and_record w readings est name kind params s
  = (s', Return result) ->
  exists anomalies model_id,
    result = trained kind (List.length readings) anomalies model_id.
Proof.
  unfold MLService.fit_and_record, MLService.prepare_training_data,
    MLService.set_scaler, MLService.set_model, MLService.add_model.
  run.
  destruct (sk_fit_transform w (map MLService.features_of readings))
    as [features_scaled|e]; [|discriminate].
  destruct (sk_fit w est features_scaled) as [e|]; [discriminate|].
  destruct (sk_predict w _ features_scaled) as [predictions|e];
    [|discriminate].
  destruct (sk_decision_function w _ features_scaled) as [scores|e];
    [|discriminate].
  cbn [session stored journal ml wire].
  destruct (store_fault w insert_model) as [e|]; [discriminate|].
  intros Hrun. injection Hrun as _ <-. now eexists _, _.
Qed.

Lemma training_samples est name kind params s s' model_type samples
    anomalies model_id :
  training w est name kind params s
  = (s', Return (trained model_type samples anomalies model_id)) ->
  (50 <= samples <= Config.ML_TRAINING_DATA_SIZE)%nat
  /\ (samples
      <= List.length (filter (qualifies w) (sensor_readings (session s))))%nat.
Proof.
  unfold training, MLService.training_readings. run.
  destruct (store_fault w select_readings) as [e|]; [discriminate|].
  match goal with |- context [(List.length ?rows <? 50)%nat] =>
    set (readings := rows) end.
  destruct (List.length readings <? 50)%nat eqn:Hshort; [discriminate|].
  destruct (MLService.fit_and_record w readings est name kind params s)
    as [s1 [result|e]] eqn:Hfit; [|discriminate].
  intros Hrun. injection Hrun as _ ->.
  destruct (fit_and_record_samples _ _ _ _ _ _ _ _ Hfit)
    as [anomalies' [model_id' Hresult]].
  injection Hresult as _ -> _ _.
  apply Nat.ltb_ge in Hshort. split; [split; [exact Hshort|]|].
  - unfold readings. rewrite length_firstn. apply Nat.le_min_l.
  - unfold readings. rewrite length_firstn, order_by_desc_length.
    apply Nat.le_min_r.
Qed.

End TrainingSteps.

(** X10. A training that reports a model used between 50 and 1000
    readings, and no more than the readings of the last seven days;
    this holds for both kinds of detector. *)
Theorem training_samples_bounds w rate s s' model_type samples anomalies
    model_id :
  MLService.train_isolation_forest w rate s
  = (s', Return (trained model_type samples anomalies model_id))
  \/ MLService.train_one_class_svm w rate s
     = (s', Return (trained model_type samples anomalies model_id)) ->
  (50 <= samples <= 1000)%nat
  /\ (samples
      <= List.length (filter (qualifies w) (sensor_readings (session s))))%nat.
Proof.
  intros [Hrun | Hrun]; exact (training_samples w _ _ _ _ _ _ _ _ _ _ Hrun).
Qed.

Lemma training_samples_bounds_witness :
  exists s' model_type samples anomalies model_id,
    MLService.train_isolation_forest (Sample.calm Sample.noon)
      MLService.default_rate (Sample.quiet Scene.fifty_readings)
    = (s', Return (trained model_type samples anomalies model_id))
    /\ (50 <= samples <= 1000)%nat.
Proof.
  eexists _, _, _, _, _. split; [vm_compute; reflexivity|].
  match goal with
  | |- (50 <= ?n <= 1000)%nat =>
      refine (proj1 (training_samples_bounds (Sample.calm Sample.noon)
                       MLService.default_rate
                       (Sample.quiet Scene.fifty_readings)
                       _ _ n _ _ (or_introl _)))
  end.
  vm_compute. reflexivity.
Defined.

(** X11. Neither training function ever raises, and a training that
    reports an error has committed nothing: the stored tables and the
    sequence of commits are what they were. *)
Theorem training_error_commits_nothing w rate s :
  (exists s' result,
     MLService.train_isolation_forest w rate s = (s', Return result)
     /\ (has_error result = true ->
         stored s' = stored s /\ journal s' = journal s))
  /\ (exists s' result,
        MLService.train_one_class_svm w rate s = (s', Return result)
        /\ (has_error result = true ->
            stored s' = stored s /\ journal s' = journal s)).
Proof.
  split.
  - destruct (train_isolation_forest_run w rate s)
      as [s' [result [Hrun [_ Hout]]]].
    exists s', result. split; [exact Hrun|].
    destruct result; cbn [has_error training_outcome] in *;
      [|discriminate|discriminate].
    intros _. destruct Hout as [Hstored [Hjournal _]]. now split.
  - destruct (train_one_class_svm_run w rate s)
      as [s' [result [Hrun [_ Hout]]]].
    exists s', result. split; [exact Hrun|].
    destruct result; cbn [has_error training_outcome] in *;
      [|discriminate|discriminate].
    intros _. destruct Hout as [Hstored [Hjournal _]]. now split.
Qed.

(** X12. A training whose [fit] raises has already replaced the scaler
    and the model the service holds: it returns the error and commits
    nothing, and the service is left with the scaler fitted on the new
    readings and an estimator that was never fitted. *)
Theorem failed_fit_replaces_model w contamination s readings features_scaled e :
  MLService.training_readings w s = (s, Return readings) ->
  (50 <= List.length readings)%nat ->
  sk_fit_transform w (map MLService.features_of readings)
  = Return features_scaled ->
  sk_fit w (IsolationForest contamination 42 100) features_scaled = Some e ->
  exists s',
    MLService.train_isolation_forest w contamination s
    = (s', Return (error_ e))
    /\ model (ml s') = Some (mkModel (IsolationForest contamination 42 100) None)
    /\ scaler (ml s')
       = Some (StandardScaler (Some (map MLService.features_of readings)))
    /\ stored s' = stored s
    /\ session s' = stored s
    /\ journal s' = journal s.
Proof.
  intros Hreadings Hlen Hscale Hfit.
  unfold MLService.train_isolation_forest, try_except.
  rewrite (bind_Return _ _ _ _ _ Hreadings).
  apply Nat.ltb_ge in Hlen. rewrite Hlen.
  unfold MLService.fit_and_record, MLService.prepare_training_data,
    MLService.set_scaler, MLService.set_model.
  run. rewrite Hscale. cbn [session stored journal ml wire]. rewrite Hfit.
  eexists. split; [reflexivity|]. cbn. repeat split; reflexivity.
Qed.

Lemma failed_fit_replaces_model_witness :
  exists s',
    MLService.train_isolation_forest
      (mkWorld Sample.noon (fun _ => None) None None (fun _ => None)
               (fun _ => Return "SM01") (fun _ _ _ => "report")
               (fun x => Return x) (fun _ _ => Some "Input contains NaN")
               (fun _ x => Return x)
               (fun _ x => Return (map (fun _ => 1) x))
               (fun _ x => Return (map (fun _ => PyFloat.zero) x)))
      MLService.default_rate (Sample.quiet Scene.fifty_readings)
    = (s', Return (error_ "Input contains NaN"))
    /\ model (ml s')
       = Some (mkModel (IsolationForest MLService.default_rate 42 100) None)
    /\ stored s' = Scene.fifty_readings.
Proof.
  destruct (failed_fit_replaces_model
              (mkWorld Sample.noon (fun _ => None) None None (fun _ => None)
                       (fun _ => Return "SM01") (fun _ _ _ => "report")
                       (fun x => Return x) (fun _ _ => Some "Input contains NaN")
                       (fun _ x => Return x)
                       (fun _ x => Return (map (fun _ => 1) x))
                       (fun _ x => Return (map (fun _ => PyFloat.zero) x)))
              MLService.default_rate (Sample.quiet Scene.fifty_readings)
              _ _ "Input contains NaN" eq_refl
              ltac:(vm_compute; lia) eq_refl eq_refl)
    as [s' [Hrun [Hmodel [_ [Hstored _]]]]].
  exists s'. split; [exact Hrun|]. split; [exact Hmodel|exact Hstored].
Defined.

(* ------------------------------------------------------------------ *)
(** ** Scoring and retraining, continued *)

(** X13. With a model in memory whose truth test passes (a fitted
    [IsolationForest], which has trees, or a [OneClassSVM]) and a scaler
    in memory, [predict_anomaly] only reads: it does not train, the
    state after it is the state before, and it returns the scored pair
    or [(False, 0.0)]. *)
Theorem predict_anomaly_with_model_reads_only w reading s the_scaler :
  MLService.truth_of_model (model (ml s)) = Return true ->
  scaler (ml s) = Some the_scaler ->
  exists is_anomaly score,
    MLService.predict_anomaly w reading s = (s, Return (is_anomaly, score))
    /\ ((is_anomaly, score) = (false, PyFloat.zero)
        \/ scored w reading s is_anomaly score).
Proof.
  intros Htruth Hscaler. rewrite predict_anomaly_unfold.
  rewrite Htruth, Hscaler. cbn [MLService.truth_of_scaler negb orb].
  apply scoring_run.
Qed.

Lemma predict_anomaly_with_model_reads_only_witness :
  exists is_anomaly score,
    MLService.predict_anomaly (Sample.calm Sample.noon)
      (Sample.reading_at 1 Sample.noon)
      (mkSys Scene.fifty_readings Scene.fifty_readings []
             (mkMLService
                (Some (mkModel (IsolationForest MLService.default_rate 42 100)
                               (Some [])))
                (Some (StandardScaler (Some []))) "IsolationForest") [])
    = (mkSys Scene.fifty_readings Scene.fifty_readings []
             (mkMLService
                (Some (mkModel (IsolationForest MLService.default_rate 42 100)
                               (Some [])))
                (Some (StandardScaler (Some []))) "IsolationForest") [],
       Return (is_anomaly, score)).
Proof.
  destruct (predict_anomaly_with_model_reads_only (Sample.calm Sample.noon)
              (Sample.reading_at 1 Sample.noon)
              (mkSys Scene.fifty_readings Scene.fifty_readings []
                     (mkMLService
                        (Some (mkModel
                                 (IsolationForest MLService.default_rate 42 100)
                                 (Some [])))
                        (Some (StandardScaler (Some []))) "IsolationForest") [])
              _ eq_refl eq_refl) as [is_anomaly [score [Hrun _]]].
  now exists is_anomaly, score.
Defined.

(** X14. As long as some active snapshot of the kind is at most 24
    hours old, 24 hours exactly included, [retrain_if_needed] changes
    nothing and answers that the model is up to date. *)
Theorem retrain_leaves_fresh_snapshot w s snapshot :
  store_fault w select_model = None ->
  In snapshot (active_snapshots (model_type (ml s)) (session s)) ->
  utcnow w - MLModel.created_at snapshot <= 24 * 3600 * 1000000 ->
  MLService.retrain_if_needed w s = (s, Return (info_ "Model is up to date")).
Proof.
  intros Hstore Hin Hfresh.
  unfold MLService.retrain_if_needed. apply try_except_Return.
  rewrite (bind_Return get _ s s s eq_refl).
  unfold bind at 1. rewrite latest_active_run, Hstore.
  destruct (hd_error _) as [latest_model|] eqn:Hhd.
  - pose proof (order_by_desc_head MLModel.created_at _ _ Hhd) as Hmax.
    rewrite Forall_forall in Hmax. specialize (Hmax snapshot Hin).
    assert (Hdue : (Config.ML_MODEL_RETRAIN_INTERVAL
                    <? utcnow w - MLModel.created_at latest_model) = false).
    { apply Z.ltb_ge. unfold Config.ML_MODEL_RETRAIN_INTERVAL. lia. }
    now rewrite Hdue.
  - apply hd_order_by_desc_None in Hhd. rewrite Hhd in Hin. destruct Hin.
Qed.

Lemma retrain_leaves_fresh_snapshot_witness :
  MLService.retrain_if_needed
    (Sample.calm (Sample.noon - datetime.days 1)) (Sample.quiet Scene.stale)
  = (Sample.quiet Scene.stale, Return (info_ "Model is up to date")).
Proof.
  apply (retrain_leaves_fresh_snapshot
           (Sample.calm (Sample.noon - datetime.days 1))
           (Sample.quiet Scene.stale) Scene.old_snapshot).
  - reflexivity.
  - now left.
  - vm_compute. discriminate.
Defined.

(** X15. [retrain_if_needed] never raises.  When the query for the
    active snapshot fails it returns that error and changes nothing;
    when there is no active snapshot of the kind it does what
    [train_isolation_forest] does with its default contamination. *)
Theorem retrain_if_needed_never_raises w s :
  exists s' result,
    MLService.retrain_if_needed w s = (s', Return result)
    /\ (forall e, store_fault w select_model = Some e ->
                  s' = s /\ result = error_ e)
    /\ (store_fault w select_model = None ->
        active_snapshots (model_type (ml s)) (session s) = [] ->
        MLService.train_isolation_forest w MLService.default_rate s
        = (s', Return result)).
Proof.
  unfold MLService.retrain_if_needed, try_except.
  rewrite (bind_Return get _ s s s eq_refl).
  unfold bind at 1. rewrite latest_active_run.
  destruct (store_fault w select_model) as [e|] eqn:Hstore.
  { exists s, (error_ e). split; [reflexivity|].
    split; [|discriminate]. intros e' He'. injection He' as <-. now split. }
  destruct (hd_error _) as [latest_model|] eqn:Hhd.
  - assert (Hsome : active_snapshots (model_type (ml s)) (session s) <> []).
    { intros Hnil. rewrite Hnil in Hhd. discriminate Hhd. }
    destruct (Config.ML_MODEL_RETRAIN_INTERVAL
              <? utcnow w - MLModel.created_at latest_model).
    + unfold MLService.deactivate, bind at 1, modify.
      unfold bind at 1, db.commit.
      destruct (store_fault w update_model) as [e|].
      * eexists _, _. split; [reflexivity|]. split; [discriminate|].
        intros _ Hnil. contradiction.
      * cbn [db.with_session session stored journal ml wire].
        match goal with
        | |- context [MLService.train_isolation_forest w ?r ?s1] =>
            destruct (train_isolation_forest_total w r s1)
              as [s' [result Hrun]]; rewrite Hrun
        end.
        exists s', result. split; [reflexivity|]. split; [discriminate|].
        intros _ Hnil. contradiction.
    + eexists _, _. split; [reflexivity|]. split; [discriminate|].
      intros _ Hnil. contradiction.
  - destruct (train_isolation_forest_total w MLService.default_rate s)
      as [s' [result Hrun]]. rewrite Hrun.
    exists s', result. split; [reflexivity|]. split; [discriminate|].
    now intros _ _.
Qed.

(** X16. Calls of [retrain_if_needed] alone keep the store with at most
    one active snapshot of each kind, whatever the collaborators answer
    in each call: the old snapshot is deactivated before the new one is
    written. *)
Theorem retraining_keeps_single_active (ops : list (World * Op)) (s : Sys) :
  Forall (fun step => snd step = op_retrain_if_needed) ops ->
  model_type (ml s) = "IsolationForest" ->
  single_active (session s) ->
  single_active (stored s) ->
  single_active (stored (run_ops ops s)).
Proof.
  intros Hops Hkind Hsession Hstored.
  apply (retraining_alone_keeps_invariant ops s Hops).
  now repeat split.
Qed.

Lemma retraining_keeps_single_active_witness :
  single_active
    (stored
       (run_ops
          [ (Sample.calm Sample.noon, op_retrain_if_needed);
            (Sample.calm (Sample.noon + datetime.days 2), op_retrain_if_needed);
            (Sample.gateways_down (Sample.noon + datetime.days 4),
             op_retrain_if_needed) ]
          (Sample.quiet Scene.fifty_readings))).
Proof.
  apply retraining_keeps_single_active.
  - repeat constructor.
  - reflexivity.
  - intros kind. cbn. lia.
  - intros kind. cbn. lia.
Defined.

(* ------------------------------------------------------------------ *)
(** ** Saving and reading back *)

Lemma firstn_StronglySorted {A} (R : A -> A -> Prop) (n : nat) (l : list A) :
  StronglySorted R l -> StronglySorted R (firstn n l).
Proof.
  revert l. induction n as [|n IH]; intros l Hsorted; [constructor|].
  destruct l as [|a l]; [constructor|].
  inversion Hsorted as [|? ? Hl Ha]; subst. cbn [firstn].
  constructor; [now apply IH|].
  rewrite Forall_forall in *. intros x Hx. apply Ha.
  rewrite <- (firstn_skipn n l). apply in_or_app. now left.
Qed.

(** The rows [order_by(timestamp.desc()).limit(limit)] gives of [rows]:
    the newest, newest first. *)
Lemma newest_first {R} (key : R -> Z) (limit : nat) (rows : list R) :
  List.length (firstn limit (db.order_by_desc key rows))
  = Nat.min limit (List.length rows)
  /\ StronglySorted (fun a b => key b <= key a)
                    (firstn limit (db.order_by_desc key rows))
  /\ exists rest,
       Permutation rows (firstn limit (db.order_by_desc key rows) ++ rest)
       /\ forall x y,
            In x (firstn limit (db.order_by_desc key rows)) ->
            In y rest -> key y <= key x.
Proof.
  split; [now rewrite length_firstn, order_by_desc_length|].
  split; [apply firstn_StronglySorted, order_by_desc_sorted|].
  exists (skipn limit (db.order_by_desc key rows)). split.
  - rewrite firstn_skipn. apply order_by_desc_Permutation.
  - apply firstn_sorted_desc, order_by_desc_sorted.
Qed.

Lemma filter_true {A} (l : list A) : filter (fun _ => true) l = l.
Proof. induction l as [|x l IH]; [reflexivity|]. cbn. now rewrite IH. Qed.

(** X17. [save_reading] either commits the new reading, with the
    defaults of the columns (not an anomaly, score 0.0, level normal, no
    alert sent), and returns it, or rolls the session back and raises
    the error of the store: it is the one function of the services that
    lets a failure of the store through. *)
Theorem save_reading_commits_or_raises env sensor_data s :
  (fault_at env insert_reading = None ->
   exists reading s',
     SensorStore.save_reading env sensor_data s = (s', Return reading)
     /\ sensor_readings (stored s')
        = (sensor_readings (session s) ++ [reading])%list
     /\ session s' = stored s'
     /\ SensorReading.timestamp reading = data_timestamp sensor_data
     /\ SensorReading.vibration reading = data_vibration sensor_data
     /\ SensorReading.strain reading = data_strain sensor_data
     /\ SensorReading.temperature reading = data_temperature sensor_data
     /\ SensorReading.is_anomaly reading = false
     /\ SensorReading.anomaly_score reading = PyFloat.zero
     /\ SensorReading.alert_level reading = "normal"
     /\ SensorReading.alert_sent reading = false)
  /\ (forall e, fault_at env insert_reading = Some e ->
      exists s',
        SensorStore.save_reading env sensor_data s = (s', Raise e)
        /\ stored s' = stored s
        /\ session s' = stored s
        /\ journal s' = journal s).
Proof.
  unfold SensorStore.save_reading, SensorStore.add_reading, store.commit.
  run. split.
  - intros ->. eexists _, _. split; [reflexivity|]. cbn.
    repeat split; reflexivity.
  - intros e ->. eexists. split; [reflexivity|]. cbn.
    repeat split; reflexivity.
Qed.

Lemma save_reading_commits_or_raises_witness :
  exists reading s',
    SensorStore.save_reading
      (mkEnv (fun _ => None) (fun _ _ => PyFloat.zero) (fun _ _ => PyFloat.zero)
             None None None)
      (mkSensorData Sample.noon (PyFloat.mk 26 (-1)) (PyFloat.mk 3 (-1))
                    (PyFloat.of_int 25))
      (Sample.quiet Scene.fifty_readings)
    = (s', Return reading)
    /\ SensorReading.id reading = 51%nat
    /\ SensorReading.alert_level reading = "normal".
Proof.
  destruct (proj1 (save_reading_commits_or_raises
                     (mkEnv (fun _ => None) (fun _ _ => PyFloat.zero)
                            (fun _ _ => PyFloat.zero) None None None)
                     (mkSensorData Sample.noon (PyFloat.mk 26 (-1))
                                   (PyFloat.mk 3 (-1)) (PyFloat.of_int 25))
                     (Sample.quiet Scene.fifty_readings)) eq_refl)
    as [reading [s' [Hrun [_ [_ [_ [_ [_ [_ [_ [_ [Hlevel _]]]]]]]]]]]].
  exists reading, s'. split; [exact Hrun|]. split; [|exact Hlevel].
  vm_compute in Hrun. now injection Hrun as _ <-.
Defined.

(** X18. [get_readings] never raises and changes nothing.  With the
    store answering it returns the [limit] newest readings, or all of
    them when there are fewer, newest first: no reading left out is
    newer than one returned.  With the store failing it returns the
    empty list. *)
Theorem get_readings_newest_first env limit s :
  exists rows,
    SensorStore.get_readings env limit s = (s, Return rows)
    /\ (forall e, fault_at env latest_readings = Some e -> rows = [])
    /\ (fault_at env latest_readings = None ->
        List.length rows
        = Nat.min limit (List.length (sensor_readings (session s)))
        /\ StronglySorted
             (fun a b => SensorReading.timestamp b <= SensorReading.timestamp a)
             rows
        /\ exists rest,
             Permutation (sensor_readings (session s)) (rows ++ rest)
             /\ forall x y,
                  In x rows -> In y rest ->
                  SensorReading.timestamp y <= SensorReading.timestamp x).
Proof.
  unfold SensorStore.get_readings, store.select. run.
  destruct (fault_at env latest_readings) as [e|].
  - exists []. split; [reflexivity|]. split; [reflexivity|discriminate].
  - eexists. split; [reflexivity|]. split; [discriminate|].
    intros _. rewrite filter_true. apply newest_first.
Qed.

(** X19. [get_readings_by_date_range] never raises and changes nothing.
    With the store answering it returns exactly the readings whose
    timestamp is between the two dates, both included, newest first;
    with the store failing, the empty list. *)
Theorem get_readings_by_date_range_exact env start_date end_date s :
  exists rows,
    SensorStore.get_readings_by_date_range env start_date end_date s
    = (s, Return rows)
    /\ (forall e, fault_at env readings_in_range = Some e -> rows = [])
    /\ (fault_at env readings_in_range = None ->
        (forall r,
           In r rows
           <-> In r (sensor_readings (session s))
               /\ start_date <= SensorReading.timestamp r <= end_date)
        /\ List.length rows
           = List.length
               (filter (fun r =>
                          (start_date <=? SensorReading.timestamp r)
                          && (SensorReading.timestamp r <=? end_date))
                       (sensor_readings (session s)))
        /\ StronglySorted
             (fun a b => SensorReading.timestamp b <= SensorReading.timestamp a)
             rows).
Proof.
  unfold SensorStore.get_readings_by_date_range, store.select. run.
  destruct (fault_at env readings_in_range) as [e|].
  - exists []. split; [reflexivity|]. split; [reflexivity|discriminate].
  - eexists. split; [reflexivity|]. split; [discriminate|].
    intros _. split; [|split].
    + intros r. rewrite order_by_desc_In, filter_In, andb_true_iff.
      rewrite !Z.leb_le. tauto.
    + apply order_by_desc_length.
    + apply order_by_desc_sorted.
Qed.

(* ------------------------------------------------------------------ *)
(** ** The reports *)

Lemma filter_length_all {A} (p : A -> bool) (l : list A) :
  (List.length (filter p l) <= List.length l)%nat.
Proof.
  induction l as [|x l IH]; [reflexivity|].
  cbn [filter]. destruct (p x); cbn [List.length]; lia.
Qed.

(** Two filters that exclude each other, both within a third. *)
Lemma filter_length_disjoint {A} (p q r : A -> bool) (l : list A) :
  (forall x, p x = true -> r x = true) ->
  (forall x, q x = true -> r x = true) ->
  (forall x, p x = true -> q x = true -> False) ->
  (List.length (filter p l) + List.length (filter q l)
   <= List.length (filter r l))%nat.
Proof.
  intros Hp Hq Hpq. induction l as [|x l IH]; [reflexivity|].
  cbn [filter].
  destruct (p x) eqn:Hpx, (q x) eqn:Hqx.
  - exfalso. now apply (Hpq x).
  - rewrite (Hp x Hpx). cbn [List.length]. lia.
  - rewrite (Hq x Hqx). cbn [List.length]. lia.
  - destruct (r x); cbn [List.length]; lia.
Qed.

(** X20. [get_statistics] never raises and changes nothing.  It counts
    the readings of the last 24 hours; the anomalies and the alerts it
    reports are never more than that total; with no such reading, or
    with the store failing, every figure is zero. *)
Theorem get_statistics_counts w env s :
  exists stats,
    SensorStore.get_statistics w env s = (s, Return stats)
    /\ (anomalies stats <= total_readings stats)%nat
    /\ (alerts stats <= total_readings stats)%nat
    /\ (forall e, fault_at env readings_of_the_day = Some e ->
                  stats = SensorStore.no_statistics)
    /\ (fault_at env readings_of_the_day = None ->
        total_readings stats
        = List.length
            (filter (fun r => utcnow w - 24 * 3600 * 1000000
                              <=? SensorReading.timestamp r)
                    (sensor_readings (session s)))
        /\ (total_readings stats = 0%nat -> stats = SensorStore.no_statistics)).
Proof.
  unfold SensorStore.get_statistics, store.select. run.
  destruct (fault_at env readings_of_the_day) as [e|].
  - exists SensorStore.no_statistics. split; [reflexivity|].
    split; [reflexivity|]. split; [reflexivity|].
    split; [reflexivity|discriminate].
  - match goal with |- context [match ?rows with [] => _ | _ :: _ => _ end] =>
      change rows with
        (filter (fun r => utcnow w - 24 * 3600 * 1000000
                          <=? SensorReading.timestamp r)
                (sensor_readings (session s)));
      destruct (filter (fun r => utcnow w - 24 * 3600 * 1000000
                                 <=? SensorReading.timestamp r)
                       (sensor_readings (session s))) as [|r0 readings]
    end.
    + exists SensorStore.no_statistics. split; [reflexivity|].
      split; [reflexivity|]. split; [reflexivity|].
      split; [discriminate|]. intros _. now split.
    + eexists. split; [reflexivity|].
      cbn [anomalies alerts total_readings].
      split; [apply filter_length_all|].
      split; [apply filter_length_all|].
      split; [discriminate|]. intros _. split; [reflexivity|].
      cbn [List.length]. discriminate.
Qed.

Section AlertStatistics.

Variable w : World.
Variable env : Env.

Lemma count_since_run query yesterday where_ s :
  AlertReports.count_since env query yesterday where_ s
  = match fault_at env (statistics_of_alerts query) with
    | Some e => (s, Raise e)
    | None =>
        (s, Return (List.length
                      (filter (fun a => (yesterday <=? AlertLog.sent_at a)
                                        && where_ a)
                              (alert_logs (session s)))))
    end.
Proof.
  unfold AlertReports.count_since, store.select. run.
  now destruct (fault_at env (statistics_of_alerts query)).
Qed.

End AlertStatistics.

(** X21. [get_alert_statistics] never raises and changes nothing.  The
    failures it reports are the total less the successes and are never
    negative; the e-mails and the SMS together, and the critical and the
    warning alerts together, are never more than the total; when one of
    its six queries fails every figure is zero. *)
Theorem get_alert_statistics_consistent w env s :
  exists stats,
    AlertReports.get_alert_statistics w env s = (s, Return stats)
    /\ failed_alerts stats
       = Z.of_nat (total_alerts stats) - Z.of_nat (successful_alerts stats)
    /\ 0 <= failed_alerts stats
    /\ (email_alerts stats + sms_alerts stats <= total_alerts stats)%nat
    /\ (critical_alerts stats + warning_alerts stats <= total_alerts stats)%nat
    /\ (total_alerts stats = 0%nat -> success_rate stats = int_ 0)
    /\ (forall query e,
          (query < 6)%nat ->
          fault_at env (statistics_of_alerts query) = Some e ->
          stats = AlertReports.no_statistics).
Proof.
  assert (Hzero : exists stats,
             (s, Return AlertReports.no_statistics) = (s, Return stats)
             /\ failed_alerts stats
                = Z.of_nat (total_alerts stats)
                  - Z.of_nat (successful_alerts stats)
             /\ 0 <= failed_alerts stats
             /\ (email_alerts stats + sms_alerts stats
                 <= total_alerts stats)%nat
             /\ (critical_alerts stats + warning_alerts stats
                 <= total_alerts stats)%nat
             /\ (total_alerts stats = 0%nat -> success_rate stats = int_ 0)
             /\ (forall query e,
                   (query < 6)%nat ->
                   fault_at env (statistics_of_alerts query) = Some e ->
                   stats = AlertReports.no_statistics)).
  { exists AlertReports.no_statistics. cbn. repeat split; try reflexivity; lia. }
  unfold AlertReports.get_alert_statistics, try_except.
  unfold bind at 1. rewrite count_since_run.
  destruct (fault_at env (statistics_of_alerts 0)) as [e0|] eqn:H0;
    [exact Hzero|].
  unfold bind at 1. rewrite count_since_run.
  destruct (fault_at env (statistics_of_alerts 1)) as [e1|] eqn:H1;
    [exact Hzero|].
  unfold bind at 1. rewrite count_since_run.
  destruct (fault_at env (statistics_of_alerts 2)) as [e2|] eqn:H2;
    [exact Hzero|].
  unfold bind at 1. rewrite count_since_run.
  destruct (fault_at env (statistics_of_alerts 3)) as [e3|] eqn:H3;
    [exact Hzero|].
  unfold bind at 1. rewrite count_since_run.
  destruct (fault_at env (statistics_of_alerts 4)) as [e4|] eqn:H4;
    [exact Hzero|].
  unfold bind at 1. rewrite count_since_run.
  destruct (fault_at env (statistics_of_alerts 5)) as [e5|] eqn:H5;
    [exact Hzero|].
  unfold ret. eexists. split; [reflexivity|].
  cbn [failed_alerts total_alerts successful_alerts email_alerts sms_alerts
       critical_alerts warning_alerts success_rate].
  split; [reflexivity|]. split.
  { pose proof (filter_length_le
                  (fun a => (utcnow w - datetime.days 1 <=? AlertLog.sent_at a)
                            && Bool.eqb (AlertLog.success a) true)
                  (fun a => (utcnow w - datetime.days 1 <=? AlertLog.sent_at a)
                            && true)
                  (alert_logs (session s))) as Hle.
    assert (Himp : forall x : AlertLog.t,
               (utcnow w - datetime.days 1 <=? AlertLog.sent_at x)
               && Bool.eqb (AlertLog.success x) true = true ->
               (utcnow w - datetime.days 1 <=? AlertLog.sent_at x) && true
               = true).
    { intros x Hx. apply andb_prop in Hx. destruct Hx as [-> _]. reflexivity. }
    specialize (Hle Himp). lia. }
  split.
  { apply filter_length_disjoint.
    - intros x Hx. apply andb_prop in Hx. destruct Hx as [-> _]. reflexivity.
    - intros x Hx. apply andb_prop in Hx. destruct Hx as [-> _]. reflexivity.
    - intros x Hp Hq. apply andb_prop in Hp, Hq.
      destruct Hp as [_ Hp], Hq as [_ Hq].
      apply String.eqb_eq in Hp, Hq. congruence. }
  split.
  { apply filter_length_disjoint.
    - intros x Hx. apply andb_prop in Hx. destruct Hx as [-> _]. reflexivity.
    - intros x Hx. apply andb_prop in Hx. destruct Hx as [-> _]. reflexivity.
    - intros x Hp Hq. apply andb_prop in Hp, Hq.
      destruct Hp as [_ Hp], Hq as [_ Hq].
      apply String.eqb_eq in Hp, Hq. congruence. }
  split.
  { intros ->. reflexivity. }
  intros query e Hquery Hfault.
  do 6 (destruct query as [|query]; [congruence|]). lia.
Qed.

(** X22. [get_alert_history] never raises and changes nothing.  With
    the store answering it returns the dictionaries of the [limit] most
    recent alert records, or of all of them when there are fewer, most
    recent first; with the store failing, the empty list. *)
Theorem get_alert_history_recent_first env limit s :
  exists history,
    AlertReports.get_alert_history env limit s = (s, Return history)
    /\ (List.length history <= limit)%nat
    /\ (forall e, fault_at env history_of_alerts = Some e -> history = [])
    /\ (fault_at env history_of_alerts = None ->
        exists alerts,
          history = map to_dict.of_alert alerts
          /\ List.length alerts
             = Nat.min limit (List.length (alert_logs (session s)))
          /\ StronglySorted
               (fun a b => AlertLog.sent_at b <= AlertLog.sent_at a) alerts
          /\ exists rest,
               Permutation (alert_logs (session s)) (alerts ++ rest)
               /\ forall x y, In x alerts -> In y rest ->
                              AlertLog.sent_at y <= AlertLog.sent_at x).
Proof.
  unfold AlertReports.get_alert_history, store.select. run.
  destruct (fault_at env history_of_alerts) as [e|].
  - exists []. split; [reflexivity|]. split; [cbn; lia|].
    split; [reflexivity|discriminate].
  - eexists. split; [reflexivity|].
    split; [rewrite length_map, length_firstn; apply Nat.le_min_l|].
    split; [discriminate|]. intros _.
    eexists. split; [reflexivity|]. rewrite filter_true.
    apply newest_first.
Qed.

(* ------------------------------------------------------------------ *)
(** ** The model information *)

(** The truth test of [get_model_info] stands before its [try]: with an
    ensemble that was never fitted it raises. *)
Lemma get_model_info_unfitted_ensemble w s contamination random_state
    n_estimators :
  model (ml s)
  = Some (mkModel (IsolationForest contamination random_state n_estimators) None) ->
  MLInfo.get_model_info w s
  = (s, Raise "'IsolationForest' object has no attribute 'estimators_'").
Proof.
  intros Hmodel. unfold MLInfo.get_model_info.
  rewrite (bind_Return get _ s s s eq_refl). rewrite Hmodel. reflexivity.
Qed.

(** The truth test passes for a [OneClassSVM], fitted or not, and for an
    [IsolationForest] once it is fitted and has trees. *)
Lemma truth_of_model_true (x : option Model) :
  MLService.truth_of_model x = Return true
  <-> exists m,
        x = Some m
        /\ match estimator m with
           | IsolationForest _ _ n_estimators =>
               fitted_on m <> None /\ n_estimators <> 0
           | OneClassSVM _ _ _ => True
           end.
Proof.
  unfold MLService.truth_of_model, MLService.estimators_length. split.
  - destruct x as [[[c r n|nu k g] [fitted|]]|]; try discriminate;
      intros Htruth; eexists; (split; [reflexivity|]); cbn; auto.
    split; [discriminate|]. intros ->. discriminate Htruth.
  - intros [m [-> Hm]]. destruct m as [[c r n|nu k g] [fitted|]];
      cbn in *; try reflexivity.
    + destruct Hm as [_ Hn]. apply Z.eqb_neq in Hn. now rewrite Hn.
    + destruct Hm as [Hfitted _]. contradiction.
Qed.

(** X23. With a model in memory whose truth test passes (a fitted
    [IsolationForest] or a [OneClassSVM]), [get_model_info] returns and
    changes nothing: with the store answering it returns the dictionary
    of the active snapshot of the kind that was created last, or that no
    metadata was found when none is active; with the store failing, the
    error of the store. *)
Theorem get_model_info_newest_active w s :
  MLService.truth_of_model (model (ml s)) = Return true ->
  exists info,
    MLInfo.get_model_info w s = (s, Return info)
    /\ (forall e, store_fault w select_model = Some e -> info = no_info e)
    /\ (store_fault w select_model = None ->
        (active_snapshots (model_type (ml s)) (session s) = [] ->
         info = no_info "No model metadata found")
        /\ (active_snapshots (model_type (ml s)) (session s) <> [] ->
            exists snapshot,
              info = model_info_of (to_dict.of_model snapshot)
              /\ In snapshot (active_snapshots (model_type (ml s)) (session s))
              /\ forall other,
                   In other (active_snapshots (model_type (ml s)) (session s)) ->
                   MLModel.created_at other <= MLModel.created_at snapshot)).
Proof.
  intros Htruth. unfold MLInfo.get_model_info.
  rewrite (bind_Return get _ s s s eq_refl).
  rewrite (bind_Return _ _ s s true (f_equal (pair s) Htruth)). cbn [negb].
  unfold try_except, bind. rewrite latest_active_run.
  destruct (store_fault w select_model) as [e|].
  { exists (no_info e). split; [reflexivity|]. split; [|discriminate].
    intros e' He'. now injection He' as <-. }
  destruct (hd_error _) as [snapshot|] eqn:Hhd.
  - exists (model_info_of (to_dict.of_model snapshot)).
    split; [reflexivity|]. split; [discriminate|]. intros _. split.
    + intros Hnil. rewrite Hnil in Hhd. discriminate Hhd.
    + intros _. exists snapshot. split; [reflexivity|]. split.
      * now apply (hd_order_by_desc_Some MLModel.created_at).
      * apply Forall_forall.
        now apply (order_by_desc_head MLModel.created_at).
  - exists (no_info "No model metadata found").
    split; [reflexivity|]. split; [discriminate|]. intros _. split.
    + reflexivity.
    + intros Hsome. apply hd_order_by_desc_None in Hhd. contradiction.
Qed.

Lemma get_model_info_newest_active_witness :
  exists info,
    MLInfo.get_model_info (Sample.calm Sample.noon)
      (mkSys Scene.stale Scene.stale []
             (mkMLService
                (Some (mkModel (IsolationForest MLService.default_rate 42 100)
                               (Some [])))
                None "IsolationForest") [])
    = (mkSys Scene.stale Scene.stale []
             (mkMLService
                (Some (mkModel (IsolationForest MLService.default_rate 42 100)
                               (Some [])))
                None "IsolationForest") [],
       Return info).
Proof.
  destruct (get_model_info_newest_active (Sample.calm Sample.noon)
              (mkSys Scene.stale Scene.stale []
                     (mkMLService
                        (Some (mkModel
                                 (IsolationForest MLService.default_rate 42 100)
                                 (Some [])))
                        None "IsolationForest") [])
              eq_refl) as [info [Hrun _]].
  now exists info.
Defined.

(** X24. The route [/api/ml/info] constructs its own service, which
    holds no model: whatever the store holds and whatever the
    collaborators answer, it answers 200 with the error "No model
    loaded" and never reads the store. *)
Theorem model_info_route_finds_no_model w s :
  MLInfo.model_info w s
  = (renewed s, Return (http_ok (no_info "No model loaded"))).
Proof. reflexivity. Qed.

(* ------------------------------------------------------------------ *)
(** ** The class methods of the readings *)

Lemma firstn_In {A} (n : nat) (l : list A) (x : A) :
  In x (firstn n l) -> In x l.
Proof.
  intros Hx. rewrite <- (firstn_skipn n l). apply in_or_app. now left.
Qed.

(** X25. [SensorReading.get_anomalies] and [SensorReading.get_alerts]
    return at most [limit] readings, newest first, all of them anomalies,
    respectively all of the level asked for; with the store failing they
    raise its error, there is no [try] around them. *)
Theorem class_queries_filter env limit alert_level s :
  (forall e, fault_at env class_query = Some e ->
     SensorReadingQuery.get_anomalies env limit s = (s, Raise e)
     /\ SensorReadingQuery.get_alerts env alert_level limit s = (s, Raise e))
  /\ (fault_at env class_query = None ->
      exists anomalous alerting,
        SensorReadingQuery.get_anomalies env limit s = (s, Return anomalous)
        /\ SensorReadingQuery.get_alerts env alert_level limit s
           = (s, Return alerting)
        /\ (List.length anomalous <= limit)%nat
        /\ (List.length alerting <= limit)%nat
        /\ (forall r, In r anomalous ->
                      In r (sensor_readings (session s))
                      /\ SensorReading.is_anomaly r = true)
        /\ (forall r, In r alerting ->
                      In r (sensor_readings (session s))
                      /\ SensorReading.alert_level r = alert_level)
        /\ StronglySorted
             (fun a b => SensorReading.timestamp b <= SensorReading.timestamp a)
             anomalous
        /\ StronglySorted
             (fun a b => SensorReading.timestamp b <= SensorReading.timestamp a)
             alerting).
Proof.
  unfold SensorReadingQuery.get_anomalies, SensorReadingQuery.get_alerts,
    store.select. run.
  split.
  - intros e ->. now split.
  - intros ->. eexists _, _. split; [reflexivity|]. split; [reflexivity|].
    split; [rewrite length_firstn; apply Nat.le_min_l|].
    split; [rewrite length_firstn; apply Nat.le_min_l|].
    split.
    { intros r Hr. apply firstn_In in Hr.
      apply order_by_desc_In, filter_In in Hr. destruct Hr as [Hin Hr].
      split; [exact Hin|]. now destruct (SensorReading.is_anomaly r). }
    split.
    { intros r Hr. apply firstn_In in Hr.
      apply order_by_desc_In, filter_In in Hr. destruct Hr as [Hin Hr].
      split; [exact Hin|]. now apply String.eqb_eq. }
    split; apply firstn_StronglySorted, order_by_desc_sorted.
Qed.

(* ------------------------------------------------------------------ *)
(** ** A service constructed for each request *)

(** X26. A service just constructed holds no model, so scoring with it
    trains first: the state after the scoring is the state after
    [train_isolation_forest], and when that training reports a model the
    store holds one more active IsolationForest snapshot than the
    session held before. *)
Theorem scoring_with_new_service_trains w reading s :
  exists s' result,
    MLService.train_isolation_forest w MLService.default_rate (renewed s)
    = (s', Return result)
    /\ fst (score_with_new_service w reading s) = s'
    /\ (has_error result = true ->
        score_with_new_service w reading s
        = (s', Return (false, PyFloat.zero)))
    /\ (has_error result = false ->
        List.length (active_snapshots "IsolationForest" (stored s'))
        = S (List.length (active_snapshots "IsolationForest" (session s)))).
Proof.
  destruct (train_isolation_forest_run w MLService.default_rate (renewed s))
    as [s' [result [Htrain [_ Hout]]]].
  exists s', result. split; [exact Htrain|].
  assert (Hscore : score_with_new_service w reading s
                   = if has_error result
                     then (s', Return (false, PyFloat.zero))
                     else scoring w reading s').
  { change (score_with_new_service w reading s)
      with (MLService.predict_anomaly w reading (renewed s)).
    rewrite predict_anomaly_unfold.
    cbn [renewed ml MLService.__init__ model scaler MLService.truth_of_model
         MLService.truth_of_scaler negb orb].
    fold (renewed s). now rewrite Htrain. }
  rewrite Hscore. split; [|split].
  - destruct (has_error result); [reflexivity|].
    destruct (scoring_run w reading s') as [b [x [Hrun _]]].
    now rewrite Hrun.
  - now intros ->.
  - intros Herr.
    exact (training_deactivates_nothing w "IsolationForest" (renewed s) s'
             result Hout Herr).
Qed.

(* ------------------------------------------------------------------ *)
(** ** A service without Twilio *)

(** X27. An [AlertService] constructed without the account SID or
    without the token holds no Twilio client, and a dispatch by it hands
    nothing to Twilio, at the level critical included: every SMS call
    among the gateway calls after the dispatch was there before. *)
Theorem no_credentials_no_sms w env reading alert_level messages s :
  AlertService.falsy (TWILIO_ACCOUNT_SID env) = true
  \/ AlertService.falsy (TWILIO_AUTH_TOKEN env) = true ->
  twilio_client (AlertReports.__init__ env) = false
  /\ filter is_sms
       (wire (fst (AlertService.check_and_send_alerts w
                     (AlertReports.__init__ env) reading alert_level
                     messages s)))
     = filter is_sms (wire s).
Proof.
  intros Hcred.
  assert (Hclient : twilio_client (AlertReports.__init__ env) = false).
  { unfold AlertReports.__init__, AlertReports._init_twilio.
    cbn [twilio_client].
    destruct Hcred as [-> | ->]; cbn [negb andb]; [reflexivity|].
    now rewrite andb_false_r. }
  split; [exact Hclient|].
  destruct (String.eqb_spec alert_level "normal") as [Hnormal|Hlevel].
  { subst alert_level. reflexivity. }
  destruct (SensorReading.alert_sent reading) eqn:Hsent.
  { now rewrite dispatch_already_sent by exact Hsent. }
  destruct (fatigue_total w alert_level s) as [[|] Hgate].
  { now rewrite dispatch_suppressed by assumption. }
  rewrite (dispatch_steps w (AlertReports.__init__ env) reading alert_level
             messages s Hlevel Hsent Hgate).
  pose proof (send_email_alert_wire w reading alert_level messages
                "admin@example.com" s) as Hwire.
  assert (Hmail : forall s1,
             wire s1
             = (wire s ++ (if AlertService.falsy (MAIL_USERNAME w) then []
                           else [email_message w reading alert_level messages
                                               "admin@example.com"]))%list ->
             filter is_sms (wire s1) = filter is_sms (wire s)).
  { intros s1 ->. rewrite filter_app.
    destruct (AlertService.falsy (MAIL_USERNAME w)); cbn;
      now rewrite app_nil_r. }
  destruct (AlertService.send_email_alert w reading alert_level messages
              "admin@example.com" s) as [s1 [r1|e]]; cbn [fst] in Hwire.
  - destruct (alert_level =? "critical")%string.
    + rewrite send_sms_alert_unconfigured by exact Hclient.
      rewrite finish_wire. now apply Hmail.
    + rewrite finish_wire. now apply Hmail.
  - cbn [fst]. now apply Hmail.
Qed.

Lemma no_credentials_no_sms_witness :
  filter is_sms
    (wire (fst (AlertService.check_and_send_alerts (Sample.calm Sample.noon)
                  (AlertReports.__init__
                     (mkEnv (fun _ => None) (fun _ _ => PyFloat.zero)
                            (fun _ _ => PyFloat.zero) (Some "AC01") None None))
                  (Sample.reading_at 1 Sample.noon) "critical"
                  ["Vibration critical: 2.6 >= 2.5"]
                  (Sample.quiet
                     (mkTables [Sample.reading_at 1 Sample.noon] [] [])))))
  = [].
Proof.
  exact (proj2 (no_credentials_no_sms (Sample.calm Sample.noon)
                  (mkEnv (fun _ => None) (fun _ _ => PyFloat.zero)
                         (fun _ _ => PyFloat.zero) (Some "AC01") None None)
                  (Sample.reading_at 1 Sample.noon) "critical"
                  ["Vibration critical: 2.6 >= 2.5"]
                  (Sample.quiet
                     (mkTables [Sample.reading_at 1 Sample.noon] [] []))
                  (or_intror eq_refl))).
Defined.
